(** * NiceHash Remote: request signing, rig telemetry and the Autopilot loop

    A shallow embedding of the three TypeScript sources of the app:

    - [nicehash/api]      : [getAuthHeader] and [Api.apiCall];
    - [nicehash-rig/device] : [NiceHashRigDevice.syncRigDetails], the
      per-tick telemetry normalisation, profitability evaluation and
      Autopilot start/stop logic;
    - [dashboard/device]  : [NiceHashDashboard.gatherDetails].

    JavaScript numbers are IEEE-754 binary64 values.  The embedding is
    written once over an interface [JsNumber] of the operations the
    sources use, and the interface has two instances: [f64], the
    binary64 semantics itself (on [spec_float]), and [Q], exact rational
    arithmetic, which is what the sources compute wherever no rounding,
    overflow or division by zero takes place. *)

From Stdlib Require Import ZArith QArith Qround Qpower Bool List String Ascii Lia.
From Stdlib Require Import SpecFloat PrimFloat FloatOps DecimalString.
From Stdlib Require Import Lqa.
Import ListNotations.

Set Implicit Arguments.

(** ** JavaScript numbers *)

Class JsNumber (num : Type) : Type := {
  js_of_Z   : Z -> num;            (* an integer literal or integer value *)
  js_add    : num -> num -> num;   (* a + b *)
  js_sub    : num -> num -> num;   (* a - b *)
  js_mul    : num -> num -> num;   (* a * b *)
  js_div    : num -> num -> num;   (* a / b *)
  js_lt     : num -> num -> bool;  (* a < b *)
  js_seq    : num -> num -> bool;  (* a === b *)
  js_truthy : num -> bool;         (* ToBoolean(a) *)
  js_max    : num -> num -> num;   (* Math.max(a, b) *)
  js_round  : num -> num           (* Math.round(a) *)
}.

Declare Scope js_scope.
Delimit Scope js_scope with js.
Notation "a + b" := (js_add a b) : js_scope.
Notation "a - b" := (js_sub a b) : js_scope.
Notation "a * b" := (js_mul a b) : js_scope.
Notation "a / b" := (js_div a b) : js_scope.
Notation "a < b" := (js_lt a b) : js_scope.
Notation "a > b" := (js_lt b a) : js_scope.
Notation "a === b" := (js_seq a b) (at level 70, no associativity) : js_scope.

(** [a || b] on numbers. *)
Definition js_or {num} `{JsNumber num} (a b : num) : num :=
  if js_truthy a then a else b.

(** A decimal literal [n / 10^k] written in the source, such as [0.001]:
    the number nearest to the quotient, which is what the correctly
    rounded division of the two integers returns. *)
Definition js_decimal {num} `{JsNumber num} (n d : Z) : num :=
  (js_of_Z n / js_of_Z d)%js.

(** *** binary64 *)

Definition f64 : Type := spec_float.

Module F64.

Definition prec : Z := 53.
Definition emax : Z := 1024.

Definition of_Z (z : Z) : f64 := binary_normalize prec emax z 0 false.
Definition add : f64 -> f64 -> f64 := SFadd prec emax.
Definition sub : f64 -> f64 -> f64 := SFsub prec emax.
Definition mul : f64 -> f64 -> f64 := SFmul prec emax.
Definition div : f64 -> f64 -> f64 := SFdiv prec emax.
Definition ltb : f64 -> f64 -> bool := SFltb.
Definition eqb : f64 -> f64 -> bool := SFeqb.

(** ToBoolean: false on [+0], [-0] and [NaN]. *)
Definition truthy (x : f64) : bool :=
  match x with
  | S754_zero _ | S754_nan => false
  | _ => true
  end.

(** Math.max of two arguments: [NaN] if either is, and [+0] above [-0]. *)
Definition max (a b : f64) : f64 :=
  match a, b with
  | S754_nan, _ | _, S754_nan => S754_nan
  | S754_zero sa, S754_zero sb => S754_zero (sa && sb)
  | _, _ => if SFltb a b then b else a
  end.

(** Math.round: [floor (x + 1/2)] computed exactly, keeping the sign
    of a zero result; integers, infinities and [NaN] are returned
    unchanged. *)
Definition round (x : f64) : f64 :=
  match x with
  | S754_finite s m e =>
      if (0 <=? e)%Z then x
      else
        let n := Z.shiftr (cond_Zopp s (Zpos m~0) + 2 ^ (- e)) (1 - e) in
        if (n =? 0)%Z then S754_zero s else of_Z n
  | _ => x
  end.

Definition is_finite (x : f64) : bool :=
  match x with
  | S754_zero _ | S754_finite _ _ _ => true
  | S754_infinity _ | S754_nan => false
  end.

End F64.

#[export] Instance f64_JsNumber : JsNumber f64 := {
  js_of_Z := F64.of_Z;
  js_add := F64.add;
  js_sub := F64.sub;
  js_mul := F64.mul;
  js_div := F64.div;
  js_lt := F64.ltb;
  js_seq := F64.eqb;
  js_truthy := F64.truthy;
  js_max := F64.max;
  js_round := F64.round
}.

(** *** Exact rationals *)

Module QNum.

Definition ltb (a b : Q) : bool := negb (Qle_bool b a).
Definition truthy (a : Q) : bool := negb (Qeq_bool a 0).
Definition max (a b : Q) : Q := if ltb a b then b else a.
Definition round (a : Q) : Q := inject_Z (Qfloor (a + (1 # 2))).

End QNum.

#[export] Instance Q_JsNumber : JsNumber Q := {
  js_of_Z := inject_Z;
  js_add := Qplus;
  js_sub := Qminus;
  js_mul := Qmult;
  js_div := Qdiv;
  js_lt := QNum.ltb;
  js_seq := Qeq_bool;
  js_truthy := QNum.truthy;
  js_max := QNum.max;
  js_round := QNum.round
}.

(** ** Strings *)

Open Scope string_scope.

(** The separator ['\0'] of the signed message. *)
Definition NUL : string := String "000"%char "".

(** ToBoolean on a string: only the empty string is falsy. *)
Definition str_truthy (s : string) : bool :=
  match s with
  | "" => false
  | _ => true
  end.

(** [Number.prototype.toString] on an integer value. *)
Definition toString (z : Z) : string := NilZero.string_of_int (Z.to_int z).

(** [s.split(c)]: the pieces of [s] between the occurrences of [c]. *)
Fixpoint split (c : ascii) (s : string) : list string :=
  match s with
  | "" => [""]
  | String a rest =>
      if Ascii.eqb a c then "" :: split c rest
      else
        match split c rest with
        | [] => [String a ""]
        | piece :: pieces => String a piece :: pieces
        end
  end.

(** ** The API client ([nicehash/api]) *)

Module Api.

(** [CryptoJS.enc.Hex.stringify]: two digits per byte, high nibble
    first, each printed by [toString(16)]. *)
Definition hexChar (n : N) : ascii :=
  nth (N.to_nat n) (list_ascii_of_string "0123456789abcdef") "0"%char.

Fixpoint Hex_stringify (bytes : list Byte.byte) : string :=
  match bytes with
  | [] => ""
  | bite :: rest =>
      String (hexChar (N.shiftr (Byte.to_N bite) 4))
        (String (hexChar (N.land (Byte.to_N bite) 15)) (Hex_stringify rest))
  end.

(** Lower-case hexadecimal digits. *)
Definition lowercase_hex (c : ascii) : bool :=
  existsb (Ascii.eqb c) (list_ascii_of_string "0123456789abcdef").

Section WithLibraries.

(** What the client takes from its libraries: JavaScript objects
    used as query or body, [qs.stringify], [qs.parse], object spread,
    [JSON.stringify], the HMAC-SHA256 primitive of CryptoJS (key,
    message, 32-byte tag) and the version string of package.json. *)
Variable JsObject : Type.
Variable qs_stringify : JsObject -> string.
Variable qs_parse : string -> JsObject.
Variable JSON_stringify : JsObject -> string.
Variable hmac_sha256 : string -> string -> list Byte.byte.
Variable version : string.

(** A query or a body: a string or an object. *)
Inductive Payload : Type :=
| PString (s : string)
| PObject (o : JsObject).

(** ToBoolean on an optional payload: [undefined] and the empty
    string are falsy, every object is truthy. *)
Definition payload_truthy (p : option Payload) : bool :=
  match p with
  | None => false
  | Some (PString s) => str_truthy s
  | Some (PObject _) => true
  end.

(** [{ ...a, ...q }] for the optional query [q] of a call. *)
Variable spread : JsObject -> option Payload -> JsObject.

(** The incremental hasher [CryptoJS.algo.HMAC]: [update] appends to
    the message, [finalize] returns the tag of all that was
    appended. *)
Record Hmac : Type := { hmac_key : string; hmac_message : string }.

Definition HMAC_create (key : string) : Hmac :=
  {| hmac_key := key; hmac_message := "" |}.

Definition update (h : Hmac) (chunk : string) : Hmac :=
  {| hmac_key := hmac_key h; hmac_message := hmac_message h ++ chunk |}.

Definition finalize (h : Hmac) : list Byte.byte :=
  hmac_sha256 (hmac_key h) (hmac_message h).

Record Request : Type := {
  method : string;
  path : string;
  query : option Payload;
  body : option Payload
}.

Definition getAuthHeader (apiKey apiSecret time nonce : string)
    (organizationId : option string) (request : Request) : string :=
  let organizationId := match organizationId with Some o => o | None => "" end in
  let hmac := HMAC_create apiSecret in
  let hmac := update hmac apiKey in
  let hmac := update hmac NUL in
  let hmac := update hmac time in
  let hmac := update hmac NUL in
  let hmac := update hmac nonce in
  let hmac := update hmac NUL in
  let hmac := update hmac NUL in
  let hmac := if str_truthy organizationId then update hmac organizationId else hmac in
  let hmac := update hmac NUL in
  let hmac := update hmac NUL in
  let hmac := update hmac (method request) in
  let hmac := update hmac NUL in
  let hmac := update hmac (path request) in
  let hmac := update hmac NUL in
  let hmac :=
    if payload_truthy (query request) then
      update hmac match query request with
                  | Some (PObject o) => qs_stringify o
                  | Some (PString s) => s
                  | None => ""
                  end
    else hmac in
  let hmac :=
    if payload_truthy (body request) then
      let hmac := update hmac NUL in
      update hmac match body request with
                  | Some (PObject o) => JSON_stringify o
                  | Some (PString s) => s
                  | None => ""
                  end
    else hmac in
  apiKey ++ ":" ++ Hex_stringify (finalize hmac).

(** The text of a query or body: a string as it is, an object
    through its serialiser. *)
Definition payload_text (stringify : JsObject -> string)
    (p : option Payload) : string :=
  match p with
  | Some (PObject o) => stringify o
  | Some (PString s) => s
  | None => ""
  end.

(** The signed message as the protocol lays it out: the fields
    apiKey, time, nonce, an empty field, the organisation, an empty
    field, method, path and query joined by single null bytes, then
    a null byte and the body when there is one. *)
Definition canonical_message (apiKey time nonce : string)
    (organizationId : option string) (request : Request) : string :=
  String.concat NUL
    [ apiKey; time; nonce; "";
      match organizationId with Some o => o | None => "" end; "";
      method request; path request;
      payload_text qs_stringify (query request) ]
  ++ (if payload_truthy (body request)
      then NUL ++ payload_text JSON_stringify (body request)
      else "").

(** The client object. [localTimeDiff] is [null], and [time] is not
    set, until [getTime] has run. *)
Record Api : Type := {
  locale : string;
  host : string;
  key : string;
  secret : string;
  org : string;
  localTimeDiff : option Z;
  time : option Z
}.

Definition new_Api (locale : option string) (apiHost apiKey apiSecret orgId : string) : Api :=
  {| locale := match locale with
               | Some l => if str_truthy l then l else "en"
               | None => "en"
               end;
     host := apiHost; key := apiKey; secret := apiSecret; org := orgId;
     localTimeDiff := None; time := None |}.

(** [getTime], given the server's answer and the local clock. *)
Definition getTime (api : Api) (serverTime now : Z) : Api :=
  {| locale := locale api; host := host api; key := key api;
     secret := secret api; org := org api;
     localTimeDiff := Some (serverTime - now)%Z;
     time := Some serverTime |}.

Record CallOptions : Type := {
  opt_query : option Payload;
  opt_body : option Payload;
  opt_time : option Z
}.

(** The options object handed to [request]. *)
Record RequestOptions : Type := {
  uri : string;
  req_method : string;
  headers : list (string * string);
  qs : option Payload;
  req_body : option Payload;
  json : bool
}.

Inductive CallResult : Type :=
| Rejected (message : string)
| Requested (options : RequestOptions).

(** [time || (+new Date() + this.localTimeDiff)], then [toString]. *)
Definition timestamp_of (time : option Z) (now diff : Z) : string :=
  toString match time with
           | Some t => if (t =? 0)%Z then (now + diff)%Z else t
           | None => (now + diff)%Z
           end.

(** The timestamp as the call contract words it:
    (timeOverride or now) + offset. *)
Definition offset_timestamp (time : option Z) (now diff : Z) : string :=
  toString (match time with Some t => t | None => now end + diff)%Z.

(** [apiCall]; [now] is the clock read by [+new Date()] and [nonce]
    the string returned by [createNonce()]. *)
Definition apiCall (api : Api) (now : Z) (nonce : string)
    (method_ path_ : string) (options : CallOptions) : CallResult :=
  match localTimeDiff api with
  | None => Rejected "Get server time first .getTime()"
  | Some diff =>
      let pieces := split "?"%char path_ in
      let pathOnly := nth 0 pieces "" in
      let pathQuery := nth_error pieces 1 in
      let query :=
        match pathQuery with
        | Some pq =>
            if str_truthy pq
            then Some (PObject (spread (qs_parse pq) (opt_query options)))
            else opt_query options
        | None => opt_query options
        end in
      let timestamp := timestamp_of (opt_time options) now diff in
      Requested
        {| uri := host api ++ pathOnly;
           req_method := method_;
           headers :=
             [ ("Accept", "application/json, text/plain");
               ("Content-Type", "application/json; charset=UTF-8");
               ("X-Request-Id", nonce);
               ("X-User-Agent", "homey-nicehash-remote/" ++ version);
               ("X-Time", timestamp);
               ("X-Nonce", nonce);
               ("X-User-Lang", locale api);
               ("X-Organization-Id", org api);
               ("X-Auth",
                 getAuthHeader (key api) (secret api) timestamp nonce
                   (Some (org api))
                   {| method := method_; path := pathOnly;
                      query := query; body := opt_body options |}) ];
           qs := query;
           req_body := opt_body options;
           json := true |}
  end.

(** The value of a header of an issued request. *)
Definition header (name : string) (r : CallResult) : option string :=
  match r with
  | Rejected _ => None
  | Requested o =>
      option_map snd (find (fun h => String.eqb (fst h) name) (headers o))
  end.

End WithLibraries.

Arguments PString {JsObject} s.
Arguments PObject {JsObject} o.
Arguments Rejected {JsObject} message.

End Api.

(** ** The rig device ([nicehash-rig/device])

    [syncRigDetails] is embedded as a function from the device state
    and the readings of one tick to the new state and the tick's log
    lines and commands.  The state is the instance fields the method
    writes and the device store.  Left out, because nothing in the state,
    the store or the commands depends on them: the capability values
    (rounded copies of the stored numbers, and status texts), the
    algorithm label with its lookup table, and the flow trigger on a
    change of [minerStatus]. *)

Module Rig.

(** The Autopilot lines that [syncRigDetails] writes with
    [console.log]. *)
Inductive LogLine : Type :=
| AutopilotStartingRig      (* 'Autopilot starting rig (...' *)
| RigIsNotProfitable        (* 'Rig is not profitable (...' *)
| SettingTariffLimit        (* 'Setting tariff limit to ...' *)
| AutopilotStoppingRig      (* 'Autopilot stopping rig (...' *)
| RaisingTariffLimit.       (* 'Raising tariff limit to ...' *)

(** What a tick does to the outside, in order: log lines and the
    commands sent through [niceHashLib.setRigStatus(id, on)]. *)
Inductive Effect : Type :=
| log (line : LogLine)
| setRigStatus (on : bool).

Definition smartMagicNumber : Z := 7.

Section WithNumbers.

Variable num : Type.
Context `{JsNumber num}.
Local Open Scope js_scope.

(** *** The rig-details payload

    Numeric strings of the payload ([speed.speed], [algo.speed],
    [keypair.value]) are carried as the numbers [Number.parseFloat]
    reads from them. *)

Record Speed : Type := {
  title : string;
  speed : num;
  displaySuffix : string
}.

Record Device : Type := {
  status_enumName : string;
  temperature : num;
  powerUsage : num;
  load : num;
  speeds : list Speed
}.

Record AlgorithmSpeed : Type := {
  algorithm : Z;
  algo_speed : num
}.

Record KeyPair : Type := {
  key : string;
  value : num
}.

(** [mdv_algorithmsSpeed] is [None] when [device.mdv] or
    [device.mdv.algorithmsSpeed] is missing. *)
Record V4Device : Type := {
  mdv_algorithmsSpeed : option (list AlgorithmSpeed);
  odv : list KeyPair
}.

(** [v4_devices] is [None] when [details.v4] or [details.v4.devices]
    is missing. *)
Record Details : Type := {
  type : option string;
  minerStatus : string;
  devices : option (list Device);
  hasV4Rigs : bool;
  v4_devices : option (list V4Device);
  profitability : num
}.

(** *** Telemetry normalisation *)

Record Aggregate : Type := {
  agg_powerUsage : num;
  agg_hashrate : num;
  agg_mining : Z;
  agg_temperature : num;
  agg_load : num
}.

(** The [switch (speed.displaySuffix)] that brings a reading to MH. *)
Definition normalize (r : num) (suffix : string) : num :=
  if String.eqb suffix "H" then r / js_of_Z 1000000
  else if String.eqb suffix "kH" then r / js_of_Z 1000
  else if String.eqb suffix "GH" then r / js_decimal 1 1000
  else if String.eqb suffix "TH" then r / js_decimal 1 1000000
  else if String.eqb suffix "PH" then r / js_decimal 1 1000000000
  else if String.eqb suffix "EH" then r / js_decimal 1 1000000000000
  else r.

Definition speed_step (hashrate : num) (s : Speed) : num :=
  hashrate + normalize (speed s) (displaySuffix s).

(** One iteration of [for (const device of details.devices)]. *)
Definition device_step (a : Aggregate) (d : Device) : Aggregate :=
  if String.eqb (status_enumName d) "DISABLED"
     || String.eqb (status_enumName d) "OFFLINE"
  then a
  else
    let temperature' := js_max (agg_temperature a) (temperature d) in
    let powerUsage' := agg_powerUsage a + powerUsage d in
    let load' := agg_load a + load d in
    if negb (String.eqb (status_enumName d) "MINING")
    then {| agg_powerUsage := powerUsage'; agg_hashrate := agg_hashrate a;
            agg_mining := agg_mining a; agg_temperature := temperature';
            agg_load := load' |}
    else {| agg_powerUsage := powerUsage';
            agg_hashrate := fold_left speed_step (speeds d) (agg_hashrate a);
            agg_mining := (agg_mining a + 1)%Z;
            agg_temperature := temperature';
            agg_load := load' |}.

(** One iteration of [for (const algo of device.mdv.algorithmsSpeed)]. *)
Definition algo_step (a : Aggregate) (algo : AlgorithmSpeed) : Aggregate :=
  let r := algo_speed algo / js_of_Z 1000000 in
  {| agg_powerUsage := agg_powerUsage a;
     agg_hashrate := agg_hashrate a + r;
     agg_mining := if r > js_of_Z 0 then (agg_mining a + 1)%Z else agg_mining a;
     agg_temperature := agg_temperature a;
     agg_load := agg_load a |}.

(** One iteration of [for (const keypair of device.odv)]. *)
Definition keypair_step (a : Aggregate) (kp : KeyPair) : Aggregate :=
  {| agg_powerUsage :=
       if String.eqb (key kp) "Power usage"
       then agg_powerUsage a + value kp else agg_powerUsage a;
     agg_hashrate := agg_hashrate a;
     agg_mining := agg_mining a;
     agg_temperature :=
       if String.eqb (key kp) "Temperature"
       then js_max (agg_temperature a) (value kp) else agg_temperature a;
     agg_load :=
       if String.eqb (key kp) "Load"
       then agg_load a + value kp else agg_load a |}.

(** One iteration of [for (const device of details.v4.devices)]. *)
Definition v4_device_step (a : Aggregate) (d : V4Device) : Aggregate :=
  let a :=
    match mdv_algorithmsSpeed d with
    | Some algos => fold_left algo_step algos a
    | None => a
    end in
  fold_left keypair_step (odv d) a.

Definition aggregate (details : Details) : Aggregate :=
  let a := {| agg_powerUsage := js_of_Z 0; agg_hashrate := js_of_Z 0;
              agg_mining := 0; agg_temperature := js_of_Z 0;
              agg_load := js_of_Z 0 |} in
  let a :=
    match devices details with
    | Some ds => fold_left device_step ds a
    | None => a
    end in
  if hasV4Rigs details then
    match v4_devices details with
    | Some ds => fold_left v4_device_step ds a
    | None => a
    end
  else a.

(** *** Device store and state *)

Definition Store : Type := string -> option num.

Definition setStoreValue (k : string) (v : num) (s : Store) : Store :=
  fun k' => if String.eqb k' k then Some v else s k'.

(** [getStoreValue(k) || d]. *)
Definition getStoreValue_or (s : Store) (k : string) (d : num) : num :=
  match s k with
  | Some v => js_or v d
  | None => d
  end.

(** The learned tariff limit as the tick reads it:
    [getStoreValue('tariff_limit') || -1]. *)
Definition tariff_limit_of (s : Store) : num :=
  getStoreValue_or s "tariff_limit" (js_of_Z (-1)).

(** The instance fields that [syncRigDetails] reads and writes,
    with the device store. *)
Record State : Type := {
  lastSync : Z;
  lastMined : Z;
  benchmarkStart : Z;
  rollingProfit : num;
  store : Store
}.

(** What one tick reads from its environment: the clock, the answer
    of [getRigDetails] ([None] for [undefined]), the app settings
    [tariff], the capability [smart_mode], the device setting
    [smart_mode_min_profitability] and the ['15m'] price of
    [getBitcoinRate(tariff_currency)] ([None] for [null]). *)
Record Tick : Type := {
  now : Z;
  details : option Details;
  power_tariff : num;
  smart_mode : bool;
  setting_min_profitability : num;
  bitcoinRate : option num
}.

(** [!details.type || details.type === 'UNMANAGED'] *)
Definition unmanaged (d : Details) : bool :=
  match type d with
  | None => true
  | Some t => negb (str_truthy t) || String.eqb t "UNMANAGED"
  end.

(** [details.devices || details.hasV4Rigs] *)
Definition has_devices (d : Details) : bool :=
  match devices d with
  | Some _ => true
  | None => hasV4Rigs d
  end.

(** *** Profitability *)

Record Evaluation : Type := {
  costPerDayMBTC : num;
  mBTCRate : num;
  profitPct : num;
  evaluated_store : Store
}.

(** The block from [let costPerDay = 0] to the end of
    [if (power_tariff && power_tariff_currency)]; [revenue] is
    [details.profitability] after the waiting-for-job reset. *)
Definition evaluate (t : Tick) (a : Aggregate) (revenue : num) (s : Store)
    : Evaluation :=
  if js_truthy (power_tariff t) then
    match bitcoinRate t with
    | Some rate =>
        let s :=
          if (0 <? agg_mining a)%Z
          then setStoreValue "measure_profit_scarab" (revenue * rate) s
          else s in
        let costPerDay :=
          power_tariff t * agg_powerUsage a / js_of_Z 1000 * js_of_Z 24 in
        let s := setStoreValue "measure_cost_scarab" costPerDay s in
        let mBTCRate := rate / js_of_Z 1000 in
        let costPerDayMBTC := costPerDay / mBTCRate in
        let s := setStoreValue "measure_cost" costPerDayMBTC s in
        if (0 <? agg_mining a)%Z && (costPerDayMBTC > js_of_Z 0) then
          let revenue := revenue * js_of_Z 1000 in
          let profit := revenue - costPerDayMBTC in
          let profitPct := js_round ((profit / costPerDayMBTC) * js_of_Z 100) in
          {| costPerDayMBTC := costPerDayMBTC; mBTCRate := mBTCRate;
             profitPct := profitPct;
             evaluated_store := setStoreValue "measure_profit_percent" profitPct s |}
        else
          {| costPerDayMBTC := costPerDayMBTC; mBTCRate := mBTCRate;
             profitPct := js_of_Z 0; evaluated_store := s |}
    | None =>
        {| costPerDayMBTC := js_of_Z 0; mBTCRate := js_of_Z 0;
           profitPct := js_of_Z 0; evaluated_store := s |}
    end
  else
    {| costPerDayMBTC := js_of_Z 0; mBTCRate := js_of_Z 0;
       profitPct := js_of_Z 0; evaluated_store := s |}.

(** *** Cumulative meters

    The three meter updates at the head of [if (this.lastSync > 0)]. *)
Definition accumulate (elapsed : Z) (a : Aggregate) (revenue : num)
    (e : Evaluation) (s : Store) : Store :=
  let meter_power := getStoreValue_or s "meter_power" (js_of_Z 0) in
  let power_add :=
    (agg_powerUsage a / js_of_Z 1000)
    * (js_of_Z elapsed / js_of_Z (1000 * 60 * 60)) in
  let s := setStoreValue "meter_power" (meter_power + power_add) s in
  let meter_profit := getStoreValue_or s "meter_profit" (js_of_Z 0) in
  let mbtc_profit_add :=
    (revenue * js_of_Z 1000) * (js_of_Z elapsed / js_of_Z 86400000) in
  let s := setStoreValue "meter_profit" (meter_profit + mbtc_profit_add) s in
  let s :=
    if js_truthy (mBTCRate e)
    then setStoreValue "meter_profit_scarab"
           ((meter_profit + mbtc_profit_add) * mBTCRate e) s
    else s in
  let meter_cost := getStoreValue_or s "meter_cost" (js_of_Z 0) in
  let mbtc_cost_add :=
    costPerDayMBTC e * (js_of_Z elapsed / js_of_Z 86400000) in
  let new_meter_cost := meter_cost + mbtc_cost_add in
  let s := setStoreValue "meter_cost" new_meter_cost s in
  if js_truthy (mBTCRate e)
  then setStoreValue "meter_cost_scarab" (new_meter_cost * mBTCRate e) s
  else s.

(** *** Autopilot *)

(** [rolling < min && profitPct < min] *)
Definition stop_condition (rolling profitPct min : num) : bool :=
  (rolling < min) && (profitPct < min).

Record Assessment : Type := {
  assessed_benchmarkStart : Z;
  assessed_rollingProfit : num;
  assessed_store : Store;
  assessed_effects : list Effect
}.

(** The body of [if (hashrate)]: the rolling average, then the
    decision once the benchmark period is over. [tariff_limit] and
    [min] are the constants read at the head of the tick. *)
Definition assess (st : State) (t : Tick) (tariff_limit min : num)
    (profitPct : num) (s : Store) : Assessment :=
  let benchmarkStart' :=
    if (benchmarkStart st =? 0)%Z then now t else benchmarkStart st in
  let rollingProfit' :=
    if (benchmarkStart st =? 0)%Z then profitPct
    else rollingProfit st
           * (js_of_Z (smartMagicNumber - 1) / js_of_Z smartMagicNumber)
         + profitPct * (js_of_Z 1 / js_of_Z smartMagicNumber) in
  if (benchmarkStart' >? 0)%Z
     && (now t - benchmarkStart' >? smartMagicNumber * 60000)%Z
  then
    if stop_condition rollingProfit' profitPct min then
      {| assessed_benchmarkStart := benchmarkStart';
         assessed_rollingProfit := rollingProfit';
         assessed_store := setStoreValue "tariff_limit" (power_tariff t) s;
         assessed_effects :=
           [log RigIsNotProfitable; log SettingTariffLimit]
           ++ (if smart_mode t
               then [log AutopilotStoppingRig; setRigStatus false]
               else []) |}
    else
      {| assessed_benchmarkStart := benchmarkStart';
         assessed_rollingProfit := rollingProfit';
         assessed_store :=
           if power_tariff t > tariff_limit
           then setStoreValue "tariff_limit" (power_tariff t) s
           else s;
         assessed_effects :=
           if power_tariff t > tariff_limit
           then [log RaisingTariffLimit] else [] |}
  else
    {| assessed_benchmarkStart := benchmarkStart';
       assessed_rollingProfit := rollingProfit';
       assessed_store := s;
       assessed_effects := [] |}.

(** The condition of the start command on an idle tick. *)
Definition start_condition (st : State) (t : Tick) (tariff_limit : num) : bool :=
  smart_mode t
  && ((tariff_limit === js_of_Z (-1))
      || (tariff_limit > power_tariff t)
      || (lastMined st =? 0)%Z
      || (negb (lastMined st =? 0)%Z
          && (now t - lastMined st >? 1000 * 60 * 60 * smartMagicNumber)%Z)).

(** The branch [if (mining === 0)]. *)
Definition idle_tick (st : State) (t : Tick) (tariff_limit : num) (s : Store)
    : State * list Effect :=
  let s := setStoreValue "mining" (js_of_Z 0) s in
  let s := setStoreValue "measure_profit" (js_of_Z 0) s in
  let s := setStoreValue "measure_profit_scarab" (js_of_Z 0) s in
  let s := setStoreValue "measure_profit_percent" (js_of_Z 0) s in
  let s := setStoreValue "measure_cost" (js_of_Z 0) s in
  let s := setStoreValue "measure_cost_scarab" (js_of_Z 0) s in
  ({| lastSync := 0; lastMined := lastMined st; benchmarkStart := 0;
      rollingProfit := js_of_Z 0; store := s |},
   if start_condition st t tariff_limit
   then [log AutopilotStartingRig; setRigStatus true] else []).

(** The rest of the tick when some device is mining. *)
Definition mining_tick (st : State) (t : Tick) (d : Details) (a : Aggregate)
    (tariff_limit min : num) (s : Store) : State * list Effect :=
  let revenue :=
    if js_truthy (agg_hashrate a) then profitability d else js_of_Z 0 in
  let s := setStoreValue "measure_profit" (revenue * js_of_Z 1000) s in
  let s := setStoreValue "mining" (js_of_Z 1) s in
  let e := evaluate t a revenue s in
  let s := evaluated_store e in
  if (lastSync st >? 0)%Z then
    let s := accumulate (now t - lastSync st) a revenue e s in
    if js_truthy (agg_hashrate a) then
      let r := assess st t tariff_limit min (profitPct e) s in
      ({| lastSync := now t; lastMined := now t;
          benchmarkStart := assessed_benchmarkStart r;
          rollingProfit := assessed_rollingProfit r;
          store := assessed_store r |},
       assessed_effects r)
    else
      ({| lastSync := now t; lastMined := now t;
          benchmarkStart := benchmarkStart st;
          rollingProfit := rollingProfit st; store := s |}, [])
  else
    ({| lastSync := now t; lastMined := now t;
        benchmarkStart := benchmarkStart st;
        rollingProfit := rollingProfit st; store := s |}, []).

(** [syncRigDetails]: the state after the tick and what the tick
    logged and sent.  Every clock read of one tick returns [now t]. *)
Definition syncRigDetails (st : State) (t : Tick) : State * list Effect :=
  let smart_mode_min_profitability :=
    js_or (setting_min_profitability t) (js_of_Z 0) in
  match details t with
  | None => (st, [])
  | Some d =>
      if unmanaged d then (st, [])
      else
        let tariff_limit := tariff_limit_of (store st) in
        if has_devices d then
          let a := aggregate d in
          let s := setStoreValue "hashrate" (agg_hashrate a) (store st) in
          let s := setStoreValue "measure_power" (agg_powerUsage a) s in
          if (agg_mining a =? 0)%Z
          then idle_tick st t tariff_limit s
          else mining_tick st t d a tariff_limit
                 smart_mode_min_profitability s
        else
          ({| lastSync := now t; lastMined := lastMined st;
              benchmarkStart := benchmarkStart st;
              rollingProfit := rollingProfit st; store := store st |}, [])
  end.

(** A run of the polling timer: the state after the ticks, taken
    in order. *)
Fixpoint run (st : State) (ticks : list Tick) : State :=
  match ticks with
  | [] => st
  | t :: rest => run (fst (syncRigDetails st t)) rest
  end.

(** A device object starts from the field initialisers of the class
    on whatever store the device already has, and then only changes
    by ticks; the clock is positive. *)
Definition fresh (s : Store) : State :=
  {| lastSync := 0; lastMined := 0; benchmarkStart := 0;
     rollingProfit := js_of_Z 0; store := s |}.

Inductive reachable : State -> Prop :=
| reachable_fresh (s : Store) : reachable (fresh s)
| reachable_tick (st : State) (t : Tick) :
    reachable st -> (0 < now t)%Z ->
    reachable (fst (syncRigDetails st t)).

(** The instantaneous profit percentage of a tick on a mining rig:
    the local [profitPct] of [syncRigDetails]. *)
Definition instant_profitPct (t : Tick) (d : Details) : num :=
  let a := aggregate d in
  let revenue :=
    if js_truthy (agg_hashrate a) then profitability d else js_of_Z 0 in
  profitPct (evaluate t a revenue (fun _ => None)).



(** The key/value metrics of a v4 device: the folds of the three
    [if (keypair.key === ...)] statements. *)
Definition odv_power (kps : list (KeyPair)) (p : num) : num :=
  fold_left
    (fun p kp => if String.eqb (key kp) "Power usage"
                 then js_add p (value kp) else p) kps p.

Definition odv_temperature (kps : list (KeyPair)) (p : num) : num :=
  fold_left
    (fun p kp => if String.eqb (key kp) "Temperature"
                 then js_max p (value kp) else p) kps p.

Definition odv_load (kps : list (KeyPair)) (p : num) : num :=
  fold_left
    (fun p kp => if String.eqb (key kp) "Load"
                 then js_add p (value kp) else p) kps p.

(** The store when the tick reaches [if (mining === 0)]. *)
Definition tick_store (st : State) (d : Details) : Store :=
  setStoreValue "measure_power" (agg_powerUsage (aggregate d))
    (setStoreValue "hashrate" (agg_hashrate (aggregate d)) (store st)).

(** A tick that finds a managed rig with a device mining and a
    hashrate reported: the ticks that reach [if (hashrate)]. *)
Definition mining_with_hashrate (t : Tick) (d : Details) : Prop :=
  details t = Some d /\ unmanaged d = false /\ has_devices d = true
  /\ agg_mining (aggregate d) <> 0%Z
  /\ js_truthy (agg_hashrate (aggregate d)) = true.

(** The tick takes the stop decision: it logs 'Rig is not
    profitable'. *)
Definition stop_decision (st : State) (t : Tick) : Prop :=
  In (log RigIsNotProfitable) (snd (syncRigDetails st t)).


(** *** Counting devices *)

(** Legacy devices whose status is MINING. *)
Definition mining_status_count (ds : list Device) : Z :=
  Z.of_nat (List.length
    (filter (fun d => String.eqb (status_enumName d) "MINING") ds)).

(** Algorithm entries of the v4 devices with a positive speed. *)
Definition positive_speed (algo : AlgorithmSpeed) : bool :=
  algo_speed algo / js_of_Z 1000000 > js_of_Z 0.

Definition positive_entries (d : V4Device) : Z :=
  match mdv_algorithmsSpeed d with
  | Some algos => Z.of_nat (List.length (filter positive_speed algos))
  | None => 0
  end.

Definition positive_entry_count (ds : list V4Device) : Z :=
  fold_right (fun d n => (positive_entries d + n)%Z) 0%Z ds.

(** Devices that produce a positive hashrate reading, each counted
    once: the mining-device count as the normaliser's rule words
    it. *)
Definition legacy_reading (d : Device) : bool :=
  negb (String.eqb (status_enumName d) "DISABLED"
        || String.eqb (status_enumName d) "OFFLINE")
  && existsb (fun s => normalize (speed s) (displaySuffix s) > js_of_Z 0)
       (speeds d).

Definition v4_reading (d : V4Device) : bool :=
  match mdv_algorithmsSpeed d with
  | Some algos => existsb positive_speed algos
  | None => false
  end.

Definition devices_with_reading (details : Details) : Z :=
  (match devices details with
   | Some ds => Z.of_nat (List.length (filter legacy_reading ds))
   | None => 0
   end
   + if hasV4Rigs details then
       match v4_devices details with
       | Some ds => Z.of_nat (List.length (filter v4_reading ds))
       | None => 0
       end
     else 0)%Z.
End WithNumbers.

End Rig.

(** ** The dashboard device ([dashboard/device])

    [gatherDetails] on the numeric capabilities; the text capability
    [rigs_mining] is left as the two counts it is printed from. *)

Module Dashboard.

Section WithNumbers.

Variable num : Type.
Context `{JsNumber num}.
Local Open Scope js_scope.

(** The number an absent store value stands for in [value += add]. *)
Variable absent : num.

Definition getStoreValue (rig : Rig.Store num) (k : string) : num :=
  match rig k with
  | Some v => v
  | None => absent
  end.

(** The keys of the [metrics] map, in insertion order. *)
Definition metric_names : list string :=
  [ "measure_power"; "meter_power"; "measure_profit";
    "measure_profit_scarab"; "meter_profit"; "meter_profit_scarab";
    "measure_cost"; "measure_cost_scarab"; "meter_cost";
    "meter_cost_scarab"; "hashrate" ].

(** [metrics.get(metric)] after the summing loop. *)
Definition total (rigDevices : list (Rig.Store num)) (metric : string) : num :=
  fold_left (fun value rig => value + getStoreValue rig metric)
    rigDevices (js_of_Z 0).

Definition Capabilities : Type := string -> option num.

Definition setCapabilityValue (k : string) (v : num) (c : Capabilities)
    : Capabilities :=
  fun k' => if String.eqb k' k then Some v else c k'.

(** [rigs_mining += rig.getStoreValue('mining') || 0] over the rigs. *)
Definition rigs_mining (rigDevices : list (Rig.Store num)) : num :=
  fold_left
    (fun n rig => n + Rig.getStoreValue_or rig "mining" (js_of_Z 0))
    rigDevices (js_of_Z 0).

(** The fleet-wide percentage at the end of [gatherDetails]. *)
Definition fleet_profitPct (rigDevices : list (Rig.Store num)) : num :=
  let revenue := js_or (total rigDevices "measure_profit") (js_of_Z 0) in
  let costPerDayMBTC := js_or (total rigDevices "measure_cost") (js_of_Z 0) in
  let profit := revenue - costPerDayMBTC in
  js_round ((profit / costPerDayMBTC) * js_of_Z 100).

(** [gatherDetails] on the numeric capabilities; [rigDriver] is
    [None] when the rig driver is not loaded. *)
Definition gatherDetails (rigDriver : option (list (Rig.Store num)))
    (c : Capabilities) : Capabilities :=
  match rigDriver with
  | None => c
  | Some rigDevices =>
      let c :=
        fold_left
          (fun c metric =>
             setCapabilityValue metric
               (js_round (total rigDevices metric * js_of_Z 100) / js_of_Z 100) c)
          metric_names c in
      setCapabilityValue "measure_profit_percent" (fleet_profitPct rigDevices) c
  end.

End WithNumbers.

End Dashboard.

(** ** A rig and its readings, for evaluating the tick *)






Module Sample.

Section WithNumbers.

Variable num : Type.
Context `{JsNumber num}.

(** One 5 kW device hashing at 100 MH when its status is MINING. *)
Definition gpu (status : string) : Rig.Device num :=
  {| Rig.status_enumName := status;
     Rig.temperature := js_of_Z 60;
     Rig.powerUsage := js_of_Z 5000;
     Rig.load := js_of_Z 100;
     Rig.speeds :=
       [ {| Rig.title := "DaggerHashimoto"; Rig.speed := js_of_Z 100;
            Rig.displaySuffix := "MH" |} ] |}.

(** A managed rig with that device, paid 0.01 BTC a day. *)
Definition payload (status : string) : Rig.Details num :=
  {| Rig.type := Some "MANAGED";
     Rig.minerStatus := status;
     Rig.devices := Some [gpu status];
     Rig.hasV4Rigs := false;
     Rig.v4_devices := None;
     Rig.profitability := js_decimal 1 100 |}.

(** A tick at [now] with a tariff of [tariff_cents] hundredths per
    kWh, a bitcoin price of 600, Autopilot on and a minimum
    profitability of 0.  At 10 hundredths the rig earns 10 mBTC a day
    and costs 20: the instant profit percentage is -50. *)
Definition tick (now : Z) (status : string) (tariff_cents : Z) : Rig.Tick num :=
  {| Rig.now := now;
     Rig.details := Some (payload status);
     Rig.power_tariff := js_decimal tariff_cents 100;
     Rig.smart_mode := true;
     Rig.setting_min_profitability := js_of_Z 0;
     Rig.bitcoinRate := Some (js_of_Z 600) |}.

(** The device after a first mining tick and a second one that
    opens the benchmark at 1,700,000,060,000 ms. *)
Definition benchmarking : Rig.State num :=
  Rig.run (Rig.fresh (fun _ => None))
    [ tick 1700000000000 "MINING" 10; tick 1700000060000 "MINING" 10 ].

(** A legacy device with status MINING that reports no speed. *)
Definition waiting_for_job : Rig.Details num :=
  {| Rig.type := Some "MANAGED";
     Rig.minerStatus := "MINING";
     Rig.devices :=
       Some [ {| Rig.status_enumName := "MINING";
                 Rig.temperature := js_of_Z 40;
                 Rig.powerUsage := js_of_Z 90;
                 Rig.load := js_of_Z 0;
                 Rig.speeds := [] |} ];
     Rig.hasV4Rigs := false;
     Rig.v4_devices := None;
     Rig.profitability := js_of_Z 0 |}.

(** One v4 device mining two algorithms at once. *)
Definition dual_mining : Rig.Details num :=
  {| Rig.type := Some "MANAGED";
     Rig.minerStatus := "MINING";
     Rig.devices := None;
     Rig.hasV4Rigs := true;
     Rig.v4_devices :=
       Some [ {| Rig.mdv_algorithmsSpeed :=
                   Some [ {| Rig.algorithm := 20;
                             Rig.algo_speed := js_of_Z 30000000 |};
                          {| Rig.algorithm := 57;
                             Rig.algo_speed := js_of_Z 2000000 |} ];
                 Rig.odv :=
                   [ {| Rig.key := "Power usage"; Rig.value := js_of_Z 120 |};
                     {| Rig.key := "Temperature"; Rig.value := js_of_Z 55 |};
                     {| Rig.key := "Load"; Rig.value := js_of_Z 99 |} ] |} ];
     Rig.profitability := js_decimal 1 100 |}.

End WithNumbers.

Arguments gpu num {_} status.
Arguments payload num {_} status.
Arguments tick num {_} now status tariff_cents.
Arguments benchmarking num {_}.
Arguments waiting_for_job num {_}.
Arguments dual_mining num {_}.

End Sample.

(** ** The nonce, the library wrapper and the algorithm table *)

(** Whether the character [c] occurs in [s]. *)
Fixpoint contains (c : ascii) (s : string) : bool :=
  match s with
  | "" => false
  | String a rest => Ascii.eqb a c || contains c rest
  end.

Module Nonce.

(** [s.substr(0, n)] *)
Fixpoint substr (n : nat) (s : string) : string :=
  match n, s with
  | S n', String a rest => String a (substr n' rest)
  | _, _ => ""
  end.

(** The [do ... while (s.length < length)] loop of [createNonce].
    [chunks] are the strings that the successive evaluations of
    [Math.random().toString(36).substr(2)] return; the result is [None]
    when they are used up before the loop ends. *)
Fixpoint accumulate (s : string) (chunks : list string) : option string :=
  match chunks with
  | [] => None
  | chunk :: rest =>
      let s := s ++ chunk in
      if (String.length s <? 32)%nat then accumulate s rest else Some s
  end.

Definition createNonce (chunks : list string) : option string :=
  option_map (substr 32) (accumulate "" chunks).

End Nonce.

Module Lib.

(** [getBitcoinRate]: the entry of the cached ticker for a currency;
    the ticker is [None] until the first fetch has succeeded. *)
Definition getBitcoinRate {Rate : Type}
    (bitcoinTicker : option (string -> option Rate)) (currency : string)
    : option Rate :=
  match bitcoinTicker with
  | Some ticker => ticker currency
  | None => None
  end.

Section WithLibraries.

Variable JsObject : Type.
Variable qs_stringify : JsObject -> string.
Variable qs_parse : string -> JsObject.
Variable JSON_stringify : JsObject -> string.
Variable hmac_sha256 : string -> string -> list Byte.byte.
Variable version : string.
Variable spread : JsObject -> option (Api.Payload JsObject) -> JsObject.

(** An object literal whose properties are strings. *)
Variable object_literal : list (string * string) -> JsObject.

(** [request(options)]: the parsed response, [None] when the promise
    is rejected; and [response.miningRigs.length], [None] when the
    response has no [miningRigs]. *)
Variable Response : Type.
Variable request : Api.RequestOptions JsObject -> option Response.
Variable miningRigs_length : Response -> option nat.

Definition apiCall :=
  Api.apiCall qs_stringify qs_parse JSON_stringify hmac_sha256 version spread.

(** [api.get(path).catch(...)] and [api.post(path, { body }).catch(...)]:
    [undefined] when the call is rejected. *)
Definition get (api : Api.Api) (now : Z) (nonce path : string) : option Response :=
  match apiCall api now nonce "GET" path
          {| Api.opt_query := None; Api.opt_body := None; Api.opt_time := None |} with
  | Api.Rejected _ => None
  | Api.Requested options => request options
  end.

Definition post (api : Api.Api) (now : Z) (nonce path : string)
    (body : JsObject) : option Response :=
  match apiCall api now nonce "POST" path
          {| Api.opt_query := None; Api.opt_body := Some (Api.PObject body);
             Api.opt_time := None |} with
  | Api.Rejected _ => None
  | Api.Requested options => request options
  end.

Definition getRigs (api : Api.Api) (now : Z) (nonce : string) : option Response :=
  get api now nonce "/main/api/v2/mining/rigs2".

Definition getRigDetails (api : Api.Api) (now : Z) (nonce rigId : string)
    : option Response :=
  get api now nonce ("/main/api/v2/mining/rig2/" ++ rigId).

Definition getAlgorithms (api : Api.Api) (now : Z) (nonce : string)
    : option Response :=
  get api now nonce "/main/api/v2/mining/algorithms".

Definition setRigStatus (api : Api.Api) (now : Z) (nonce rigId : string)
    (on : bool) : option Response :=
  post api now nonce "/main/api/v2/mining/rigs/status2"
    (object_literal
       [("rigId", rigId); ("action", if on then "START" else "STOP")]).

(** [init]: the value returned and the client left in
    [Lib.niceHashApi].  [serverTime] is the answer of the time endpoint,
    [None] when that request fails (the failure is swallowed). *)
Definition init (locale apiKey apiSecret orgId : string)
    (serverTime : option Z) (now_sync now_call : Z) (nonce : string)
    : bool * Api.Api :=
  let api :=
    Api.new_Api (Some locale) "https://api2.nicehash.com" apiKey apiSecret orgId in
  let api :=
    match serverTime with
    | Some time => Api.getTime api time now_sync
    | None => api
    end in
  match getRigs api now_call nonce with
  | Some rigs =>
      match miningRigs_length rigs with
      | Some _ => (true, api)
      | None => (false, api)
      end
  | None => (false, api)
  end.

End WithLibraries.

End Lib.

Module Algorithms.

(** An entry of [algos.miningAlgorithms]. *)
Record Algorithm : Type := {
  order : Z;
  title : string
}.

(** [this.algorithms], an array used as a table from [order] to the
    entry. *)
Definition Table : Type := Z -> option Algorithm.

Definition empty : Table := fun _ => None.

(** [this.algorithms[algo.order] = algo] *)
Definition assign (algo : Algorithm) (table : Table) : Table :=
  fun k => if (k =? order algo)%Z then Some algo else table k.

(** [getAlgorithms] of the rig device; [algos] is [None] when the fetch
    fails or the answer has no [miningAlgorithms]. *)
Definition getAlgorithms (table : Table) (algos : option (list Algorithm))
    : Table :=
  match algos with
  | Some miningAlgorithms =>
      fold_left (fun table algo => assign algo table) miningAlgorithms empty
  | None => table
  end.

End Algorithms.

(** ** The rig over time *)

(** The commands among the effects of a tick. *)
Definition commands (effects : list Rig.Effect) : list bool :=
  flat_map (fun e => match e with
                     | Rig.setRigStatus on => [on]
                     | Rig.log _ => []
                     end) effects.

(** A device driven by a clock that never runs backwards: [running c st]
    holds of the states reached when the last clock reading was [c]. *)
Inductive running {num : Type} `{JsNumber num} : Z -> Rig.State num -> Prop :=
| running_fresh (s : Rig.Store num) : running 0 (Rig.fresh s)
| running_tick (c : Z) (st : Rig.State num) (t : Rig.Tick num) :
    running c st -> (c <= Rig.now t)%Z -> (0 < Rig.now t)%Z ->
    running (Rig.now t) (fst (Rig.syncRigDetails st t)).

(** A cumulative meter as the tick reads it: [getStoreValue(k) || 0]. *)
Definition meter {num : Type} `{JsNumber num} (s : Rig.Store num) (k : string) : num :=
  Rig.getStoreValue_or s k (js_of_Z 0).

(** Sums of readings, in exact arithmetic. *)
Definition sumQ (l : list Q) : Q := fold_right Qplus 0 l.

(** A legacy device that is neither DISABLED nor OFFLINE. *)
Definition enabled {num : Type} (d : Rig.Device num) : bool :=
  negb (String.eqb (Rig.status_enumName d) "DISABLED"
        || String.eqb (Rig.status_enumName d) "OFFLINE").

(** The temperatures, power readings or loads that a payload
    contributes: those of the legacy devices that are neither DISABLED
    nor OFFLINE, and those the v4 devices report under the key, when the
    payload has v4 rigs. *)
Definition legacy_devices {num : Type} (d : Rig.Details num) : list (Rig.Device num) :=
  match Rig.devices d with
  | Some ds => ds
  | None => []
  end.

Definition v4_rig_devices {num : Type} (d : Rig.Details num) : list (Rig.V4Device num) :=
  if Rig.hasV4Rigs d then
    match Rig.v4_devices d with
    | Some ds => ds
    | None => []
    end
  else [].

(** The values a v4 device reports under one key. *)
Definition odv_values {num : Type} (k : string) (d : Rig.V4Device num) : list num :=
  map (@Rig.value num)
    (filter (fun kp => String.eqb (Rig.key kp) k) (Rig.odv d)).

Definition readings {num : Type} (field : Rig.Device num -> num) (k : string)
    (d : Rig.Details num) : list num :=
  (map field (filter enabled (legacy_devices d))
   ++ flat_map (odv_values k) (v4_rig_devices d))%list.

(** [T] is the running maximum of [temps] taken from [start]: no
    reading is above it, and it is [start] or one of the readings. *)
Definition hottest (start : Q) (temps : list Q) (T : Q) : Prop :=
  start <= T /\ Forall (fun x => x <= T) temps /\ (T = start \/ In T temps).

(** The fields of a signed request that are delimited by null bytes:
    key, time, nonce, organisation, method, path and the query text. *)
Definition signed_fields {JsObject : Type} (qs_stringify : JsObject -> string)
    (apiKey time nonce : string) (organizationId : option string)
    (request : Api.Request JsObject) : list string :=
  [ apiKey; time; nonce;
    match organizationId with Some o => o | None => "" end;
    Api.method request; Api.path request;
    Api.payload_text qs_stringify (Api.query request) ].

Definition nul_free (s : string) : bool := negb (contains "000"%char s).

(** ** Stand-ins for the libraries

    Objects as lists of properties, with transparent serialisers and a
    keyed hash that returns the bytes of key and message, to run the
    model on concrete requests. *)

Module Plain.

Definition JsObject : Type := list (string * string).

Definition qs_stringify (o : JsObject) : string :=
  String.concat "&" (map (fun kv => fst kv ++ "=" ++ snd kv) o).

Definition qs_parse (s : string) : JsObject :=
  map (fun piece => (nth 0 (split "="%char piece) "", nth 1 (split "="%char piece) ""))
      (split "&"%char s).

Definition JSON_stringify (o : JsObject) : string :=
  "{" ++ String.concat "," (map (fun kv => fst kv ++ ":" ++ snd kv) o) ++ "}".

Definition hmac_sha256 (key message : string) : list Byte.byte :=
  map byte_of_ascii (list_ascii_of_string (key ++ message)).

Definition version : string := "1.0.0".

Definition spread (a : JsObject) (q : option (Api.Payload JsObject)) : JsObject :=
  match q with
  | Some (Api.PObject o) => a ++ o
  | _ => a
  end%list.

Definition object_literal (properties : list (string * string)) : JsObject :=
  properties.

Definition apiCall :=
  Api.apiCall qs_stringify qs_parse JSON_stringify hmac_sha256 version spread.

Definition getAuthHeader :=
  Api.getAuthHeader qs_stringify JSON_stringify hmac_sha256.

(** A platform that answers every request with its method and uri, and
    reports no rigs. *)
Definition Response : Type := string.

Definition request (options : Api.RequestOptions JsObject) : option Response :=
  Some (Api.req_method options ++ " " ++ Api.uri options).

Definition miningRigs_length (response : Response) : option nat := Some 0%nat.

(** A client whose clock was found 500 ms behind the server's. *)
Definition client : Api.Api :=
  Api.getTime
    (Api.new_Api (Some "en") "https://api2.nicehash.com" "key" "secret" "org")
    1700000000500 1700000000000.

Definition no_options : Api.CallOptions JsObject :=
  {| Api.opt_query := None; Api.opt_body := None; Api.opt_time := None |}.

End Plain.

(** The cumulative meters of the device store. *)
Definition meter_keys : list string :=
  ["meter_power"; "meter_profit"; "meter_profit_scarab"; "meter_cost";
   "meter_cost_scarab"].

(** * Properties *)

(** ** Numbers and strings *)

Example f64_round_examples :
  F64.round (js_decimal 5 2) = F64.of_Z 3 /\
  F64.round (js_decimal (-5) 2) = F64.of_Z (-2) /\
  F64.round (js_decimal (-3) 10) = S754_zero true /\
  F64.round (js_decimal 149 100) = F64.of_Z 1 /\
  F64.round (js_decimal (-151) 100) = F64.of_Z (-2).
Proof. vm_compute. repeat split. Qed.

Example split_examples :
  split "?"%char "/main/api/v2/mining/rigs2" = ["/main/api/v2/mining/rigs2"] /\
  split "?"%char "/a?x=1&y=2" = ["/a"; "x=1&y=2"] /\
  split "?"%char "/a?" = ["/a"; ""] /\
  split "?"%char "" = [""].
Proof. repeat split. Qed.

Lemma append_assoc (a b c : string) : (a ++ b) ++ c = a ++ (b ++ c).
Proof. induction a as [|x a IH]; simpl; [reflexivity | now rewrite IH]. Qed.

Lemma append_empty_r (a : string) : a ++ "" = a.
Proof. induction a as [|x a IH]; simpl; [reflexivity | now rewrite IH]. Qed.

(** ** Request signing and the authenticated call *)

Section ApiProperties.

Variable JsObject : Type.
Variable qs_stringify : JsObject -> string.
Variable qs_parse : string -> JsObject.
Variable JSON_stringify : JsObject -> string.
Variable hmac_sha256 : string -> string -> list Byte.byte.
Variable version : string.
Variable spread : JsObject -> option (Api.Payload JsObject) -> JsObject.

Local Abbreviation getAuthHeader :=
  (Api.getAuthHeader qs_stringify JSON_stringify hmac_sha256).
Local Abbreviation canonical_message :=
  (Api.canonical_message qs_stringify JSON_stringify).
Local Abbreviation apiCall :=
  (Api.apiCall qs_stringify qs_parse JSON_stringify hmac_sha256 version spread).

Lemma Hex_stringify_lowercase (bytes : list Byte.byte) :
  forallb Api.lowercase_hex (list_ascii_of_string (Api.Hex_stringify bytes)) = true.
Proof.
  induction bytes as [|bite rest IH]; [reflexivity|].
  cbn [Api.Hex_stringify list_ascii_of_string forallb].
  rewrite IH. destruct bite; reflexivity.
Qed.

Lemma Hex_stringify_length (bytes : list Byte.byte) :
  String.length (Api.Hex_stringify bytes) = (2 * List.length bytes)%nat.
Proof.
  induction bytes as [|bite rest IH]; [reflexivity|].
  cbn [Api.Hex_stringify String.length List.length]. rewrite IH. lia.
Qed.

(** The hasher holds the key it was created with and the chunks fed
    to it, in order. *)
Lemma update_message (h : Api.Hmac) (chunk : string) :
  Api.hmac_message (Api.update h chunk) = Api.hmac_message h ++ chunk
  /\ Api.hmac_key (Api.update h chunk) = Api.hmac_key h.
Proof. split; reflexivity. Qed.

(** C1. For every apiKey, apiSecret, time, nonce, organisation id,
    method, path, optional query and optional body, [getAuthHeader]
    returns apiKey, a colon and the lower-case hexadecimal HMAC-SHA256
    tag, keyed by apiSecret, of the canonical message: apiKey, time,
    nonce, an empty field, the organisation id, an empty field, method,
    path and query (an object query serialised by qs.stringify), each
    separated by one null byte, followed, only when there is a body
    (truthy: an object or a non-empty string), by one more null byte
    and the body (an object body serialised by JSON.stringify).  The
    result is a function of these inputs alone. *)
Theorem getAuthHeader_signs_canonical_message :
  forall (apiKey apiSecret time nonce : string)
         (organizationId : option string) (request : Api.Request JsObject),
    let tag :=
      hmac_sha256 apiSecret
        (canonical_message apiKey time nonce organizationId request) in
    getAuthHeader apiKey apiSecret time nonce organizationId request
      = apiKey ++ ":" ++ Api.Hex_stringify tag
    /\ forallb Api.lowercase_hex (list_ascii_of_string (Api.Hex_stringify tag)) = true
    /\ String.length (Api.Hex_stringify tag) = (2 * List.length tag)%nat
    /\ canonical_message apiKey time nonce organizationId request
       = apiKey ++ NUL ++ time ++ NUL ++ nonce ++ NUL ++ NUL
         ++ match organizationId with Some o => o | None => "" end
         ++ NUL ++ NUL ++ Api.method request ++ NUL ++ Api.path request ++ NUL
         ++ match Api.query request with
            | Some (Api.PObject o) => qs_stringify o
            | Some (Api.PString s) => s
            | None => ""
            end
         ++ match Api.body request with
            | Some (Api.PObject o) => NUL ++ JSON_stringify o
            | Some (Api.PString "") => ""
            | Some (Api.PString s) => NUL ++ s
            | None => ""
            end.
Proof.
  intros apiKey apiSecret time nonce organizationId request tag.
  split; [|split; [apply Hex_stringify_lowercase|split; [apply Hex_stringify_length|]]].
  - subst tag.
    destruct request as [m p q b].
    unfold Api.getAuthHeader, Api.canonical_message, Api.finalize,
      Api.update, Api.HMAC_create, Api.payload_text.
    cbn [Api.method Api.path Api.query Api.body Api.hmac_key Api.hmac_message
         String.concat].
    destruct organizationId as [[|c o]|], q as [[[|c1 s1]|o1]|],
      b as [[[|c2 s2]|o2]|];
      cbn [str_truthy Api.payload_truthy Api.hmac_key Api.hmac_message];
      rewrite ?append_assoc, ?append_empty_r; reflexivity.
  - destruct request as [m p q b].
    unfold Api.canonical_message, Api.payload_text.
    cbn [Api.method Api.path Api.query Api.body String.concat].
    destruct q as [[[|c1 s1]|o1]|], b as [[[|c2 s2]|o2]|];
      cbn [str_truthy Api.payload_truthy];
      rewrite ?append_assoc, ?append_empty_r; reflexivity.
Qed.

(** C8 (as amended). An authenticated call made before [getTime]
    is rejected.  Otherwise the timestamp placed in the X-Time header
    and passed to the signer is the time override itself, without the
    clock offset, when a (non-zero) override is supplied, and the local
    time plus the stored clock offset when none is. *)
Theorem apiCall_timestamp :
  forall (api : Api.Api) (now : Z) (nonce method_ path_ : string)
         (options : Api.CallOptions JsObject),
    match Api.localTimeDiff api with
    | None =>
        apiCall api now nonce method_ path_ options
        = Api.Rejected "Get server time first .getTime()"
    | Some diff =>
        let timestamp :=
          toString match Api.opt_time options with
                   | Some t => if (t =? 0)%Z then (now + diff)%Z else t
                   | None => (now + diff)%Z
                   end in
        Api.header "X-Time" (apiCall api now nonce method_ path_ options)
        = Some timestamp
        /\ exists query,
            Api.header "X-Auth" (apiCall api now nonce method_ path_ options)
            = Some (getAuthHeader (Api.key api) (Api.secret api) timestamp nonce
                      (Some (Api.org api))
                      {| Api.method := method_;
                         Api.path := nth 0 (split "?"%char path_) "";
                         Api.query := query;
                         Api.body := Api.opt_body options |})
    end.
Proof.
  intros api now nonce method_ path_ options.
  unfold Api.apiCall. destruct (Api.localTimeDiff api) as [diff|]; [|reflexivity].
  cbn zeta. split; [reflexivity|].
  eexists. reflexivity.
Qed.

End ApiProperties.

(** C8, as stated, fails: with a clock offset of 5 ms and a time
    override, the X-Time header carries the override itself, not the
    override plus the offset. *)
Lemma apiCall_override_ignores_offset :
  let api :=
    Api.getTime
      (Api.new_Api (Some "en") "https://api2.nicehash.com" "key" "secret" "org")
      1005 1000 in
  let call :=
    Api.apiCall (fun _ : unit => "") (fun _ => tt) (fun _ => "")
      (fun _ _ => []) "1.0.0" (fun o _ => o)
      api 2000 "nonce" "GET" "/main/api/v2/mining/rigs2"
      {| Api.opt_query := None; Api.opt_body := None;
         Api.opt_time := Some 1700000000000%Z |} in
  Api.localTimeDiff api = Some 5%Z
  /\ Api.header "X-Time" call = Some "1700000000000"
  /\ Api.header "X-Time" call
     <> Some (Api.offset_timestamp (Some 1700000000000%Z) 2000 5).
Proof. cbv zeta. split; [reflexivity|]. split; [reflexivity|]. vm_compute. discriminate. Qed.


(** ** The rig tick *)

Section RigProperties.

Variable num : Type.
Context `{JsNumber num}.

Implicit Types (st : Rig.State num) (t : Rig.Tick num) (d : Rig.Details num)
  (s : Rig.Store num) (a : Rig.Aggregate num).

(** Case analysis on the conditions a definition branches on. *)
Ltac branches :=
  repeat match goal with
    | |- context [match ?x with _ => _ end] => destruct x eqn:?
    end.

(** *** The device store *)

Lemma setStoreValue_same k (v : num) s : Rig.setStoreValue k v s k = Some v.
Proof. unfold Rig.setStoreValue. now rewrite String.eqb_refl. Qed.

Lemma setStoreValue_other k k' (v : num) s :
  String.eqb k' k = false -> Rig.setStoreValue k v s k' = s k'.
Proof. unfold Rig.setStoreValue. now intros ->. Qed.

(** The profitability block and the meters never touch the learned
    tariff limit, and the percentage they compute does not depend on
    the store. *)
Lemma evaluate_tariff_limit t a (revenue : num) s :
  Rig.evaluated_store (Rig.evaluate t a revenue s) "tariff_limit"
  = s "tariff_limit".
Proof. unfold Rig.evaluate. branches; reflexivity. Qed.

Lemma evaluate_profitPct t a (revenue : num) s s' :
  Rig.profitPct (Rig.evaluate t a revenue s)
  = Rig.profitPct (Rig.evaluate t a revenue s').
Proof. unfold Rig.evaluate. branches; reflexivity. Qed.

Lemma accumulate_tariff_limit elapsed a (revenue : num) e s :
  Rig.accumulate elapsed a revenue e s "tariff_limit" = s "tariff_limit".
Proof. unfold Rig.accumulate. branches; reflexivity. Qed.

(** *** The paths of a tick *)

Lemma syncRigDetails_idle st t d :
  Rig.details t = Some d -> Rig.unmanaged d = false ->
  Rig.has_devices d = true -> Rig.agg_mining (Rig.aggregate d) = 0%Z ->
  Rig.syncRigDetails st t
  = Rig.idle_tick st t (Rig.tariff_limit_of (Rig.store st)) (Rig.tick_store st d).
Proof.
  intros Hd Hu Hh Hm. unfold Rig.syncRigDetails.
  rewrite Hd, Hu, Hh, Hm. reflexivity.
Qed.

Lemma syncRigDetails_mining st t d :
  Rig.details t = Some d -> Rig.unmanaged d = false ->
  Rig.has_devices d = true -> Rig.agg_mining (Rig.aggregate d) <> 0%Z ->
  Rig.syncRigDetails st t
  = Rig.mining_tick st t d (Rig.aggregate d) (Rig.tariff_limit_of (Rig.store st))
      (js_or (Rig.setting_min_profitability t) (js_of_Z 0)) (Rig.tick_store st d).
Proof.
  intros Hd Hu Hh Hm. unfold Rig.syncRigDetails.
  rewrite Hd, Hu, Hh. apply Z.eqb_neq in Hm. rewrite Hm. reflexivity.
Qed.

(** C9 (as amended). After a tick the stored [lastSync] is: unchanged
    when the tick aborts on a missing payload or on a missing or
    UNMANAGED rig type; reset to 0 when the tick finds the rig idle
    (no device mining); and the wall-clock time of the tick in every
    other case, that is when some device is mining or when the payload
    carries no device list. *)
Theorem lastSync_after_tick :
  forall st t,
    Rig.lastSync (fst (Rig.syncRigDetails st t))
    = match Rig.details t with
      | None => Rig.lastSync st
      | Some d =>
          if Rig.unmanaged d then Rig.lastSync st
          else if Rig.has_devices d
                  && (Rig.agg_mining (Rig.aggregate d) =? 0)%Z
               then 0%Z
               else Rig.now t
      end.
Proof.
  intros st t. unfold Rig.syncRigDetails, Rig.idle_tick, Rig.mining_tick.
  destruct (Rig.details t) as [d|]; [|reflexivity].
  destruct (Rig.unmanaged d); [reflexivity|].
  destruct (Rig.has_devices d); [|reflexivity].
  destruct (Rig.agg_mining (Rig.aggregate d) =? 0)%Z; [reflexivity|].
  cbn [andb]. branches; reflexivity.
Qed.


(** *** The assessment of a mining tick *)

(** The rolling average after an assessment. *)
Lemma assess_rollingProfit st t (tariff_limit min profitPct : num) s :
  Rig.assessed_rollingProfit (Rig.assess st t tariff_limit min profitPct s)
  = if (Rig.benchmarkStart st =? 0)%Z then profitPct
    else js_add
           (js_mul (Rig.rollingProfit st) (js_div (js_of_Z 6) (js_of_Z 7)))
           (js_mul profitPct (js_div (js_of_Z 1) (js_of_Z 7))).
Proof. unfold Rig.assess. branches; reflexivity. Qed.

Lemma assess_benchmarkStart st t (tariff_limit min profitPct : num) s :
  Rig.assessed_benchmarkStart (Rig.assess st t tariff_limit min profitPct s)
  = if (Rig.benchmarkStart st =? 0)%Z then Rig.now t else Rig.benchmarkStart st.
Proof. unfold Rig.assess. branches; reflexivity. Qed.

(** A tick on a mining rig that reports a hashrate, after a tick that
    left [lastSync] set, ends with the assessment; the store the
    assessment starts from holds the tariff limit the tick began
    with. *)
Lemma syncRigDetails_assessed st t d :
  Rig.details t = Some d -> Rig.unmanaged d = false ->
  Rig.has_devices d = true -> Rig.agg_mining (Rig.aggregate d) <> 0%Z ->
  js_truthy (Rig.agg_hashrate (Rig.aggregate d)) = true ->
  (0 < Rig.lastSync st)%Z ->
  exists s,
    s "tariff_limit" = Rig.store st "tariff_limit"
    /\ let r := Rig.assess st t (Rig.tariff_limit_of (Rig.store st))
                  (js_or (Rig.setting_min_profitability t) (js_of_Z 0))
                  (Rig.instant_profitPct t d) s in
       Rig.syncRigDetails st t
       = ({| Rig.lastSync := Rig.now t; Rig.lastMined := Rig.now t;
             Rig.benchmarkStart := Rig.assessed_benchmarkStart r;
             Rig.rollingProfit := Rig.assessed_rollingProfit r;
             Rig.store := Rig.assessed_store r |},
          Rig.assessed_effects r).
Proof.
  intros Hd Hu Hh Hm Hr Hs.
  rewrite (syncRigDetails_mining st t Hd Hu Hh Hm).
  unfold Rig.mining_tick. rewrite Hr.
  apply Z.gtb_lt in Hs. rewrite Hs.
  eexists. split; [|cbv zeta; unfold Rig.instant_profitPct; rewrite Hr;
                    erewrite evaluate_profitPct; reflexivity].
  rewrite accumulate_tariff_limit, evaluate_tariff_limit.
  reflexivity.
Qed.

(** A tick that does not reach the assessment leaves the rolling
    average, the benchmark start and the learned tariff limit as they
    were, or is an idle tick, which clears the first two. *)
Lemma syncRigDetails_not_assessed st t d :
  Rig.details t = Some d -> Rig.unmanaged d = false ->
  Rig.has_devices d = true -> Rig.agg_mining (Rig.aggregate d) <> 0%Z ->
  js_truthy (Rig.agg_hashrate (Rig.aggregate d)) = false
  \/ (Rig.lastSync st <= 0)%Z ->
  let st' := fst (Rig.syncRigDetails st t) in
  Rig.rollingProfit st' = Rig.rollingProfit st
  /\ Rig.benchmarkStart st' = Rig.benchmarkStart st
  /\ Rig.lastSync st' = Rig.now t
  /\ Rig.store st' "tariff_limit" = Rig.store st "tariff_limit"
  /\ snd (Rig.syncRigDetails st t) = [].
Proof.
  intros Hd Hu Hh Hm Hno.
  rewrite (syncRigDetails_mining st t Hd Hu Hh Hm).
  unfold Rig.mining_tick.
  destruct (Rig.lastSync st >? 0)%Z eqn:Hs.
  - destruct Hno as [Hr|Hle]; [|apply Z.gtb_lt in Hs; lia].
    rewrite Hr. cbn. repeat split; try reflexivity.
    now rewrite accumulate_tariff_limit, evaluate_tariff_limit.
  - cbn. repeat split; try reflexivity.
    now rewrite evaluate_tariff_limit.
Qed.

(** *** States of a running device *)

Lemma tick_clock_fields st t :
  let st' := fst (Rig.syncRigDetails st t) in
  (Rig.lastSync st' = Rig.lastSync st
   /\ Rig.benchmarkStart st' = Rig.benchmarkStart st)
  \/ (Rig.lastSync st' = 0%Z /\ Rig.benchmarkStart st' = 0%Z)
  \/ (Rig.lastSync st' = Rig.now t
      /\ (Rig.benchmarkStart st' = Rig.benchmarkStart st
          \/ (Rig.benchmarkStart st' = Rig.now t /\ (0 < Rig.lastSync st)%Z))).
Proof.
  unfold Rig.syncRigDetails, Rig.idle_tick, Rig.mining_tick.
  destruct (Rig.details t) as [d|]; [|left; split; reflexivity].
  destruct (Rig.unmanaged d); [left; split; reflexivity|].
  destruct (Rig.has_devices d); [|right; right; cbn; auto].
  destruct (Rig.agg_mining (Rig.aggregate d) =? 0)%Z; [right; left; cbn; auto|].
  destruct (Rig.lastSync st >? 0)%Z eqn:Hs; [|right; right; cbn; auto].
  destruct (js_truthy (Rig.agg_hashrate (Rig.aggregate d)));
    [|right; right; cbn; auto].
  right; right. cbn [fst Rig.lastSync Rig.benchmarkStart].
  rewrite assess_benchmarkStart. split; [reflexivity|].
  destruct (Rig.benchmarkStart st =? 0)%Z; [right|left; reflexivity].
  split; [reflexivity|]. now apply Z.gtb_lt.
Qed.

(** While a benchmark is running, the previous tick has left
    [lastSync] set. *)
Lemma reachable_benchmark st :
  Rig.reachable st ->
  Rig.benchmarkStart st = 0%Z
  \/ (0 < Rig.benchmarkStart st /\ 0 < Rig.lastSync st)%Z.
Proof.
  induction 1 as [s|st t Hreach IH Hnow]; [left; reflexivity|].
  pose proof (tick_clock_fields st t) as Hf. cbv zeta in Hf.
  destruct Hf as [[Hl Hb]|[[Hl Hb]|[Hl [Hb|[Hb Hs]]]]]; rewrite ?Hl, ?Hb.
  - exact IH.
  - left; reflexivity.
  - destruct IH as [IH|[IH _]]; [left; exact IH|right; lia].
  - right; lia.
Qed.

(** In the Steady state, on a tick that finds a device mining with a
    hashrate, the stop command is sent exactly when both readings are
    below the minimum. *)
Lemma steady_stop_with_hashrate :
  forall st t d,
    Rig.reachable st ->
    Rig.details t = Some d -> Rig.unmanaged d = false ->
    Rig.has_devices d = true -> Rig.agg_mining (Rig.aggregate d) <> 0%Z ->
    js_truthy (Rig.agg_hashrate (Rig.aggregate d)) = true ->
    (0 < Rig.benchmarkStart st)%Z ->
    (Rig.now t - Rig.benchmarkStart st > 7 * 60000)%Z ->
    Rig.smart_mode t = true ->
    let min := js_or (Rig.setting_min_profitability t) (js_of_Z 0) in
    let rolling := Rig.rollingProfit (fst (Rig.syncRigDetails st t)) in
    let instant := Rig.instant_profitPct t d in
    let effects := snd (Rig.syncRigDetails st t) in
    (In (Rig.setRigStatus false) effects
     <-> js_lt rolling min = true /\ js_lt instant min = true)
    /\ (js_lt rolling min = false \/ js_lt instant min = false ->
        ~ In (Rig.setRigStatus false) effects)
    /\ ~ In (Rig.setRigStatus true) effects.
Proof.
  intros st t d Hreach Hd Hu Hh Hm Hr Hb Hel Hsm min rolling instant effects.
  destruct (reachable_benchmark Hreach) as [H0|[_ Hs]]; [lia|].
  destruct (syncRigDetails_assessed st t Hd Hu Hh Hm Hr Hs) as [s [_ Heq]].
  cbv zeta in Heq. subst rolling effects. rewrite Heq. cbn [fst snd Rig.rollingProfit].
  rewrite assess_rollingProfit.
  unfold Rig.assess.
  assert (Hb0 : (Rig.benchmarkStart st =? 0)%Z = false) by (apply Z.eqb_neq; lia).
  rewrite Hb0.
  assert (Hb1 : (Rig.benchmarkStart st >? 0)%Z = true) by (apply Z.gtb_lt; lia).
  assert (Hb2 : (Rig.now t - Rig.benchmarkStart st
                 >? Rig.smartMagicNumber * 60000)%Z = true)
    by (apply Z.gtb_lt; unfold Rig.smartMagicNumber; lia).
  rewrite Hb1, Hb2. cbn [andb].
  fold min instant. unfold Rig.stop_condition, Rig.smartMagicNumber.
  change (js_of_Z (7 - 1)) with (js_of_Z 6).
  set (rolling := js_add _ _).
  rewrite Hsm.
  destruct (js_lt rolling min) eqn:Hlr, (js_lt instant min) eqn:Hli;
    cbn [andb Rig.assessed_effects app In];
    try (destruct (js_lt (Rig.tariff_limit_of (Rig.store st)) (Rig.power_tariff t)));
    cbn [In];
    (split; [split; [intros Hx|intros [Hx Hy]]|
             split; [intros [Hx|Hx] Hy|intros Hy]]);
    try discriminate; try tauto;
    repeat match goal with
      | Hx : _ \/ _ |- _ => destruct Hx as [Hx|Hx]
      | Hx : Rig.log _ = Rig.setRigStatus _ |- _ => discriminate Hx
      | Hx : Rig.setRigStatus _ = Rig.setRigStatus _ |- _ => discriminate Hx
      | Hx : False |- _ => destruct Hx
      end.
Qed.

(** C2 (as amended). On a running device, for every tick that finds a
    managed rig with a device mining more than 7 * 60,000 ms after
    [benchmarkStart], with Autopilot enabled: when the aggregate hashrate
    is not zero, the stop command is sent on that tick if and only if
    both the rolling average (as updated by the tick) and the tick's
    instant profit percentage are strictly below the minimum
    profitability, and when one of the two is not below it no stop
    command is sent; when the aggregate hashrate is zero (the rig waits
    for a job) the tick skips the assessment: it sends no command and
    leaves the rolling average as it was, whatever the two readings. *)
Theorem steady_stop_iff_both_below :
  forall st t d,
    Rig.reachable st ->
    Rig.details t = Some d -> Rig.unmanaged d = false ->
    Rig.has_devices d = true -> Rig.agg_mining (Rig.aggregate d) <> 0%Z ->
    (0 < Rig.benchmarkStart st)%Z ->
    (Rig.now t - Rig.benchmarkStart st > 7 * 60000)%Z ->
    Rig.smart_mode t = true ->
    let min := js_or (Rig.setting_min_profitability t) (js_of_Z 0) in
    let rolling := Rig.rollingProfit (fst (Rig.syncRigDetails st t)) in
    let instant := Rig.instant_profitPct t d in
    let effects := snd (Rig.syncRigDetails st t) in
    (js_truthy (Rig.agg_hashrate (Rig.aggregate d)) = true ->
     (In (Rig.setRigStatus false) effects
      <-> js_lt rolling min = true /\ js_lt instant min = true)
     /\ (js_lt rolling min = false \/ js_lt instant min = false ->
         ~ In (Rig.setRigStatus false) effects)
     /\ ~ In (Rig.setRigStatus true) effects)
    /\ (js_truthy (Rig.agg_hashrate (Rig.aggregate d)) = false ->
        effects = [] /\ rolling = Rig.rollingProfit st).
Proof.
  intros st t d Hreach Hd Hu Hh Hm Hb Hel Hsm min rolling instant effects.
  split; intros Hr.
  - exact (@steady_stop_with_hashrate st t d Hreach Hd Hu Hh Hm Hr Hb Hel Hsm).
  - destruct (syncRigDetails_not_assessed st t Hd Hu Hh Hm (or_introl Hr))
      as (Hkeep & _ & _ & _ & Hnil).
    split; [exact Hnil|exact Hkeep].
Qed.

(** *** Which devices a tick counts *)

Lemma device_step_mining a (d : Rig.Device num) :
  Rig.agg_mining (Rig.device_step a d)
  = (Rig.agg_mining a
     + if String.eqb (Rig.status_enumName d) "MINING" then 1 else 0)%Z.
Proof.
  unfold Rig.device_step.
  destruct (String.eqb (Rig.status_enumName d) "DISABLED") eqn:Hdis.
  { apply String.eqb_eq in Hdis. rewrite Hdis. cbn. lia. }
  destruct (String.eqb (Rig.status_enumName d) "OFFLINE") eqn:Hoff.
  { apply String.eqb_eq in Hoff. rewrite Hoff. cbn. lia. }
  cbn [orb]. destruct (String.eqb (Rig.status_enumName d) "MINING"); cbn; lia.
Qed.

Lemma devices_mining (ds : list (Rig.Device num)) a :
  Rig.agg_mining (fold_left (@Rig.device_step num _) ds a)
  = (Rig.agg_mining a + Rig.mining_status_count ds)%Z.
Proof.
  revert a. induction ds as [|d ds IH]; intros a.
  - unfold Rig.mining_status_count. cbn. lia.
  - cbn [fold_left]. rewrite IH, device_step_mining.
    unfold Rig.mining_status_count. cbn [filter].
    destruct (String.eqb (Rig.status_enumName d) "MINING");
      cbn [List.length]; lia.
Qed.

Lemma algos_mining (algos : list (Rig.AlgorithmSpeed num)) a :
  Rig.agg_mining (fold_left (@Rig.algo_step num _) algos a)
  = (Rig.agg_mining a
     + Z.of_nat (List.length (filter (@Rig.positive_speed num _) algos)))%Z.
Proof.
  revert a. induction algos as [|algo algos IH]; intros a.
  - cbn. lia.
  - cbn [fold_left filter]. rewrite IH.
    destruct (Rig.positive_speed algo) eqn:Hp;
      unfold Rig.positive_speed in Hp; unfold Rig.algo_step;
      cbn [Rig.agg_mining]; rewrite Hp; cbn [List.length]; lia.
Qed.

Lemma keypairs_fields (kps : list (Rig.KeyPair num)) a :
  fold_left (@Rig.keypair_step num _) kps a
  = {| Rig.agg_powerUsage := Rig.odv_power kps (Rig.agg_powerUsage a);
       Rig.agg_hashrate := Rig.agg_hashrate a;
       Rig.agg_mining := Rig.agg_mining a;
       Rig.agg_temperature := Rig.odv_temperature kps (Rig.agg_temperature a);
       Rig.agg_load := Rig.odv_load kps (Rig.agg_load a) |}.
Proof.
  revert a. induction kps as [|kp kps IH]; intros a.
  - destruct a; reflexivity.
  - cbn [fold_left]. rewrite IH. reflexivity.
Qed.

Lemma algos_fields (algos : list (Rig.AlgorithmSpeed num)) a :
  Rig.agg_powerUsage (fold_left (@Rig.algo_step num _) algos a)
  = Rig.agg_powerUsage a
  /\ Rig.agg_temperature (fold_left (@Rig.algo_step num _) algos a)
     = Rig.agg_temperature a
  /\ Rig.agg_load (fold_left (@Rig.algo_step num _) algos a) = Rig.agg_load a
  /\ Rig.agg_hashrate (fold_left (@Rig.algo_step num _) algos a)
     = fold_left
         (fun h algo => js_add h (js_div (Rig.algo_speed algo) (js_of_Z 1000000)))
         algos (Rig.agg_hashrate a).
Proof.
  revert a. induction algos as [|algo algos IH]; intros a.
  - repeat split.
  - cbn [fold_left]. destruct (IH (Rig.algo_step a algo)) as (Hp & Ht & Hl & Hh).
    rewrite Hp, Ht, Hl, Hh. repeat split.
Qed.

Lemma v4_device_step_mining a (d : Rig.V4Device num) :
  Rig.agg_mining (Rig.v4_device_step a d)
  = (Rig.agg_mining a + Rig.positive_entries d)%Z.
Proof.
  unfold Rig.v4_device_step, Rig.positive_entries.
  rewrite keypairs_fields. cbn [Rig.agg_mining].
  destruct (Rig.mdv_algorithmsSpeed d) as [algos|]; [apply algos_mining|lia].
Qed.

Lemma v4_devices_mining (ds : list (Rig.V4Device num)) a :
  Rig.agg_mining (fold_left (@Rig.v4_device_step num _) ds a)
  = (Rig.agg_mining a + Rig.positive_entry_count ds)%Z.
Proof.
  revert a. induction ds as [|d ds IH]; intros a.
  - cbn. lia.
  - cbn [fold_left Rig.positive_entry_count fold_right].
    rewrite IH, v4_device_step_mining.
    fold (Rig.positive_entry_count ds). lia.
Qed.

(** C7 (as amended). A legacy device whose status is DISABLED or
    OFFLINE contributes nothing.  Any other legacy device adds its
    power usage, temperature and load; it adds its speed readings to
    the hashrate and one to the mining-device count exactly when its
    status is MINING, whatever readings it reports.  A v4 device is not
    filtered by status: it adds the power usage, temperature and load
    of its key/value metrics and all its algorithm speeds, and adds
    one to the mining-device count for each algorithm entry with a
    positive speed.  So the mining-device count of a payload is the
    number of legacy devices with status MINING plus the number of
    positive v4 algorithm entries. *)
Theorem device_contributions :
  (forall a (d : Rig.Device num),
      Rig.status_enumName d = "DISABLED" \/ Rig.status_enumName d = "OFFLINE" ->
      Rig.device_step a d = a)
  /\ (forall a (d : Rig.Device num),
         Rig.status_enumName d <> "DISABLED" ->
         Rig.status_enumName d <> "OFFLINE" ->
         let a' := Rig.device_step a d in
         Rig.agg_powerUsage a' = js_add (Rig.agg_powerUsage a) (Rig.powerUsage d)
         /\ Rig.agg_temperature a'
            = js_max (Rig.agg_temperature a) (Rig.temperature d)
         /\ Rig.agg_load a' = js_add (Rig.agg_load a) (Rig.load d)
         /\ (Rig.status_enumName d = "MINING" ->
             Rig.agg_mining a' = (Rig.agg_mining a + 1)%Z
             /\ Rig.agg_hashrate a'
                = fold_left (@Rig.speed_step num _) (Rig.speeds d)
                    (Rig.agg_hashrate a))
         /\ (Rig.status_enumName d <> "MINING" ->
             Rig.agg_mining a' = Rig.agg_mining a
             /\ Rig.agg_hashrate a' = Rig.agg_hashrate a))
  /\ (forall a (d : Rig.V4Device num),
         let a' := Rig.v4_device_step a d in
         let algos := match Rig.mdv_algorithmsSpeed d with
                      | Some algos => algos
                      | None => []
                      end in
         Rig.agg_powerUsage a' = Rig.odv_power (Rig.odv d) (Rig.agg_powerUsage a)
         /\ Rig.agg_temperature a'
            = Rig.odv_temperature (Rig.odv d) (Rig.agg_temperature a)
         /\ Rig.agg_load a' = Rig.odv_load (Rig.odv d) (Rig.agg_load a)
         /\ Rig.agg_hashrate a'
            = fold_left
                (fun h algo =>
                   js_add h (js_div (Rig.algo_speed algo) (js_of_Z 1000000)))
                algos (Rig.agg_hashrate a)
         /\ Rig.agg_mining a' = (Rig.agg_mining a + Rig.positive_entries d)%Z)
  /\ (forall d,
         Rig.agg_mining (Rig.aggregate d)
         = (match Rig.devices d with
            | Some ds => Rig.mining_status_count ds
            | None => 0
            end
            + if Rig.hasV4Rigs d then
                match Rig.v4_devices d with
                | Some ds => Rig.positive_entry_count ds
                | None => 0
                end
              else 0)%Z).
Proof.
  split; [|split; [|split]].
  - intros a d [Hs|Hs]; unfold Rig.device_step; rewrite Hs; reflexivity.
  - intros a d Hdis Hoff a'. subst a'. unfold Rig.device_step.
    apply String.eqb_neq in Hdis, Hoff. rewrite Hdis, Hoff. cbn [orb].
    destruct (String.eqb (Rig.status_enumName d) "MINING") eqn:Hm;
      cbn [negb Rig.agg_powerUsage Rig.agg_temperature Rig.agg_load
           Rig.agg_mining Rig.agg_hashrate].
    + apply String.eqb_eq in Hm. repeat split; try reflexivity; congruence.
    + apply String.eqb_neq in Hm. repeat split; try reflexivity; congruence.
  - intros a d a' algos. subst a' algos. unfold Rig.v4_device_step.
    rewrite keypairs_fields.
    cbn [Rig.agg_powerUsage Rig.agg_temperature Rig.agg_load Rig.agg_mining
         Rig.agg_hashrate].
    unfold Rig.positive_entries.
    destruct (Rig.mdv_algorithmsSpeed d) as [algos|].
    + destruct (algos_fields algos a) as (Hp & Ht & Hl & Hh).
      rewrite Hp, Ht, Hl, Hh, algos_mining. repeat split.
    + cbn [fold_left]. repeat split. lia.
  - intros d. unfold Rig.aggregate.
    destruct (Rig.devices d) as [ds|], (Rig.hasV4Rigs d);
      try destruct (Rig.v4_devices d) as [vs|];
      rewrite ?v4_devices_mining, ?devices_mining; cbn [Rig.agg_mining]; lia.
Qed.

(** *** The rolling average and the learned tariff limit *)

Lemma rolling_after_assessed st t d :
  Rig.mining_with_hashrate t d -> (0 < Rig.lastSync st)%Z ->
  Rig.rollingProfit (fst (Rig.syncRigDetails st t))
  = if (Rig.benchmarkStart st =? 0)%Z then Rig.instant_profitPct t d
    else js_add
           (js_mul (Rig.rollingProfit st) (js_div (js_of_Z 6) (js_of_Z 7)))
           (js_mul (Rig.instant_profitPct t d) (js_div (js_of_Z 1) (js_of_Z 7))).
Proof.
  intros (Hd & Hu & Hh & Hm & Hr) Hs.
  destruct (syncRigDetails_assessed st t Hd Hu Hh Hm Hr Hs) as [s [_ Heq]].
  cbv zeta in Heq. rewrite Heq. cbn [fst Rig.rollingProfit].
  apply assess_rollingProfit.
Qed.


Lemma idle_tick_tariff_limit st t (limit : num) s :
  Rig.store (fst (Rig.idle_tick st t limit s)) "tariff_limit" = s "tariff_limit"
  /\ ~ In (Rig.log Rig.RigIsNotProfitable) (snd (Rig.idle_tick st t limit s)).
Proof.
  unfold Rig.idle_tick. cbn [fst snd Rig.store]. split; [reflexivity|].
  destruct (Rig.start_condition st t limit); cbn [In];
    intros Hx; repeat destruct Hx as [Hx|Hx]; try discriminate; exact Hx.
Qed.

(** What one tick does to the learned tariff limit. *)
Lemma tariff_limit_step st t :
  let st' := fst (Rig.syncRigDetails st t) in
  let min := js_or (Rig.setting_min_profitability t) (js_of_Z 0) in
  (Rig.stop_decision st t ->
   Rig.store st' "tariff_limit" = Some (Rig.power_tariff t)
   /\ exists d, Rig.mining_with_hashrate t d
                /\ js_lt (Rig.rollingProfit st') min = true
                /\ js_lt (Rig.instant_profitPct t d) min = true)
  /\ (~ Rig.stop_decision st t ->
      Rig.store st' "tariff_limit" = Rig.store st "tariff_limit"
      \/ (Rig.store st' "tariff_limit" = Some (Rig.power_tariff t)
          /\ js_lt (Rig.tariff_limit_of (Rig.store st)) (Rig.power_tariff t)
             = true)).
Proof.
  intros st' min. subst st'. unfold Rig.stop_decision.
  destruct (Rig.details t) as [d|] eqn:Hd;
    [|unfold Rig.syncRigDetails; rewrite Hd; cbn; tauto].
  destruct (Rig.unmanaged d) eqn:Hu;
    [unfold Rig.syncRigDetails; rewrite Hd, Hu; cbn; tauto|].
  destruct (Rig.has_devices d) eqn:Hh;
    [|unfold Rig.syncRigDetails; rewrite Hd, Hu, Hh; cbn; tauto].
  destruct (Z.eq_dec (Rig.agg_mining (Rig.aggregate d)) 0) as [Hm|Hm].
  { rewrite (syncRigDetails_idle st t Hd Hu Hh Hm).
    destruct (idle_tick_tariff_limit st t (Rig.tariff_limit_of (Rig.store st))
                (Rig.tick_store st d)) as [Hs Hn].
    split; [intros Hx; contradiction|]. intros _. left. exact Hs. }
  destruct (js_truthy (Rig.agg_hashrate (Rig.aggregate d))) eqn:Hr;
    [destruct (Z_lt_le_dec 0 (Rig.lastSync st)) as [Hs|Hs]|].
  - destruct (syncRigDetails_assessed st t Hd Hu Hh Hm Hr Hs) as [s [Hkeep Heq]].
    cbv zeta in Heq. rewrite Heq.
    cbn [fst snd Rig.store Rig.rollingProfit]. rewrite assess_rollingProfit.
    unfold Rig.assess. fold min.
    unfold Rig.smartMagicNumber. change (js_of_Z (7 - 1)) with (js_of_Z 6).
    set (rolling := if (Rig.benchmarkStart st =? 0)%Z
                    then Rig.instant_profitPct t d else _).
    destruct (_ && _)%bool;
      [|cbn [Rig.assessed_store Rig.assessed_effects In]; split;
        [intros []|intros _; left; exact Hkeep]].
    destruct (Rig.stop_condition rolling (Rig.instant_profitPct t d) min) eqn:Hstop;
      cbn [Rig.assessed_store Rig.assessed_effects].
    + split; [intros _|intros Hn; exfalso; apply Hn; left; reflexivity].
      split; [apply setStoreValue_same|].
      exists d. unfold Rig.stop_condition in Hstop.
      apply andb_true_iff in Hstop. unfold Rig.mining_with_hashrate. tauto.
    + split.
      * destruct (js_lt (Rig.tariff_limit_of (Rig.store st)) (Rig.power_tariff t));
          cbn [In]; intros Hx; repeat destruct Hx as [Hx|Hx];
          try discriminate; contradiction.
      * intros _.
        destruct (js_lt (Rig.tariff_limit_of (Rig.store st)) (Rig.power_tariff t));
          [right; split; [apply setStoreValue_same|reflexivity]|left; exact Hkeep].
  - destruct (syncRigDetails_not_assessed st t Hd Hu Hh Hm (or_intror Hs))
      as (_ & _ & _ & Hkeep & Hnil).
    rewrite Hnil. cbn [In]. tauto.
  - destruct (syncRigDetails_not_assessed st t Hd Hu Hh Hm (or_introl Hr))
      as (_ & _ & _ & Hkeep & Hnil).
    rewrite Hnil. cbn [In]. tauto.
Qed.




End RigProperties.

(** ** Evaluating the tick *)

Example sample_instant_profit :
  Rig.instant_profitPct (Sample.tick Q 1700000000000 "MINING" 10)
    (Sample.payload Q "MINING") == -50
  /\ Rig.instant_profitPct (Sample.tick f64 1700000000000 "MINING" 10)
       (Sample.payload f64 "MINING") = F64.of_Z (-50).
Proof. split; vm_compute; reflexivity. Qed.

Example sample_benchmarking :
  Rig.lastSync (Sample.benchmarking Q) = 1700000060000%Z
  /\ Rig.benchmarkStart (Sample.benchmarking Q) = 1700000060000%Z
  /\ Rig.rollingProfit (Sample.benchmarking Q) == -50
  /\ Rig.store (Sample.benchmarking Q) "tariff_limit" = None.
Proof. repeat split; vm_compute; reflexivity. Qed.

(** ** The rolling average in exact arithmetic *)
















(** ** Evaluating the Autopilot decisions *)

Lemma steady_stop_iff_both_below_witness :
  let st := Sample.benchmarking Q in
  let t := Sample.tick Q 1700000480001 "MINING" 10 in
  let d := Sample.payload Q "MINING" in
  let min := js_or (Rig.setting_min_profitability t) (js_of_Z 0) in
  Rig.reachable st
  /\ Rig.details t = Some d /\ Rig.unmanaged d = false
  /\ Rig.has_devices d = true /\ Rig.agg_mining (Rig.aggregate d) <> 0%Z
  /\ js_truthy (Rig.agg_hashrate (Rig.aggregate d)) = true
  /\ (0 < Rig.benchmarkStart st)%Z
  /\ (Rig.now t - Rig.benchmarkStart st > 7 * 60000)%Z
  /\ Rig.smart_mode t = true
  /\ (In (Rig.setRigStatus false) (snd (Rig.syncRigDetails st t))
      <-> js_lt (Rig.rollingProfit (fst (Rig.syncRigDetails st t))) min = true
          /\ js_lt (Rig.instant_profitPct t d) min = true).
Proof.
  intros st t d min.
  assert (Hreach : Rig.reachable st).
  { change (Rig.reachable
              (fst (Rig.syncRigDetails
                      (fst (Rig.syncRigDetails (Rig.fresh (fun _ => None))
                              (Sample.tick Q 1700000000000 "MINING" 10)))
                      (Sample.tick Q 1700000060000 "MINING" 10)))).
    apply Rig.reachable_tick; [apply Rig.reachable_tick|]; try apply Rig.reachable_fresh;
      reflexivity. }
  assert (Hd : Rig.details t = Some d) by reflexivity.
  assert (Hu : Rig.unmanaged d = false) by reflexivity.
  assert (Hh : Rig.has_devices d = true) by reflexivity.
  assert (Hm : Rig.agg_mining (Rig.aggregate d) <> 0%Z) by (vm_compute; congruence).
  assert (Hr : js_truthy (Rig.agg_hashrate (Rig.aggregate d)) = true)
    by (vm_compute; reflexivity).
  assert (Hb : (0 < Rig.benchmarkStart st)%Z) by (vm_compute; reflexivity).
  assert (Hel : (Rig.now t - Rig.benchmarkStart st > 7 * 60000)%Z)
    by (vm_compute; reflexivity).
  assert (Hsm : Rig.smart_mode t = true) by reflexivity.
  repeat (split; [assumption|]).
  exact (proj1 (proj1 (@steady_stop_iff_both_below Q _ st t d Hreach Hd Hu Hh Hm
                         Hb Hel Hsm) Hr)).
Defined.

(** The scenario of the sample rig: started when idle, stopped once the
    benchmark is over at -50 %, its tariff recorded as the limit, and
    started again when the tariff drops below it. *)
Example sample_scenario :
  let idle := Sample.tick f64 1700000000000 "INACTIVE" 10 in
  let st := Sample.benchmarking f64 in
  let stop := Rig.syncRigDetails st (Sample.tick f64 1700000480001 "MINING" 10) in
  let cheaper := Sample.tick f64 1700000540000 "INACTIVE" 5 in
  snd (Rig.syncRigDetails (Rig.fresh (fun _ => None)) idle)
  = [Rig.log Rig.AutopilotStartingRig; Rig.setRigStatus true]
  /\ snd stop
     = [Rig.log Rig.RigIsNotProfitable; Rig.log Rig.SettingTariffLimit;
        Rig.log Rig.AutopilotStoppingRig; Rig.setRigStatus false]
  /\ Rig.store (fst stop) "tariff_limit" = Some (js_decimal 10 100)
  /\ snd (Rig.syncRigDetails (fst stop) cheaper)
     = [Rig.log Rig.AutopilotStartingRig; Rig.setRigStatus true].
Proof. repeat split; vm_compute; reflexivity. Qed.



(** ** Evaluating the normaliser *)

Lemma device_contributions_witness :
  let a := Rig.aggregate (Sample.payload Q "MINING") in
  let d := Sample.gpu Q "DISABLED" in
  (Rig.status_enumName d = "DISABLED" \/ Rig.status_enumName d = "OFFLINE")
  /\ Rig.device_step a d = a.
Proof.
  intros a d.
  assert (Hs : Rig.status_enumName d = "DISABLED" \/ Rig.status_enumName d = "OFFLINE")
    by (left; reflexivity).
  split; [exact Hs|].
  exact (proj1 (@device_contributions Q _) a d Hs).
Defined.

(** C2, as stated, fails.  In the Steady state with Autopilot on, a
    tick that finds the device mining but waiting for a job (status
    MINING, no hashrate) sends no stop command although the rolling
    average (-50) and the tick's instant profit percentage (-100, which
    the tick stores) are both below the minimum profitability (0). *)
Lemma stop_not_sent_while_waiting_for_job :
  let st := Sample.benchmarking f64 in
  let d := Sample.waiting_for_job f64 in
  let t := {| Rig.now := 1700000480001; Rig.details := Some d;
              Rig.power_tariff := js_decimal 10 100; Rig.smart_mode := true;
              Rig.setting_min_profitability := js_of_Z 0;
              Rig.bitcoinRate := Some (js_of_Z 600) |} in
  let min := js_or (Rig.setting_min_profitability t) (js_of_Z 0) in
  let rolling := Rig.rollingProfit (fst (Rig.syncRigDetails st t)) in
  let instant := Rig.instant_profitPct t d in
  (Rig.unmanaged d = false /\ Rig.agg_mining (Rig.aggregate d) = 1%Z
   /\ Rig.store (fst (Rig.syncRigDetails st t)) "mining" = Some (F64.of_Z 1))
  /\ (Rig.benchmarkStart st = 1700000060000%Z
      /\ (Rig.now t - Rig.benchmarkStart st > 7 * 60000)%Z
      /\ Rig.smart_mode t = true)
  /\ (rolling = F64.of_Z (-50) /\ instant = F64.of_Z (-100)
      /\ Rig.store (fst (Rig.syncRigDetails st t)) "measure_profit_percent"
         = Some (F64.of_Z (-100))
      /\ js_lt rolling min = true /\ js_lt instant min = true)
  /\ snd (Rig.syncRigDetails st t) = []
  /\ ~ In (Rig.setRigStatus false) (snd (Rig.syncRigDetails st t)).
Proof.
  cbv zeta. repeat split; try (vm_compute; reflexivity).
  vm_compute. intros [].
Qed.


(** C7, as stated, fails.  A legacy device with status MINING and no
    speed reading is counted as mining although no device produces a
    positive hashrate reading; a single v4 device mining two algorithms
    is counted twice. *)
Lemma mining_count_is_not_devices_with_reading :
  (Rig.agg_mining (Rig.aggregate (Sample.waiting_for_job f64)) = 1%Z
   /\ Rig.agg_hashrate (Rig.aggregate (Sample.waiting_for_job f64)) = F64.of_Z 0
   /\ Rig.devices_with_reading (Sample.waiting_for_job f64) = 0%Z)
  /\ (Rig.agg_mining (Rig.aggregate (Sample.dual_mining f64)) = 2%Z
      /\ Rig.devices_with_reading (Sample.dual_mining f64) = 1%Z).
Proof. repeat split; vm_compute; reflexivity. Qed.

(** C9, as stated, fails.  A tick that finds the rig idle leaves
    [lastSync] at 0, and a tick that aborts on a missing payload leaves
    it at the time of the previous tick. *)
Lemma lastSync_is_not_always_now :
  let idle := Sample.tick f64 1700000000000 "INACTIVE" 10 in
  let lost := {| Rig.now := 1700000120000; Rig.details := None;
                 Rig.power_tariff := js_decimal 10 100; Rig.smart_mode := true;
                 Rig.setting_min_profitability := js_of_Z 0;
                 Rig.bitcoinRate := Some (js_of_Z 600) |} in
  (Rig.lastSync (fst (Rig.syncRigDetails (Rig.fresh (fun _ => None)) idle)) = 0%Z
   /\ Rig.lastSync (fst (Rig.syncRigDetails (Rig.fresh (fun _ => None)) idle))
      <> Rig.now idle)
  /\ (Rig.lastSync (fst (Rig.syncRigDetails (Sample.benchmarking f64) lost))
      = 1700000060000%Z
      /\ Rig.lastSync (fst (Rig.syncRigDetails (Sample.benchmarking f64) lost))
         <> Rig.now lost).
Proof. repeat split; vm_compute; congruence. Qed.

(** Over exact arithmetic the switch is the conversion table. *)
Lemma normalize_table_exact (r : Q) :
  Rig.normalize r "H" == r / 1000000
  /\ Rig.normalize r "kH" == r / 1000
  /\ Rig.normalize r "MH" = r
  /\ Rig.normalize r "GH" == r * 1000
  /\ Rig.normalize r "TH" == r * 1000000
  /\ Rig.normalize r "PH" == r * 1000000000
  /\ Rig.normalize r "EH" == r * 1000000000000.
Proof.
  unfold Rig.normalize, js_decimal.
  cbn [String.eqb Ascii.eqb Bool.eqb js_div js_of_Z Q_JsNumber].
  repeat split; try reflexivity; field.
Qed.

(** In binary64 the two readings that the conversion table gives as
    examples come out exactly. *)
Example normalize_binary64_examples :
  Rig.normalize (F64.of_Z 1) "GH" = F64.of_Z 1000
  /\ Rig.normalize (F64.of_Z 1) "TH" = F64.of_Z 1000000
  /\ Rig.normalize (F64.of_Z 1000000) "H" = F64.of_Z 1
  /\ Rig.normalize (F64.of_Z 1) "EH" = F64.of_Z 1000000000000.
Proof. repeat split; vm_compute; reflexivity. Qed.

(** The division of 1 PH, checked on integers.  The literal
    0.000000001 is the double m * 2^-82 with m = 4835703278458517, the
    nearest to 10^-9 (its distance is at most half a unit in the last
    place); and the quotient 1 / (m * 2^-82) = 2^82 / m is nearer to
    8388607999999999 * 2^-23 than to 8388608000000000 * 2^-23 = 10^9. *)
Example petahash_division_on_integers :
  let m := 4835703278458517%Z in
  (js_decimal 1 1000000000 : f64) = S754_finite false 4835703278458517 (-82)
  /\ (2 * Z.abs (m * 10 ^ 9 - 2 ^ 82) <= 10 ^ 9)%Z
  /\ (Z.abs (2 ^ 105 - 8388607999999999 * m)
      < Z.abs (2 ^ 105 - 8388608000000000 * m))%Z
  /\ (8388608000000000 = 10 ^ 9 * 2 ^ 23)%Z.
Proof. cbv zeta. repeat split; vm_compute; congruence. Qed.

(** The same division on the primitive binary64 numbers of the
    machine. *)
Example petahash_division_primitive :
  Prim2SF (0x1.12e0be826d695p-30)%float = (js_decimal 1 1000000000 : f64)
  /\ Prim2SF (1 / 0x1.12e0be826d695p-30)%float = Rig.normalize (F64.of_Z 1) "PH"
  /\ Prim2SF (1 * 1000000000)%float = F64.of_Z 1000000000.
Proof. repeat split; vm_compute; reflexivity. Qed.

(** C4, on the code.  In binary64 the reading 1 PH is normalised by
    dividing by the double nearest to 0.000000001, which yields
    999999999.9999999 (8388607999999999 * 2^-23), not 1 * 1,000,000,000
    (8388608000000000 * 2^-23); likewise 0.1 TH does not come out as
    0.1 * 1,000,000. *)
Theorem normalize_petahash_binary64 :
  Rig.normalize (F64.of_Z 1) "PH" = S754_finite false 8388607999999999 (-23)
  /\ js_mul (F64.of_Z 1) (F64.of_Z 1000000000)
     = S754_finite false 8388608000000000 (-23)
  /\ js_seq (Rig.normalize (F64.of_Z 1) "PH")
       (js_mul (F64.of_Z 1) (F64.of_Z 1000000000)) = false
  /\ js_seq (Rig.normalize (js_decimal 1 10 : f64) "TH")
       (js_mul (js_decimal 1 10 : f64) (F64.of_Z 1000000)) = false.
Proof. repeat split; vm_compute; reflexivity. Qed.

(** ** The dashboard *)

Lemma f64_eqb_zero (x : f64) :
  F64.eqb x (F64.of_Z 0) = true -> exists s, x = S754_zero s.
Proof.
  destruct x as [s|s| |s m e]; intros Hx.
  - now exists s.
  - destruct s; discriminate Hx.
  - discriminate Hx.
  - destruct s; discriminate Hx.
Qed.

(** Dividing anything by a zero cost and rounding the percentage never
    gives a finite number. *)
Lemma percentage_of_zero_cost (revenue : f64) :
  let revenue := js_or revenue (js_of_Z 0) in
  let costPerDayMBTC : f64 := js_of_Z 0 in
  F64.is_finite
    (js_round (js_mul (js_div (js_sub revenue costPerDayMBTC) costPerDayMBTC)
                      (js_of_Z 100))) = false.
Proof. destruct revenue as [s|s| |s m e]; try destruct s; reflexivity. Qed.

(** C10. The dashboard writes to [measure_profit_percent] the value
    round((revenue - cost) / cost * 100) of the summed revenue and cost
    without testing the cost: whenever the summed cost is zero, the value
    written is not finite (NaN or an infinity).  The per-rig computation
    leaves the percentage at 0, and does not store one, unless the cost
    is greater than zero. *)
Theorem fleet_profit_percent_zero_cost :
  forall (absent : f64) (rigDevices : list (Rig.Store f64))
         (c : Dashboard.Capabilities f64),
    let revenue := js_or (Dashboard.total absent rigDevices "measure_profit")
                     (js_of_Z 0) in
    let costPerDayMBTC := js_or (Dashboard.total absent rigDevices "measure_cost")
                            (js_of_Z 0) in
    let written :=
      Dashboard.gatherDetails absent (Some rigDevices) c "measure_profit_percent" in
    written
    = Some (js_round (js_mul (js_div (js_sub revenue costPerDayMBTC) costPerDayMBTC)
                             (js_of_Z 100)))
    /\ (F64.eqb (Dashboard.total absent rigDevices "measure_cost") (F64.of_Z 0) = true ->
        exists v, written = Some v /\ F64.is_finite v = false)
    /\ (forall (t : Rig.Tick f64) a (rig_revenue : f64) s,
           js_lt (js_of_Z 0) (Rig.costPerDayMBTC (Rig.evaluate t a rig_revenue s))
           = false ->
           Rig.profitPct (Rig.evaluate t a rig_revenue s) = js_of_Z 0
           /\ Rig.evaluated_store (Rig.evaluate t a rig_revenue s)
                "measure_profit_percent"
              = s "measure_profit_percent").
Proof.
  intros absent rigDevices c revenue costPerDayMBTC written.
  assert (Hw : written
               = Some (js_round (js_mul (js_div (js_sub revenue costPerDayMBTC)
                                                costPerDayMBTC) (js_of_Z 100)))).
  { subst written. unfold Dashboard.gatherDetails, Dashboard.setCapabilityValue.
    rewrite String.eqb_refl. reflexivity. }
  split; [exact Hw|]. split.
  - intros Hzero. eexists. split; [exact Hw|].
    destruct (f64_eqb_zero _ Hzero) as [s Hs].
    subst costPerDayMBTC. rewrite Hs.
    change (js_or (S754_zero s) (js_of_Z 0)) with (js_of_Z 0 : f64).
    apply percentage_of_zero_cost.
  - intros t a rig_revenue s. unfold Rig.evaluate.
    destruct (js_truthy (Rig.power_tariff t)); [|split; reflexivity].
    destruct (Rig.bitcoinRate t) as [rate|]; [|split; reflexivity].
    cbv zeta.
    set (cost := js_div _ (js_div rate (js_of_Z 1000))).
    destruct (0 <? Rig.agg_mining a)%Z;
      cbn [andb Rig.costPerDayMBTC Rig.profitPct Rig.evaluated_store].
    + destruct (js_lt (js_of_Z 0) cost) eqn:Hc;
        cbn [Rig.costPerDayMBTC Rig.profitPct Rig.evaluated_store];
        intros Hx; [rewrite Hc in Hx; discriminate|].
      split; reflexivity.
    + intros _. split; reflexivity.
Qed.

Lemma fleet_profit_percent_zero_cost_witness :
  let idle := Sample.tick f64 1700000000000 "INACTIVE" 10 in
  let rig := Rig.store (fst (Rig.syncRigDetails (Rig.fresh (fun _ => None)) idle)) in
  let written :=
    Dashboard.gatherDetails S754_nan (Some [rig]) (fun _ => None)
      "measure_profit_percent" in
  F64.eqb (Dashboard.total S754_nan [rig] "measure_cost") (F64.of_Z 0) = true
  /\ written = Some S754_nan
  /\ exists v, written = Some v /\ F64.is_finite v = false.
Proof.
  intros idle rig written.
  assert (Hzero : F64.eqb (Dashboard.total S754_nan [rig] "measure_cost")
                    (F64.of_Z 0) = true) by (vm_compute; reflexivity).
  split; [exact Hzero|]. split; [vm_compute; reflexivity|].
  exact (proj1 (proj2 (fleet_profit_percent_zero_cost S754_nan [rig] (fun _ => None)))
           Hzero).
Defined.

(** * Further properties *)

(** ** Splitting the path *)

Lemma contains_app (c : ascii) (a b : string) :
  contains c (a ++ b) = contains c a || contains c b.
Proof.
  induction a as [|x a IH]; [reflexivity|].
  cbn [append contains]. rewrite IH. apply orb_assoc.
Qed.

Lemma split_nonempty (c : ascii) (s : string) : split c s <> [].
Proof.
  destruct s as [|a s]; cbn [split]; [discriminate|].
  destruct (Ascii.eqb a c); [discriminate|].
  destruct (split c s); discriminate.
Qed.

Lemma split_no_char (c : ascii) (s : string) :
  contains c s = false -> split c s = [s].
Proof.
  induction s as [|a s IH]; [reflexivity|].
  cbn [contains split]. intros Hc. apply orb_false_iff in Hc as [Ha Hs].
  rewrite Ha, (IH Hs). reflexivity.
Qed.

Lemma split_app (c : ascii) (a b : string) :
  contains c a = false -> split c (a ++ String c b) = a :: split c b.
Proof.
  induction a as [|x a IH]; intros Hc.
  - cbn [append split]. now rewrite Ascii.eqb_refl.
  - cbn [contains] in Hc. apply orb_false_iff in Hc as [Hx Ha].
    cbn [append split]. rewrite Hx, (IH Ha). reflexivity.
Qed.

Lemma split_pieces (c : ascii) (s : string) :
  Forall (fun piece => contains c piece = false) (split c s).
Proof.
  induction s as [|a s IH]; [repeat constructor|].
  cbn [split]. destruct (Ascii.eqb a c) eqn:Ha.
  - constructor; [reflexivity|exact IH].
  - destruct (split c s) as [|piece pieces].
    + repeat constructor. cbn [contains]. now rewrite Ha.
    + inversion IH as [|? ? Hp Hps]; subst.
      constructor; [|exact Hps]. cbn [contains]. now rewrite Ha, Hp.
Qed.

Lemma split_join (c : ascii) (s : string) :
  String.concat (String c "") (split c s) = s.
Proof.
  induction s as [|a s IH]; [reflexivity|].
  cbn [split]. destruct (Ascii.eqb a c) eqn:Ha.
  - apply Ascii.eqb_eq in Ha. subst a.
    pose proof (split_nonempty c s) as Hne.
    destruct (split c s) as [|piece pieces]; [contradiction|].
    change (String.concat (String c "") ("" :: piece :: pieces))
      with (String c (String.concat (String c "") (piece :: pieces))).
    now rewrite IH.
  - pose proof (split_nonempty c s) as Hne.
    destruct (split c s) as [|piece pieces]; [contradiction|].
    destruct pieces as [|piece' pieces].
    + cbn [String.concat] in *. now rewrite IH.
    + change (String.concat (String c "") (String a piece :: piece' :: pieces))
        with (String a (String.concat (String c "") (piece :: piece' :: pieces))).
      now rewrite IH.
Qed.

(** The path before the first ['?'] is a prefix of the path, and what
    follows it, if anything, starts with that ['?']. *)
Lemma split_head (c : ascii) (s : string) :
  contains c (nth 0 (split c s) "") = false
  /\ exists rest, s = nth 0 (split c s) "" ++ rest
                  /\ (rest = "" \/ exists r, rest = String c r).
Proof.
  pose proof (split_pieces c s) as Hp. pose proof (split_join c s) as Hj.
  pose proof (split_nonempty c s) as Hne.
  destruct (split c s) as [|piece pieces]; [contradiction|].
  cbn [nth]. inversion Hp as [|? ? Hpiece Hrest]. split; [assumption|].
  destruct pieces as [|piece' pieces].
  - exists "". cbn [String.concat] in Hj. rewrite append_empty_r. auto.
  - exists (String c (String.concat (String c "") (piece' :: pieces))).
    split; [|right; eexists; reflexivity].
    rewrite <- Hj at 1. reflexivity.
Qed.

(** ** The authenticated call as a whole *)

Section ApiCalls.

Variable JsObject : Type.
Variable qs_stringify : JsObject -> string.
Variable qs_parse : string -> JsObject.
Variable JSON_stringify : JsObject -> string.
Variable hmac_sha256 : string -> string -> list Byte.byte.
Variable version : string.
Variable spread : JsObject -> option (Api.Payload JsObject) -> JsObject.

Local Abbreviation getAuthHeader :=
  (Api.getAuthHeader qs_stringify JSON_stringify hmac_sha256).
Local Abbreviation apiCall :=
  (Api.apiCall qs_stringify qs_parse JSON_stringify hmac_sha256 version spread).

(** X1. Once the clock offset is set, a call is never rejected, and
    the request it issues is signed over exactly what it transmits: the
    X-Auth header is the signature of the method, of the path of the
    uri (the part of the given path before its first ['?'], so the uri
    never carries a query string), of the query object sent as [qs] and
    of the body sent, made with the timestamp of the X-Time header and
    the nonce that both X-Nonce and X-Request-Id carry. *)
Theorem apiCall_signs_what_it_sends :
  forall (api : Api.Api) (now : Z) (nonce method_ path_ : string)
         (options : Api.CallOptions JsObject) (diff : Z),
    Api.localTimeDiff api = Some diff ->
    exists (o : Api.RequestOptions JsObject) (pathOnly timestamp : string),
      apiCall api now nonce method_ path_ options = Api.Requested o
      /\ Api.uri o = Api.host api ++ pathOnly
      /\ contains "?"%char pathOnly = false
      /\ (exists rest, path_ = pathOnly ++ rest
                       /\ (rest = "" \/ exists r, rest = String "?"%char r))
      /\ Api.req_method o = method_
      /\ Api.req_body o = Api.opt_body options
      /\ Api.json o = true
      /\ Api.header "X-Time" (Api.Requested o) = Some timestamp
      /\ Api.header "X-Nonce" (Api.Requested o) = Some nonce
      /\ Api.header "X-Request-Id" (Api.Requested o) = Some nonce
      /\ Api.header "X-Organization-Id" (Api.Requested o) = Some (Api.org api)
      /\ Api.header "X-Auth" (Api.Requested o)
         = Some (getAuthHeader (Api.key api) (Api.secret api) timestamp nonce
                   (Some (Api.org api))
                   {| Api.method := Api.req_method o; Api.path := pathOnly;
                      Api.query := Api.qs o; Api.body := Api.req_body o |}).
Proof.
  intros api now nonce method_ path_ options diff Hdiff.
  unfold Api.apiCall. rewrite Hdiff. cbv zeta.
  destruct (split_head "?"%char path_) as [Hfree Hprefix].
  eexists. exists (nth 0 (split "?"%char path_) ""). eexists.
  split; [reflexivity|].
  cbn [Api.uri Api.req_method Api.req_body Api.json Api.qs].
  repeat (split; [first [reflexivity|assumption]|]).
  reflexivity.
Qed.

(** X2. How the query of a call is formed.  A path without ['?'] is
    used whole and the query option is sent as it is.  For a path
    [a?b] the uri ends in [a] and, when [b] is not empty, the query sent
    is the spread of the parsed [b] and the query option (the option
    wins); an empty [b] leaves the query option alone.  Whatever follows
    a second ['?'] is dropped: [a?b?junk] makes the same request as
    [a?b]. *)
Theorem apiCall_query_of_path :
  forall (api : Api.Api) (now : Z) (nonce method_ : string)
         (options : Api.CallOptions JsObject) (diff : Z),
    Api.localTimeDiff api = Some diff ->
    (forall path_ o,
        contains "?"%char path_ = false ->
        apiCall api now nonce method_ path_ options = Api.Requested o ->
        Api.uri o = Api.host api ++ path_ /\ Api.qs o = Api.opt_query options)
    /\ (forall a b o,
           contains "?"%char a = false -> contains "?"%char b = false ->
           apiCall api now nonce method_ (a ++ String "?"%char b) options
           = Api.Requested o ->
           Api.uri o = Api.host api ++ a
           /\ Api.qs o
              = if str_truthy b
                then Some (Api.PObject
                             (spread (qs_parse b) (Api.opt_query options)))
                else Api.opt_query options)
    /\ (forall a b junk,
           contains "?"%char a = false -> contains "?"%char b = false ->
           apiCall api now nonce method_
             (a ++ String "?"%char (b ++ String "?"%char junk)) options
           = apiCall api now nonce method_ (a ++ String "?"%char b) options).
Proof.
  intros api now nonce method_ options diff Hdiff.
  split; [|split].
  - intros path_ o Hfree. unfold Api.apiCall. rewrite Hdiff. cbv zeta.
    rewrite (@split_no_char _ _ Hfree). cbn [nth nth_error].
    intros Ho. injection Ho as <-. split; reflexivity.
  - intros a b o Ha Hb. unfold Api.apiCall. rewrite Hdiff. cbv zeta.
    rewrite (@split_app _ _ b Ha), (@split_no_char _ _ Hb). cbn [nth nth_error].
    intros Ho. injection Ho as <-. split; reflexivity.
  - intros a b junk Ha Hb. unfold Api.apiCall. rewrite Hdiff. cbv zeta.
    rewrite (@split_app _ _ (b ++ String "?"%char junk) Ha), (@split_app _ _ junk Hb).
    rewrite (@split_app _ _ b Ha), (@split_no_char _ _ Hb).
    reflexivity.
Qed.

(** X3. The client fails closed and keeps server time.  Every call on
    a new client is rejected with the message asking for [getTime].
    After [getTime] has stored the offset [serverTime - localTime], a
    call without a time override is stamped with the server time of the
    sync plus the local time elapsed since: the local clock's own error
    cancels out.  Besides the offset, [getTime] records the server time
    in [time], which a new client does not have, and leaves host, key,
    secret, organisation and locale as they were. *)
Theorem getTime_then_apiCall :
  (forall (locale : option string) (apiHost apiKey apiSecret orgId : string)
          (now : Z) (nonce method_ path_ : string)
          (options : Api.CallOptions JsObject),
      apiCall (Api.new_Api locale apiHost apiKey apiSecret orgId)
        now nonce method_ path_ options
      = Api.Rejected "Get server time first .getTime()")
  /\ (forall (api : Api.Api) (serverTime synced now : Z)
             (nonce method_ path_ : string) (options : Api.CallOptions JsObject),
         Api.opt_time options = None ->
         Api.header "X-Time"
           (apiCall (Api.getTime api serverTime synced) now nonce method_ path_ options)
         = Some (toString (serverTime + (now - synced))))
  /\ (forall (api : Api.Api) (serverTime synced : Z),
         let api' := Api.getTime api serverTime synced in
         Api.localTimeDiff api' = Some (serverTime - synced)%Z
         /\ Api.time api' = Some serverTime
         /\ Api.host api' = Api.host api /\ Api.key api' = Api.key api
         /\ Api.secret api' = Api.secret api /\ Api.org api' = Api.org api
         /\ Api.locale api' = Api.locale api)
  /\ (forall (locale : option string) (apiHost apiKey apiSecret orgId : string),
         Api.time (Api.new_Api locale apiHost apiKey apiSecret orgId) = None).
Proof.
  split; [|split; [|split; [|reflexivity]]].
  - reflexivity.
  - intros api serverTime synced now nonce method_ path_ options Htime.
    unfold Api.apiCall, Api.getTime, Api.timestamp_of.
    cbn [Api.localTimeDiff]. cbv zeta. rewrite Htime.
    cbn [Api.header Api.headers find fst snd String.eqb Ascii.eqb Bool.eqb option_map].
    do 2 f_equal. lia.
  - intros api serverTime synced api'. repeat split.
Qed.

End ApiCalls.

Lemma apiCall_signs_what_it_sends_witness :
  Api.localTimeDiff Plain.client = Some 500%Z
  /\ exists o pathOnly,
      Plain.apiCall Plain.client 1700000060000 "nonce" "GET"
        "/main/api/v2/mining/rig2/abc?x=1" Plain.no_options
      = Api.Requested o
      /\ Api.uri o = Api.host Plain.client ++ pathOnly
      /\ contains "?"%char pathOnly = false.
Proof.
  assert (Hdiff : Api.localTimeDiff Plain.client = Some 500%Z) by reflexivity.
  split; [exact Hdiff|].
  destruct (@apiCall_signs_what_it_sends Plain.JsObject Plain.qs_stringify
              Plain.qs_parse Plain.JSON_stringify Plain.hmac_sha256
              Plain.version Plain.spread
              Plain.client 1700000060000%Z "nonce" "GET"
              "/main/api/v2/mining/rig2/abc?x=1" Plain.no_options 500%Z
              Hdiff) as (o & pathOnly & timestamp & Hcall & Huri & Hfree & _).
  exists o, pathOnly. repeat split; assumption.
Defined.

Lemma apiCall_query_of_path_witness :
  Api.localTimeDiff Plain.client = Some 500%Z
  /\ contains "?"%char "/rigs" = false /\ contains "?"%char "size=5" = false
  /\ Plain.apiCall Plain.client 1700000060000 "nonce" "GET"
       "/rigs?size=5?page=2" Plain.no_options
     = Plain.apiCall Plain.client 1700000060000 "nonce" "GET"
         "/rigs?size=5" Plain.no_options.
Proof.
  assert (Hdiff : Api.localTimeDiff Plain.client = Some 500%Z) by reflexivity.
  assert (Ha : contains "?"%char "/rigs" = false) by reflexivity.
  assert (Hb : contains "?"%char "size=5" = false) by reflexivity.
  repeat (split; [assumption|]).
  exact (proj2 (proj2 (@apiCall_query_of_path Plain.JsObject Plain.qs_stringify
                         Plain.qs_parse Plain.JSON_stringify Plain.hmac_sha256
                         Plain.version Plain.spread
                         Plain.client 1700000060000%Z "nonce" "GET"
                         Plain.no_options 500%Z Hdiff))
           "/rigs" "size=5" "page=2" Ha Hb).
Defined.

Lemma getTime_then_apiCall_witness :
  Api.opt_time Plain.no_options = None
  /\ Api.header "X-Time"
       (Plain.apiCall
          (Api.getTime
             (Api.new_Api (Some "en") "https://api2.nicehash.com" "key" "secret" "org")
             1700000000500 1600000000000)
          1600000060000 "nonce" "GET" "/main/api/v2/mining/rigs2" Plain.no_options)
     = Some "1700000060500".
Proof.
  assert (Htime : Api.opt_time Plain.no_options = None) by reflexivity.
  split; [exact Htime|].
  exact (proj1 (proj2 (@getTime_then_apiCall Plain.JsObject Plain.qs_stringify
                         Plain.qs_parse Plain.JSON_stringify Plain.hmac_sha256
                         Plain.version Plain.spread))
           (Api.new_Api (Some "en") "https://api2.nicehash.com" "key" "secret" "org")
           1700000000500%Z 1600000000000%Z
           1600000060000%Z "nonce" "GET" "/main/api/v2/mining/rigs2"
           Plain.no_options Htime).
Defined.

(** ** The signed message determines the request *)

Section SignedMessage.

Variable JsObject : Type.
Variable qs_stringify : JsObject -> string.
Variable JSON_stringify : JsObject -> string.
Variable hmac_sha256 : string -> string -> list Byte.byte.

Local Abbreviation getAuthHeader :=
  (Api.getAuthHeader qs_stringify JSON_stringify hmac_sha256).
Local Abbreviation canonical_message :=
  (Api.canonical_message qs_stringify JSON_stringify).
Local Abbreviation fields := (signed_fields qs_stringify).

Lemma nul_free_contains (s : string) :
  nul_free s = true -> contains "000"%char s = false.
Proof. unfold nul_free. now destruct (contains "000"%char s). Qed.

(** Splitting the signed message at the null bytes gives the seven
    fields and the two empty ones back, then the pieces of the body. *)
Lemma split_canonical_message (apiKey time nonce : string)
    (organizationId : option string) (request : Api.Request JsObject) :
  forallb nul_free (fields apiKey time nonce organizationId request) = true ->
  split "000"%char (canonical_message apiKey time nonce organizationId request)
  = ([ apiKey; time; nonce; "";
       match organizationId with Some o => o | None => "" end; "";
       Api.method request; Api.path request;
       Api.payload_text qs_stringify (Api.query request) ]
     ++ (if Api.payload_truthy (Api.body request)
         then split "000"%char (Api.payload_text JSON_stringify (Api.body request))
         else []))%list.
Proof.
  unfold signed_fields, Api.canonical_message. cbn [forallb String.concat].
  rewrite !andb_true_iff.
  intros (Hk & Ht & Hn & Ho & Hm & Hp & Hq & _).
  apply nul_free_contains in Hk, Ht, Hn, Ho, Hm, Hp, Hq.
  assert (Hempty : forall rest,
             split "000"%char (String "000"%char rest)
             = "" :: split "000"%char rest)
    by (intros rest; exact (@split_app "000"%char "" rest eq_refl)).
  unfold NUL. rewrite !append_assoc. cbn [append].
  rewrite (@split_app _ _ _ Hk), (@split_app _ _ _ Ht), (@split_app _ _ _ Hn).
  rewrite Hempty, (@split_app _ _ _ Ho).
  rewrite Hempty, (@split_app _ _ _ Hm), (@split_app _ _ _ Hp).
  cbn [app]. do 8 f_equal.
  destruct (Api.payload_truthy (Api.body request)).
  - cbn [append]. apply (@split_app _ _ _ Hq).
  - rewrite append_empty_r. apply (@split_no_char _ _ Hq).
Qed.

(** X4. The message that is signed identifies the request.  The
    authentication header is the key, a colon and the tag of the
    canonical message, and for requests whose key, time, nonce,
    organisation, method, path and query text hold no null byte, two
    canonical messages are equal only if all these fields agree, both
    requests have a body or neither has, and the body texts agree: no
    two different requests are signed through the same message. *)
Theorem signed_message_identifies_request :
  forall (apiSecret apiKey time nonce apiKey' time' nonce' : string)
         (organizationId organizationId' : option string)
         (request request' : Api.Request JsObject),
    forallb nul_free (fields apiKey time nonce organizationId request) = true ->
    forallb nul_free (fields apiKey' time' nonce' organizationId' request') = true ->
    getAuthHeader apiKey apiSecret time nonce organizationId request
    = apiKey ++ ":" ++
      Api.Hex_stringify
        (hmac_sha256 apiSecret
           (canonical_message apiKey time nonce organizationId request))
    /\ (canonical_message apiKey time nonce organizationId request
        = canonical_message apiKey' time' nonce' organizationId' request' ->
        fields apiKey time nonce organizationId request
        = fields apiKey' time' nonce' organizationId' request'
        /\ Api.payload_truthy (Api.body request)
           = Api.payload_truthy (Api.body request')
        /\ (Api.payload_truthy (Api.body request) = true ->
            Api.payload_text JSON_stringify (Api.body request)
            = Api.payload_text JSON_stringify (Api.body request'))).
Proof.
  intros apiSecret apiKey time nonce apiKey' time' nonce'
    organizationId organizationId' request request' Hf Hf'.
  split.
  - destruct request as [m p q b].
    unfold Api.getAuthHeader, Api.canonical_message, Api.finalize,
      Api.update, Api.HMAC_create, Api.payload_text.
    cbn [Api.method Api.path Api.query Api.body Api.hmac_key Api.hmac_message
         String.concat].
    destruct organizationId as [[|c o]|], q as [[[|c1 s1]|o1]|],
      b as [[[|c2 s2]|o2]|];
      cbn [str_truthy Api.payload_truthy Api.hmac_key Api.hmac_message];
      rewrite ?append_assoc, ?append_empty_r; reflexivity.
  - intros Hmsg. apply (f_equal (split "000"%char)) in Hmsg.
    rewrite (split_canonical_message _ _ _ _ _ Hf) in Hmsg.
    rewrite (split_canonical_message _ _ _ _ _ Hf') in Hmsg.
    cbn [app] in Hmsg.
    injection Hmsg as Hk Ht Hn Ho Hm Hp Hq Hb.
    split; [unfold signed_fields; congruence|].
    destruct (Api.payload_truthy (Api.body request)),
      (Api.payload_truthy (Api.body request')).
    + split; [reflexivity|]. intros _.
      rewrite <- (split_join "000"%char (Api.payload_text JSON_stringify (Api.body request))).
      rewrite Hb. apply split_join.
    + exfalso. exact (split_nonempty _ _ Hb).
    + exfalso. symmetry in Hb. exact (split_nonempty _ _ Hb).
    + split; [reflexivity|discriminate].
Qed.

End SignedMessage.

Lemma signed_message_identifies_request_witness :
  let request : Api.Request Plain.JsObject :=
    {| Api.method := "POST"; Api.path := "/main/api/v2/mining/rigs/status2";
       Api.query := None;
       Api.body := Some (Api.PObject [("rigId", "abc"); ("action", "STOP")]) |} in
  forallb nul_free
    (signed_fields Plain.qs_stringify "key" "1700000060500" "nonce" (Some "org")
       request) = true
  /\ Plain.getAuthHeader "key" "secret" "1700000060500" "nonce" (Some "org") request
     = "key" ++ ":" ++
       Api.Hex_stringify
         (Plain.hmac_sha256 "secret"
            (Api.canonical_message Plain.qs_stringify Plain.JSON_stringify
               "key" "1700000060500" "nonce" (Some "org") request)).
Proof.
  intros request.
  assert (Hf : forallb nul_free
                 (signed_fields Plain.qs_stringify "key" "1700000060500" "nonce"
                    (Some "org") request) = true) by reflexivity.
  split; [exact Hf|].
  exact (proj1 (@signed_message_identifies_request Plain.JsObject
                  Plain.qs_stringify Plain.JSON_stringify Plain.hmac_sha256
                  "secret" "key" "1700000060500" "nonce"
                  "key" "1700000060500" "nonce" (Some "org") (Some "org")
                  request request Hf Hf)).
Defined.

(** ** The nonce *)

Lemma concat_empty_cons (chunk : string) (chunks : list string) :
  String.concat "" (chunk :: chunks) = chunk ++ String.concat "" chunks.
Proof.
  destruct chunks as [|next chunks]; cbn [String.concat append].
  - now rewrite append_empty_r.
  - reflexivity.
Qed.

Lemma length_append (a b : string) :
  String.length (a ++ b) = (String.length a + String.length b)%nat.
Proof. induction a as [|x a IH]; cbn [append String.length]; [reflexivity|now rewrite IH]. Qed.

Lemma substr_length (n : nat) (s : string) :
  String.length (Nonce.substr n s) = Nat.min n (String.length s).
Proof.
  revert s. induction n as [|n IH]; intros [|a s]; cbn [Nonce.substr String.length];
    try reflexivity.
  now rewrite IH.
Qed.

Lemma substr_prefix (n : nat) (s : string) :
  exists rest, s = Nonce.substr n s ++ rest.
Proof.
  revert s. induction n as [|n IH]; intros s.
  - exists s. now destruct s.
  - destruct s as [|a s]; [now exists ""|].
    destruct (IH s) as [rest Hrest]. exists rest.
    cbn [Nonce.substr append]. now rewrite <- Hrest.
Qed.

(** The loop ends with at least 32 characters, made of the chunks in
    order, or uses the chunks up with fewer. *)
Lemma accumulate_spec (chunks : list string) :
  forall s : string,
    chunks <> [] ->
    match Nonce.accumulate s chunks with
    | Some r =>
        (32 <= String.length r)%nat
        /\ exists rest, s ++ String.concat "" chunks = r ++ rest
    | None => (String.length (s ++ String.concat "" chunks) < 32)%nat
    end.
Proof.
  induction chunks as [|chunk chunks IH]; intros s Hne; [congruence|].
  cbn [Nonce.accumulate]. rewrite concat_empty_cons.
  destruct (Nat.ltb_spec (String.length (s ++ chunk)) 32) as [Hlt|Hge].
  - destruct chunks as [|next chunks].
    + cbn [Nonce.accumulate String.concat]. now rewrite append_empty_r.
    + specialize (IH (s ++ chunk) ltac:(discriminate)).
      rewrite append_assoc in IH. exact IH.
  - split; [exact Hge|]. exists (String.concat "" chunks).
    now rewrite append_assoc.
Qed.

(** X5. [createNonce] returns exactly when the random chunks it draws
    add up to 32 characters or more, and what it returns is the first 32
    characters of the chunks put end to end: the nonce is always 32
    characters long.  With fewer characters the loop does not end. *)
Theorem createNonce_first_32_characters :
  forall chunks : list string,
    match Nonce.createNonce chunks with
    | Some nonce =>
        String.length nonce = 32%nat
        /\ (exists rest, String.concat "" chunks = nonce ++ rest)
        /\ (32 <= String.length (String.concat "" chunks))%nat
    | None => (String.length (String.concat "" chunks) < 32)%nat
    end.
Proof.
  intros chunks. unfold Nonce.createNonce.
  destruct chunks as [|chunk chunks]; [cbn; lia|].
  pose proof (@accumulate_spec (chunk :: chunks) "" ltac:(discriminate)) as Hacc.
  destruct (Nonce.accumulate "" (chunk :: chunks)) as [r|]; cbn [option_map].
  - destruct Hacc as [Hlen [rest Hrest]]. cbn [append] in Hrest.
    split; [rewrite substr_length; lia|]. split.
    + destruct (substr_prefix 32 r) as [tail Htail].
      exists (tail ++ rest). rewrite Hrest, <- append_assoc. now rewrite <- Htail.
    + rewrite Hrest, length_append. lia.
  - exact Hacc.
Qed.

(** ** The tick as a whole *)

Section RigTicks.

Variable num : Type.
Context `{JsNumber num}.

Implicit Types (st : Rig.State num) (t : Rig.Tick num) (d : Rig.Details num)
  (s : Rig.Store num) (a : Rig.Aggregate num).

Ltac branches :=
  repeat match goal with
    | |- context [match ?x with _ => _ end] => destruct x eqn:?
    end.

(** The four ways through a tick. *)
Lemma tick_paths st t :
  (Rig.syncRigDetails st t = (st, [])
   /\ (Rig.details t = None
       \/ exists d, Rig.details t = Some d /\ Rig.unmanaged d = true))
  \/ (exists d,
        Rig.details t = Some d /\ Rig.unmanaged d = false
        /\ Rig.has_devices d = false
        /\ Rig.syncRigDetails st t
           = ({| Rig.lastSync := Rig.now t; Rig.lastMined := Rig.lastMined st;
                 Rig.benchmarkStart := Rig.benchmarkStart st;
                 Rig.rollingProfit := Rig.rollingProfit st;
                 Rig.store := Rig.store st |}, []))
  \/ (exists d,
        Rig.details t = Some d /\ Rig.unmanaged d = false
        /\ Rig.has_devices d = true
        /\ Rig.agg_mining (Rig.aggregate d) = 0%Z
        /\ Rig.syncRigDetails st t
           = Rig.idle_tick st t (Rig.tariff_limit_of (Rig.store st))
               (Rig.tick_store st d))
  \/ (exists d,
        Rig.details t = Some d /\ Rig.unmanaged d = false
        /\ Rig.has_devices d = true
        /\ Rig.agg_mining (Rig.aggregate d) <> 0%Z
        /\ Rig.syncRigDetails st t
           = Rig.mining_tick st t d (Rig.aggregate d)
               (Rig.tariff_limit_of (Rig.store st))
               (js_or (Rig.setting_min_profitability t) (js_of_Z 0))
               (Rig.tick_store st d)).
Proof.
  destruct (Rig.details t) as [d|] eqn:Hd;
    [|left; unfold Rig.syncRigDetails; rewrite Hd; auto].
  destruct (Rig.unmanaged d) eqn:Hu;
    [left; unfold Rig.syncRigDetails; rewrite Hd, Hu; eauto|].
  destruct (Rig.has_devices d) eqn:Hh;
    [|right; left; exists d; unfold Rig.syncRigDetails; rewrite Hd, Hu, Hh; auto].
  destruct (Z.eq_dec (Rig.agg_mining (Rig.aggregate d)) 0) as [Hm|Hm].
  - right; right; left. exists d.
    rewrite (@syncRigDetails_idle num _ st t d Hd Hu Hh Hm). auto.
  - right; right; right. exists d.
    rewrite (@syncRigDetails_mining num _ st t d Hd Hu Hh Hm). auto.
Qed.

Ltac nothing_sent :=
  cbn; split; [auto|]; split; [congruence|]; split; intros [].

(** X6. What the Autopilot sends.  A tick sends at most one command.
    It sends none while smart mode is off.  It sends a start only when
    it finds the rig managed and idle, and a stop only when it finds a
    device mining with a hashrate, after a tick that left [lastSync]
    set, and has taken the stop decision, in which case the tariff of
    the tick is stored as the limit. *)
Theorem autopilot_commands :
  forall st t,
    let sent := commands (snd (Rig.syncRigDetails st t)) in
    (sent = [] \/ sent = [true] \/ sent = [false])
    /\ (sent <> [] -> Rig.smart_mode t = true)
    /\ (In true sent ->
        exists d, Rig.details t = Some d /\ Rig.unmanaged d = false
                  /\ Rig.agg_mining (Rig.aggregate d) = 0%Z
                  /\ Rig.start_condition st t (Rig.tariff_limit_of (Rig.store st))
                     = true)
    /\ (In false sent ->
        (0 < Rig.lastSync st)%Z
        /\ Rig.stop_decision st t
        /\ Rig.store (fst (Rig.syncRigDetails st t)) "tariff_limit"
           = Some (Rig.power_tariff t)
        /\ exists d, Rig.mining_with_hashrate t d).
Proof.
  intros st t sent. subst sent. unfold Rig.stop_decision.
  destruct (tick_paths st t)
    as [[Heq _]|[(d & Hd & Hu & Hh & Heq)|[(d & Hd & Hu & Hh & Hm & Heq)
                                          |(d & Hd & Hu & Hh & Hm & Heq)]]];
    rewrite Heq; clear Heq.
  - nothing_sent.
  - nothing_sent.
  - unfold Rig.idle_tick. cbn [fst snd].
    destruct (Rig.start_condition st t (Rig.tariff_limit_of (Rig.store st)))
      eqn:Hstart; cbn [commands flat_map app In].
    + split; [auto|]. split.
      { intros _. unfold Rig.start_condition in Hstart.
        now apply andb_true_iff in Hstart. }
      split; [intros _; exists d; auto|].
      intros [Hx|[]]. discriminate.
    + nothing_sent.
  - unfold Rig.mining_tick.
    destruct (Rig.lastSync st >? 0)%Z eqn:Hs;
      [|nothing_sent].
    destruct (js_truthy (Rig.agg_hashrate (Rig.aggregate d))) eqn:Hr;
      [|nothing_sent].
    apply Z.gtb_lt in Hs.
    cbn [fst snd Rig.store]. unfold Rig.assess.
    destruct (_ && _)%bool;
      [|nothing_sent].
    destruct (Rig.stop_condition _ _ _);
      cbn [Rig.assessed_effects Rig.assessed_store].
    + destruct (Rig.smart_mode t) eqn:Hsm; cbn [commands flat_map app In].
      * split; [auto|]. split; [reflexivity|].
        split; [intros [Hx|[]]; discriminate|].
        intros _. split; [exact Hs|]. split; [left; reflexivity|].
        split; [apply setStoreValue_same|].
        exists d. unfold Rig.mining_with_hashrate. auto.
      * nothing_sent.
    + destruct (js_lt _ _); nothing_sent.
Qed.

(** X7. No verdict during the benchmark.  On a tick that opens the
    benchmark ([benchmarkStart] still 0) or comes 7 minutes or less
    after it was opened, the stop decision is not taken, no stop is
    sent, the tariff limit is not raised and the stored limit stays as
    it was. *)
Theorem no_verdict_during_benchmark :
  forall st t,
    Rig.benchmarkStart st = 0%Z
    \/ (Rig.now t - Rig.benchmarkStart st <= 7 * 60000)%Z ->
    ~ Rig.stop_decision st t
    /\ ~ In (Rig.setRigStatus false) (snd (Rig.syncRigDetails st t))
    /\ ~ In (Rig.log Rig.RaisingTariffLimit) (snd (Rig.syncRigDetails st t))
    /\ Rig.store (fst (Rig.syncRigDetails st t)) "tariff_limit"
       = Rig.store st "tariff_limit".
Proof.
  intros st t Hbench. unfold Rig.stop_decision.
  assert (Hquiet : forall s,
             s "tariff_limit" = Rig.store st "tariff_limit" ->
             ~ In (Rig.log Rig.RigIsNotProfitable) []
             /\ ~ In (Rig.setRigStatus false) []
             /\ ~ In (Rig.log Rig.RaisingTariffLimit) []
             /\ s "tariff_limit" = Rig.store st "tariff_limit").
  { intros s Hs. cbn [In]. tauto. }
  destruct (tick_paths st t)
    as [[Heq _]|[(d & Hd & Hu & Hh & Heq)|[(d & Hd & Hu & Hh & Hm & Heq)
                                          |(d & Hd & Hu & Hh & Hm & Heq)]]].
  - rewrite Heq. cbn [fst snd]. now apply (Hquiet (Rig.store st)).
  - rewrite Heq. cbn [fst snd Rig.store]. now apply (Hquiet (Rig.store st)).
  - rewrite Heq.
    destruct (@idle_tick_tariff_limit num _ st t
                (Rig.tariff_limit_of (Rig.store st)) (Rig.tick_store st d))
      as [Hkeep Hno].
    split; [exact Hno|]. rewrite Hkeep.
    unfold Rig.idle_tick. cbn [snd].
    destruct (Rig.start_condition _ _ _); cbn [In];
      repeat split; try reflexivity; intros Hx;
      repeat destruct Hx as [Hx|Hx]; try discriminate; contradiction.
  - destruct (js_truthy (Rig.agg_hashrate (Rig.aggregate d))) eqn:Hr;
      [destruct (Z_lt_le_dec 0 (Rig.lastSync st)) as [Hs|Hs]|].
    + destruct (@syncRigDetails_assessed num _ st t d Hd Hu Hh Hm Hr Hs)
        as [s [Hkeep Hassessed]].
      cbv zeta in Hassessed. rewrite Hassessed. cbn [fst snd Rig.store].
      unfold Rig.assess.
      replace ((_ >? 0)%Z && (_ >? _)%Z)%bool with false.
      * cbn [Rig.assessed_effects Rig.assessed_store]. now apply (Hquiet s).
      * symmetry. apply andb_false_iff. right.
        unfold Rig.smartMagicNumber.
        destruct (Rig.benchmarkStart st =? 0)%Z eqn:Hb.
        -- rewrite Z.gtb_ltb. apply Z.ltb_ge. lia.
        -- rewrite Z.gtb_ltb. apply Z.ltb_ge.
           destruct Hbench as [Hz|Hle]; [apply Z.eqb_neq in Hb; lia|lia].
    + destruct (@syncRigDetails_not_assessed num _ st t d Hd Hu Hh Hm (or_intror Hs))
        as (_ & _ & _ & Hkeep & Hnil).
      rewrite Hnil. cbn [In]. tauto.
    + destruct (@syncRigDetails_not_assessed num _ st t d Hd Hu Hh Hm (or_introl Hr))
        as (_ & _ & _ & Hkeep & Hnil).
      rewrite Hnil. cbn [In]. tauto.
Qed.

(** The fields a tick leaves, by the path it takes. *)
Lemma tick_fields st t :
  let st' := fst (Rig.syncRigDetails st t) in
  st' = st
  \/ (Rig.lastSync st' = Rig.now t /\ Rig.lastMined st' = Rig.lastMined st
      /\ Rig.benchmarkStart st' = Rig.benchmarkStart st
      /\ Rig.rollingProfit st' = Rig.rollingProfit st)
  \/ (Rig.lastSync st' = 0%Z /\ Rig.lastMined st' = Rig.lastMined st
      /\ Rig.benchmarkStart st' = 0%Z
      /\ Rig.rollingProfit st' = js_of_Z 0)
  \/ (Rig.lastSync st' = Rig.now t /\ Rig.lastMined st' = Rig.now t
      /\ ((Rig.benchmarkStart st' = Rig.benchmarkStart st
           /\ (Rig.rollingProfit st' = Rig.rollingProfit st
               \/ Rig.benchmarkStart st <> 0%Z))
          \/ (Rig.benchmarkStart st = 0%Z
              /\ Rig.benchmarkStart st' = Rig.now t))).
Proof.
  intros st'. subst st'.
  destruct (tick_paths st t)
    as [[Heq _]|[(d & Hd & Hu & Hh & Heq)|[(d & Hd & Hu & Hh & Hm & Heq)
                                          |(d & Hd & Hu & Hh & Hm & Heq)]]];
    rewrite Heq; clear Heq.
  - left. reflexivity.
  - right; left. cbn. repeat split; reflexivity.
  - right; right; left. cbn. repeat split; reflexivity.
  - right; right; right. unfold Rig.mining_tick.
    assert (Hkept : forall s,
               let st' := {| Rig.lastSync := Rig.now t; Rig.lastMined := Rig.now t;
                             Rig.benchmarkStart := Rig.benchmarkStart st;
                             Rig.rollingProfit := Rig.rollingProfit st;
                             Rig.store := s |} in
               Rig.lastSync st' = Rig.now t /\ Rig.lastMined st' = Rig.now t
               /\ ((Rig.benchmarkStart st' = Rig.benchmarkStart st
                    /\ (Rig.rollingProfit st' = Rig.rollingProfit st
                        \/ Rig.benchmarkStart st <> 0%Z))
                   \/ (Rig.benchmarkStart st = 0%Z
                       /\ Rig.benchmarkStart st' = Rig.now t)))
      by (intros s; cbn; auto 6).
    destruct (Rig.lastSync st >? 0)%Z; [|apply Hkept].
    destruct (js_truthy (Rig.agg_hashrate (Rig.aggregate d))); [|apply Hkept].
    cbn [fst Rig.lastSync Rig.lastMined Rig.benchmarkStart Rig.rollingProfit].
    rewrite assess_benchmarkStart.
    split; [reflexivity|]. split; [reflexivity|].
    destruct (Rig.benchmarkStart st =? 0)%Z eqn:Hb.
    + right. apply Z.eqb_eq in Hb. auto.
    + left. apply Z.eqb_neq in Hb. auto.
Qed.

(** X8. Timestamps of a running device.  Whatever the ticks, as long
    as the clock is positive and never runs backwards: [lastSync] and
    [lastMined] are never ahead of the clock, [lastSync] is 0 or not
    before [lastMined], the rolling average is 0 whenever no benchmark
    is open, and while a benchmark is open [benchmarkStart] is positive
    and not after [lastSync], which is set.  Every comparison is between
    a value the source reads from the clock earlier and one it reads
    later ([lastMined], then [benchmarkStart], then [lastSync]), so none
    depends on the readings of one tick being equal; [benchmarkStart]
    and [lastMined] are not compared. *)
Theorem running_timestamps :
  forall (c : Z) st,
    running c st ->
    (0 <= c)%Z
    /\ (0 <= Rig.lastSync st <= c)%Z
    /\ (0 <= Rig.lastMined st <= c)%Z
    /\ (Rig.lastSync st = 0 \/ Rig.lastMined st <= Rig.lastSync st)%Z
    /\ (Rig.benchmarkStart st = 0%Z -> Rig.rollingProfit st = js_of_Z 0)
    /\ (Rig.benchmarkStart st <> 0%Z ->
        (0 < Rig.benchmarkStart st <= Rig.lastSync st)%Z
        /\ (Rig.lastMined st <= Rig.lastSync st)%Z).
Proof.
  intros c st Hrun.
  induction Hrun as [s|c st t Hrun (Hc & Hsync & Hmined & Horder & Hzero & Hopen)
                        Hle Hpos].
  - cbn. intuition (auto; try lia).
  - pose proof (tick_fields st t) as Hfields. cbv zeta in Hfields.
    destruct Hfields
      as [Heq|[(Hs & Hm & Hb & Hr)|[(Hs & Hm & Hb & Hr)|(Hs & Hm & Hcase)]]].
    + rewrite Heq. intuition (auto; try lia).
    + rewrite Hs, Hm, Hb, Hr. intuition (auto; try lia).
    + rewrite Hs, Hm, Hb, Hr. intuition (auto; try lia).
    + rewrite Hs, Hm.
      destruct Hcase as [[Hb [Hr|Hne]]|[Hz Hb]]; rewrite Hb;
        try rewrite Hr; intuition (auto; try lia).
Qed.

(** What does not touch the meters. *)
Lemma evaluate_meters t a (revenue : num) s k :
  In k meter_keys ->
  Rig.evaluated_store (Rig.evaluate t a revenue s) k = s k.
Proof.
  intros Hk. unfold Rig.evaluate.
  cbn [meter_keys In] in Hk.
  (repeat destruct Hk as [<-|Hk]); try contradiction; branches; reflexivity.
Qed.

Lemma tick_store_meters st d k :
  In k meter_keys -> Rig.tick_store st d k = Rig.store st k.
Proof.
  intros Hk. cbn [meter_keys In] in Hk.
  repeat destruct Hk as [<-|Hk]; try contradiction; reflexivity.
Qed.

(** A tick leaves a meter alone or is a mining tick after a tick
    that set [lastSync]. *)
Lemma meter_step st t k :
  In k meter_keys ->
  Rig.store (fst (Rig.syncRigDetails st t)) k = Rig.store st k
  \/ ((0 < Rig.lastSync st)%Z
      /\ exists d, Rig.details t = Some d /\ Rig.unmanaged d = false
                   /\ Rig.agg_mining (Rig.aggregate d) <> 0%Z).
Proof.
  intros Hk.
  destruct (tick_paths st t)
    as [[Heq _]|[(d & Hd & Hu & Hh & Heq)|[(d & Hd & Hu & Hh & Hm & Heq)
                                          |(d & Hd & Hu & Hh & Hm & Heq)]]];
    rewrite Heq; clear Heq.
  - left. reflexivity.
  - left. reflexivity.
  - left. unfold Rig.idle_tick. cbn [fst Rig.store].
    rewrite <- (tick_store_meters st d Hk).
    cbn [meter_keys In] in Hk.
    repeat destruct Hk as [<-|Hk]; try contradiction; reflexivity.
  - unfold Rig.mining_tick.
    destruct (Rig.lastSync st >? 0)%Z eqn:Hs.
    + right. apply Z.gtb_lt in Hs. split; [exact Hs|]. exists d. auto.
    + left. cbn [fst Rig.store].
      rewrite (evaluate_meters _ _ _ _ Hk).
      rewrite <- (tick_store_meters st d Hk).
      cbn [meter_keys In] in Hk.
      repeat destruct Hk as [<-|Hk]; try contradiction; reflexivity.
Qed.

(** X9. Only time spent mining is metered.  A tick changes a
    cumulative meter (energy, profit, cost and their currency values)
    only if it finds a device mining and the tick before left
    [lastSync] set.  An idle tick resets [lastSync], so neither it nor
    the tick that follows it changes any meter. *)
Theorem meters_only_advance_while_mining :
  forall st t k,
    In k meter_keys ->
    (Rig.store (fst (Rig.syncRigDetails st t)) k <> Rig.store st k ->
     (0 < Rig.lastSync st)%Z
     /\ exists d, Rig.details t = Some d /\ Rig.unmanaged d = false
                  /\ Rig.agg_mining (Rig.aggregate d) <> 0%Z)
    /\ (forall d next,
           Rig.details t = Some d -> Rig.unmanaged d = false ->
           Rig.has_devices d = true ->
           Rig.agg_mining (Rig.aggregate d) = 0%Z ->
           Rig.store (Rig.run st [t; next]) k = Rig.store st k).
Proof.
  intros st t k Hk. split.
  - intros Hx. destruct (meter_step st t Hk) as [Heq|Hmining];
      [contradiction|exact Hmining].
  - intros d next Hd Hu Hh Hm. cbn [Rig.run].
    assert (Hzero : Rig.lastSync (fst (Rig.syncRigDetails st t)) = 0%Z)
      by (rewrite (@syncRigDetails_idle num _ st t d Hd Hu Hh Hm); reflexivity).
    destruct (meter_step st t Hk) as [Hkeep|[_ (d' & Hd' & _ & Hm')]];
      [|congruence].
    rewrite <- Hkeep.
    destruct (meter_step (fst (Rig.syncRigDetails st t)) next Hk)
      as [Hnext|[Hpos _]]; [exact Hnext|lia].
Qed.


(** The assessment only ever writes the tariff limit. *)
Lemma assess_store_other st t (limit min pct : num) s k :
  String.eqb k "tariff_limit" = false ->
  Rig.assessed_store (Rig.assess st t limit min pct s) k = s k.
Proof.
  intros Hk. unfold Rig.assess.
  branches; cbn [Rig.assessed_store]; try reflexivity;
    unfold Rig.setStoreValue; now rewrite Hk.
Qed.

(** The store of a mining tick that follows a tick with [lastSync]
    set, at every key but the tariff limit. *)
Lemma mining_tick_store st t d k :
  Rig.details t = Some d -> Rig.unmanaged d = false ->
  Rig.has_devices d = true -> Rig.agg_mining (Rig.aggregate d) <> 0%Z ->
  (0 < Rig.lastSync st)%Z ->
  String.eqb k "tariff_limit" = false ->
  let a := Rig.aggregate d in
  let revenue :=
    if js_truthy (Rig.agg_hashrate a) then Rig.profitability d else js_of_Z 0 in
  let s :=
    Rig.setStoreValue "mining" (js_of_Z 1)
      (Rig.setStoreValue "measure_profit" (js_mul revenue (js_of_Z 1000))
         (Rig.tick_store st d)) in
  Rig.store (fst (Rig.syncRigDetails st t)) k
  = Rig.accumulate (Rig.now t - Rig.lastSync st) a revenue
      (Rig.evaluate t a revenue s) (Rig.evaluated_store (Rig.evaluate t a revenue s)) k.
Proof.
  intros Hd Hu Hh Hm Hs Hk a revenue s. subst a revenue s.
  rewrite (@syncRigDetails_mining num _ st t d Hd Hu Hh Hm).
  unfold Rig.mining_tick. apply Z.gtb_lt in Hs. rewrite Hs.
  destruct (js_truthy (Rig.agg_hashrate (Rig.aggregate d)));
    cbn [fst Rig.store]; [|reflexivity].
  now rewrite assess_store_other.
Qed.

(** The daily cost in mBTC that a tick computes does not depend on the
    store. *)
Lemma evaluate_costPerDayMBTC t a (revenue revenue' : num) s s' :
  Rig.costPerDayMBTC (Rig.evaluate t a revenue s)
  = Rig.costPerDayMBTC (Rig.evaluate t a revenue' s').
Proof. unfold Rig.evaluate. branches; reflexivity. Qed.

(** X10. What a mining tick adds to the meters.  On a tick that finds
    a device mining, after a tick that left [lastSync] set, the stored
    energy meter becomes its previous reading plus the aggregate power
    in kW times the hours elapsed since [lastSync]; the profit meter
    its previous reading plus the day's revenue in mBTC times the days
    elapsed (nothing while waiting for a job); and the cost meter its
    previous reading plus the day's cost in mBTC times the days
    elapsed.  A missing or zero reading counts as 0. *)
Theorem meters_integrate :
  forall st t d,
    Rig.details t = Some d -> Rig.unmanaged d = false ->
    Rig.has_devices d = true -> Rig.agg_mining (Rig.aggregate d) <> 0%Z ->
    (0 < Rig.lastSync st)%Z ->
    let st' := fst (Rig.syncRigDetails st t) in
    let elapsed := js_of_Z (Rig.now t - Rig.lastSync st) in
    let a := Rig.aggregate d in
    let revenue :=
      if js_truthy (Rig.agg_hashrate a) then Rig.profitability d else js_of_Z 0 in
    let cost := Rig.costPerDayMBTC (Rig.evaluate t a revenue (fun _ => None)) in
    Rig.store st' "meter_power"
    = Some (js_add (meter (Rig.store st) "meter_power")
              (js_mul (js_div (Rig.agg_powerUsage a) (js_of_Z 1000))
                 (js_div elapsed (js_of_Z 3600000))))
    /\ Rig.store st' "meter_profit"
       = Some (js_add (meter (Rig.store st) "meter_profit")
                 (js_mul (js_mul revenue (js_of_Z 1000))
                    (js_div elapsed (js_of_Z 86400000))))
    /\ Rig.store st' "meter_cost"
       = Some (js_add (meter (Rig.store st) "meter_cost")
                 (js_mul cost (js_div elapsed (js_of_Z 86400000)))).
Proof.
  intros st t d Hd Hu Hh Hm Hs st' elapsed a revenue cost.
  subst st' elapsed cost.
  rewrite !(fun k => @mining_tick_store st t d k Hd Hu Hh Hm Hs) by reflexivity.
  cbv zeta. fold a. fold revenue.
  set (s := Rig.setStoreValue "mining" _ _).
  rewrite (evaluate_costPerDayMBTC t a revenue revenue (fun _ => None) s).
  set (e := Rig.evaluate t a revenue s).
  assert (Hmeter : forall k, In k meter_keys ->
             Rig.getStoreValue_or (Rig.evaluated_store e) k (js_of_Z 0)
             = meter (Rig.store st) k).
  { intros k Hk. unfold meter, Rig.getStoreValue_or. subst e.
    rewrite (evaluate_meters _ _ _ _ Hk). subst s.
    replace (Rig.setStoreValue "mining" (js_of_Z 1)
               (Rig.setStoreValue "measure_profit"
                  (js_mul revenue (js_of_Z 1000)) (Rig.tick_store st d)) k)
      with (Rig.tick_store st d k).
    - now rewrite (tick_store_meters st d Hk).
    - cbn [meter_keys In] in Hk.
      (repeat destruct Hk as [<-|Hk]); try contradiction; reflexivity. }
  pose proof (Hmeter "meter_power" ltac:(cbn; auto)) as Hpower.
  pose proof (Hmeter "meter_profit" ltac:(cbn; auto)) as Hprofit.
  pose proof (Hmeter "meter_cost" ltac:(cbn; auto)) as Hcost.
  unfold Rig.accumulate.
  change (1000 * 60 * 60)%Z with 3600000%Z.
  unfold Rig.getStoreValue_or in Hpower, Hprofit, Hcost.
  repeat split;
    destruct (js_truthy (Rig.mBTCRate e));
    unfold Rig.setStoreValue, Rig.getStoreValue_or;
    cbn [String.eqb Ascii.eqb Bool.eqb];
    first [now rewrite <- Hpower|now rewrite <- Hprofit|now rewrite <- Hcost].
Qed.

End RigTicks.

Lemma autopilot_commands_witness :
  let st := Sample.benchmarking Q in
  let t := Sample.tick Q 1700000480001 "MINING" 10 in
  In false (commands (snd (Rig.syncRigDetails st t)))
  /\ (0 < Rig.lastSync st)%Z
  /\ Rig.stop_decision st t.
Proof.
  intros st t.
  assert (Hsent : In false (commands (snd (Rig.syncRigDetails st t))))
    by (vm_compute; auto).
  split; [exact Hsent|].
  destruct (proj2 (proj2 (proj2 (@autopilot_commands Q _ st t))) Hsent)
    as (Hs & Hstop & _).
  split; assumption.
Defined.

Lemma no_verdict_during_benchmark_witness :
  let st := Sample.benchmarking Q in
  let t := Sample.tick Q 1700000480000 "MINING" 10 in
  (Rig.benchmarkStart st = 0%Z
   \/ (Rig.now t - Rig.benchmarkStart st <= 7 * 60000)%Z)
  /\ ~ Rig.stop_decision st t
  /\ Rig.store (fst (Rig.syncRigDetails st t)) "tariff_limit"
     = Rig.store st "tariff_limit".
Proof.
  intros st t.
  assert (Hbench : Rig.benchmarkStart st = 0%Z
                   \/ (Rig.now t - Rig.benchmarkStart st <= 7 * 60000)%Z)
    by (right; vm_compute; discriminate).
  split; [exact Hbench|].
  destruct (@no_verdict_during_benchmark Q _ st t Hbench) as (Hno & _ & _ & Hkeep).
  split; assumption.
Defined.

Lemma running_timestamps_witness :
  let first := Sample.tick Q 1700000000000 "MINING" 10 in
  let second := Sample.tick Q 1700000060000 "MINING" 10 in
  let st :=
    fst (Rig.syncRigDetails
           (fst (Rig.syncRigDetails (Rig.fresh (fun _ => None)) first)) second) in
  running 1700000060000 st
  /\ Rig.benchmarkStart st <> 0%Z
  /\ (0 < Rig.benchmarkStart st <= Rig.lastSync st)%Z
  /\ (Rig.lastMined st <= Rig.lastSync st)%Z.
Proof.
  intros first second st.
  assert (Hrun : running 1700000060000 st).
  { apply (@running_tick Q _ 1700000000000
             (fst (Rig.syncRigDetails (Rig.fresh (fun _ => None)) first)) second).
    - apply (@running_tick Q _ 0 (Rig.fresh (fun _ => None)) first).
      + apply running_fresh.
      + vm_compute. discriminate.
      + reflexivity.
    - vm_compute. discriminate.
    - reflexivity. }
  assert (Hopen : Rig.benchmarkStart st <> 0%Z) by (vm_compute; discriminate).
  split; [exact Hrun|]. split; [exact Hopen|].
  exact (proj2 (proj2 (proj2 (proj2 (proj2
           (@running_timestamps Q _ 1700000060000%Z st Hrun))))) Hopen).
Defined.

Lemma meters_only_advance_while_mining_witness :
  let st := Sample.benchmarking Q in
  let idle := Sample.tick Q 1700000120000 "INACTIVE" 10 in
  let next := Sample.tick Q 1700000180000 "MINING" 10 in
  In "meter_power" meter_keys
  /\ Rig.details idle = Some (Sample.payload Q "INACTIVE")
  /\ Rig.unmanaged (Sample.payload Q "INACTIVE") = false
  /\ Rig.has_devices (Sample.payload Q "INACTIVE") = true
  /\ Rig.agg_mining (Rig.aggregate (Sample.payload Q "INACTIVE")) = 0%Z
  /\ Rig.store (Rig.run st [idle; next]) "meter_power" = Rig.store st "meter_power".
Proof.
  intros st idle next.
  assert (Hk : In "meter_power" meter_keys) by (left; reflexivity).
  assert (Hd : Rig.details idle = Some (Sample.payload Q "INACTIVE")) by reflexivity.
  assert (Hu : Rig.unmanaged (Sample.payload Q "INACTIVE") = false) by reflexivity.
  assert (Hh : Rig.has_devices (Sample.payload Q "INACTIVE") = true) by reflexivity.
  assert (Hm : Rig.agg_mining (Rig.aggregate (Sample.payload Q "INACTIVE")) = 0%Z)
    by reflexivity.
  repeat (split; [assumption|]).
  exact (proj2 (@meters_only_advance_while_mining Q _ st idle "meter_power" Hk)
           (Sample.payload Q "INACTIVE") next Hd Hu Hh Hm).
Defined.

(** ** Meters and percentages in exact arithmetic *)

Lemma js_or_zero (v : Q) : js_or v (js_of_Z 0) == v.
Proof.
  unfold js_or. cbn [js_truthy js_of_Z Q_JsNumber]. unfold QNum.truthy.
  destruct (Qeq_bool v 0) eqn:Hv; cbn [negb]; [|reflexivity].
  apply Qeq_bool_eq in Hv. now rewrite Hv.
Qed.

Lemma meter_stored (s : Rig.Store Q) (k : string) (v : Q) :
  s k = Some v -> meter s k == v.
Proof. intros Hk. unfold meter, Rig.getStoreValue_or. rewrite Hk. apply js_or_zero. Qed.

(** The energy meter after a mining tick that follows a tick with
    [lastSync] set. *)
Lemma meter_power_after (st : Rig.State Q) (t : Rig.Tick Q) (d : Rig.Details Q) :
  Rig.details t = Some d -> Rig.unmanaged d = false ->
  Rig.has_devices d = true -> Rig.agg_mining (Rig.aggregate d) <> 0%Z ->
  (0 < Rig.lastSync st)%Z ->
  meter (Rig.store (fst (Rig.syncRigDetails st t))) "meter_power"
  == meter (Rig.store st) "meter_power"
     + Rig.agg_powerUsage (Rig.aggregate d) / 1000
       * (inject_Z (Rig.now t - Rig.lastSync st) / 3600000).
Proof.
  intros Hd Hu Hh Hm Hs. apply meter_stored.
  rewrite (@mining_tick_store Q _ st t d "meter_power" Hd Hu Hh Hm Hs eq_refl).
  cbv zeta.
  set (revenue := if js_truthy _ then _ else _).
  set (s := Rig.setStoreValue "mining" _ _).
  set (e := Rig.evaluate t (Rig.aggregate d) revenue s).
  assert (Hpower : Rig.getStoreValue_or (Rig.evaluated_store e) "meter_power"
                     (js_of_Z 0)
                   = meter (Rig.store st) "meter_power").
  { unfold meter, Rig.getStoreValue_or. subst e.
    rewrite (@evaluate_meters Q _ _ _ _ _ "meter_power") by (cbn; auto).
    reflexivity. }
  unfold Rig.getStoreValue_or in Hpower.
  unfold Rig.accumulate.
  destruct (js_truthy (Rig.mBTCRate e));
    unfold Rig.setStoreValue, Rig.getStoreValue_or;
    cbn [String.eqb Ascii.eqb Bool.eqb]; now rewrite <- Hpower.
Qed.

(** X11. The energy meter never runs backwards.  As long as the clock
    has not gone back since [lastSync] was set and the aggregate power
    of the payload is not negative, the energy meter read after a tick
    is at least the energy meter read before it. *)
Theorem energy_meter_never_decreases :
  forall (st : Rig.State Q) (t : Rig.Tick Q),
    (Rig.lastSync st <= Rig.now t)%Z ->
    (forall d, Rig.details t = Some d ->
               0 <= Rig.agg_powerUsage (Rig.aggregate d)) ->
    meter (Rig.store st) "meter_power"
    <= meter (Rig.store (fst (Rig.syncRigDetails st t))) "meter_power".
Proof.
  intros st t Hclock Hpower.
  destruct (@meter_step Q _ st t "meter_power" ltac:(cbn; auto))
    as [Hkeep|(Hs & d & Hd & Hu & Hm)].
  - unfold meter, Rig.getStoreValue_or. rewrite Hkeep. apply Qle_refl.
  - assert (Hh : Rig.has_devices d = true).
    { destruct (Rig.has_devices d) eqn:Hh; [reflexivity|].
      exfalso. apply Hm. unfold Rig.aggregate, Rig.has_devices in *.
      destruct (Rig.devices d); [discriminate|]. now rewrite Hh. }
    rewrite (@meter_power_after st t d Hd Hu Hh Hm Hs).
    rewrite <- (Qplus_0_r (meter (Rig.store st) "meter_power")) at 1.
    apply Qplus_le_r.
    apply Qmult_le_0_compat.
    + apply Qle_shift_div_l; [reflexivity|].
      rewrite Qmult_0_l. now apply Hpower.
    + apply Qle_shift_div_l; [reflexivity|].
      rewrite Qmult_0_l. change 0 with (inject_Z 0).
      rewrite <- Zle_Qle. lia.
Qed.

Lemma energy_meter_never_decreases_witness :
  let st := Sample.benchmarking Q in
  let t := Sample.tick Q 1700000120000 "MINING" 10 in
  (Rig.lastSync st <= Rig.now t)%Z
  /\ meter (Rig.store st) "meter_power"
     <= meter (Rig.store (fst (Rig.syncRigDetails st t))) "meter_power".
Proof.
  intros st t.
  assert (Hclock : (Rig.lastSync st <= Rig.now t)%Z) by (vm_compute; discriminate).
  split; [exact Hclock|].
  apply (@energy_meter_never_decreases st t Hclock).
  intros d Hd. injection Hd as <-. vm_compute. discriminate.
Defined.

(** X12. The rolling average stays within the readings.  If every
    instant profit percentage a tick can feed lies between [lo] and
    [hi], with [lo <= 0 <= hi], then a rolling average between [lo] and
    [hi] is still between them after the tick, whatever path the tick
    takes. *)
Theorem rolling_profit_within_readings :
  forall (lo hi : Q) (st : Rig.State Q) (t : Rig.Tick Q),
    lo <= 0 <= hi ->
    lo <= Rig.rollingProfit st <= hi ->
    (forall d, Rig.details t = Some d ->
               lo <= Rig.instant_profitPct t d <= hi) ->
    lo <= Rig.rollingProfit (fst (Rig.syncRigDetails st t)) <= hi.
Proof.
  intros lo hi st t Hzero Hrolling Hreading.
  destruct (@tick_paths Q _ st t)
    as [[Heq _]|[(d & Hd & Hu & Hh & Heq)|[(d & Hd & Hu & Hh & Hm & Heq)
                                          |(d & Hd & Hu & Hh & Hm & Heq)]]].
  - rewrite Heq. exact Hrolling.
  - rewrite Heq. exact Hrolling.
  - rewrite Heq. exact Hzero.
  - clear Heq.
    destruct (js_truthy (Rig.agg_hashrate (Rig.aggregate d))) eqn:Hr;
      [destruct (Z_lt_le_dec 0 (Rig.lastSync st)) as [Hs|Hs]|].
    + assert (Hmine : Rig.mining_with_hashrate t d)
        by (unfold Rig.mining_with_hashrate; auto).
      rewrite (rolling_after_assessed st Hmine Hs).
      specialize (Hreading d Hd).
      destruct (Rig.benchmarkStart st =? 0)%Z; [exact Hreading|].
      cbn [js_add js_mul js_div js_of_Z Q_JsNumber].
      change (inject_Z 6 / inject_Z 7) with (6 # 7).
      change (inject_Z 1 / inject_Z 7) with (1 # 7).
      lra.
    + destruct (@syncRigDetails_not_assessed Q _ st t d Hd Hu Hh Hm (or_intror Hs))
        as (Hkeep & _).
      rewrite Hkeep. exact Hrolling.
    + destruct (@syncRigDetails_not_assessed Q _ st t d Hd Hu Hh Hm (or_introl Hr))
        as (Hkeep & _).
      rewrite Hkeep. exact Hrolling.
Qed.

Lemma rolling_profit_within_readings_witness :
  let st := Sample.benchmarking Q in
  let t := Sample.tick Q 1700000120000 "MINING" 10 in
  -50 <= 0 <= 0
  /\ -50 <= Rig.rollingProfit st <= 0
  /\ -50 <= Rig.rollingProfit (fst (Rig.syncRigDetails st t)) <= 0.
Proof.
  intros st t.
  assert (Hzero : -50 <= 0 <= 0) by (split; vm_compute; discriminate).
  assert (Hrolling : -50 <= Rig.rollingProfit st <= 0)
    by (split; vm_compute; discriminate).
  split; [exact Hzero|]. split; [exact Hrolling|].
  apply (@rolling_profit_within_readings (-50) 0 st t Hzero Hrolling).
  intros d Hd. injection Hd as <-. split; vm_compute; discriminate.
Defined.

(** The percentage a tick computes is a whole number that is not
    below -100 when the revenue is not negative. *)
Lemma instant_profitPct_floor (t : Rig.Tick Q) (d : Rig.Details Q) :
  0 <= Rig.profitability d ->
  exists z : Z, Rig.instant_profitPct t d = inject_Z z /\ (-100 <= z)%Z.
Proof.
  intros Hrevenue. unfold Rig.instant_profitPct, Rig.evaluate.
  set (revenue := if js_truthy (Rig.agg_hashrate (Rig.aggregate d))
                  then Rig.profitability d else js_of_Z 0).
  assert (Hr : 0 <= revenue)
    by (subst revenue; destruct (js_truthy _); [exact Hrevenue|apply Qle_refl]).
  destruct (js_truthy (Rig.power_tariff t));
    [|exists 0%Z; split; [reflexivity|lia]].
  destruct (Rig.bitcoinRate t) as [rate|];
    [|exists 0%Z; split; [reflexivity|lia]].
  set (cost := js_div _ (js_div rate _)).
  destruct ((0 <? Rig.agg_mining (Rig.aggregate d))%Z && js_lt (js_of_Z 0) cost)%bool
    eqn:Hcond; [|exists 0%Z; split; [reflexivity|lia]].
  cbn [Rig.profitPct].
  apply andb_true_iff in Hcond as [_ Hcost].
  cbn [js_lt js_of_Z Q_JsNumber] in Hcost. unfold QNum.ltb in Hcost.
  apply negb_true_iff in Hcost.
  assert (Hpos : 0 < cost).
  { apply Qnot_le_lt. intros Hle. apply Qle_bool_iff in Hle.
    change (inject_Z 0) with 0 in Hcost. congruence. }
  cbn [js_round js_mul js_sub js_div js_of_Z Q_JsNumber]. unfold QNum.round.
  eexists. split; [reflexivity|].
  change (-100)%Z with (Qfloor (inject_Z (-100))).
  apply Qfloor_resp_le.
  assert (Hratio : 0 <= revenue * inject_Z 1000 / cost).
  { apply Qle_shift_div_l; [exact Hpos|]. rewrite Qmult_0_l.
    apply Qmult_le_0_compat; [exact Hr|discriminate]. }
  assert (Hexact : (revenue * inject_Z 1000 - cost) / cost * inject_Z 100
                   == revenue * inject_Z 1000 / cost * 100 - 100).
  { change (inject_Z 100) with 100. field. intros Hz. rewrite Hz in Hpos.
    discriminate. }
  rewrite Hexact. change (inject_Z (-100)) with (-100). lra.
Qed.

(** X13. A loss is at most total.  With a revenue that is not
    negative, the profit percentage a tick computes is a whole number
    not below -100; so with a minimum profitability of -100 or less no
    tick takes the stop decision, and the Autopilot never stops the
    rig. *)
Theorem profit_percent_floor :
  forall (st : Rig.State Q) (t : Rig.Tick Q),
    (forall d, Rig.details t = Some d -> 0 <= Rig.profitability d) ->
    (forall d, Rig.details t = Some d ->
       exists z : Z, Rig.instant_profitPct t d = inject_Z z /\ (-100 <= z)%Z)
    /\ (Rig.setting_min_profitability t <= -100 ->
        ~ Rig.stop_decision st t
        /\ ~ In false (commands (snd (Rig.syncRigDetails st t)))).
Proof.
  intros st t Hrevenue.
  split; [intros d Hd; apply instant_profitPct_floor; now apply Hrevenue|].
  intros Hmin.
  assert (Hno : ~ Rig.stop_decision st t).
  { intros Hstop.
    destruct (proj1 (@tariff_limit_step Q _ st t) Hstop)
      as (_ & d & (Hd & _) & _ & Hbelow).
    destruct (instant_profitPct_floor t d (Hrevenue d Hd)) as (z & Hz & Hfloor).
    rewrite Hz in Hbelow.
    assert (Htruthy : js_or (Rig.setting_min_profitability t) (js_of_Z 0)
                      == Rig.setting_min_profitability t) by apply js_or_zero.
    cbn [js_lt Q_JsNumber] in Hbelow. unfold QNum.ltb in Hbelow.
    apply negb_true_iff in Hbelow.
    assert (Hle : js_or (Rig.setting_min_profitability t) (js_of_Z 0)
                  <= inject_Z z).
    { rewrite Htruthy. apply Qle_trans with (-100); [exact Hmin|].
      change (-100) with (inject_Z (-100)). now rewrite <- Zle_Qle. }
    apply Qle_bool_iff in Hle. congruence. }
  split; [exact Hno|].
  intros Hsent. apply Hno. unfold Rig.stop_decision.
  destruct (snd (Rig.syncRigDetails st t)) as [|e effects] eqn:Heffects;
    [destruct Hsent|].
  pose proof (@tick_paths Q _ st t) as Hpaths.
  destruct Hpaths
    as [[Heq _]|[(d & Hd & Hu & Hh & Heq)|[(d & Hd & Hu & Hh & Hm & Heq)
                                          |(d & Hd & Hu & Hh & Hm & Heq)]]];
    rewrite Heq in Heffects.
  - discriminate.
  - discriminate.
  - unfold Rig.idle_tick in Heffects. cbn [snd] in Heffects.
    destruct (Rig.start_condition _ _ _); [|discriminate].
    injection Heffects as <- <-. cbn in Hsent.
    destruct Hsent as [Hx|[]]. discriminate.
  - unfold Rig.mining_tick in Heffects.
    destruct (Rig.lastSync st >? 0)%Z; [|discriminate].
    destruct (js_truthy (Rig.agg_hashrate (Rig.aggregate d))); [|discriminate].
    cbn [snd] in Heffects. unfold Rig.assess in Heffects.
    destruct (_ && _)%bool; [|discriminate].
    destruct (Rig.stop_condition _ _ _); cbn [Rig.assessed_effects] in Heffects.
    + injection Heffects as <- <-. left. reflexivity.
    + destruct (js_lt _ _); [|discriminate].
      injection Heffects as <- <-. cbn in Hsent. destruct Hsent.
Qed.

Lemma profit_percent_floor_witness :
  let st := Sample.benchmarking Q in
  let t := Sample.tick Q 1700000480001 "MINING" 10 in
  (forall d, Rig.details t = Some d -> 0 <= Rig.profitability d)
  /\ exists z : Z,
      Rig.instant_profitPct t (Sample.payload Q "MINING") = inject_Z z
      /\ (-100 <= z)%Z.
Proof.
  intros st t.
  assert (Hrevenue : forall d, Rig.details t = Some d -> 0 <= Rig.profitability d)
    by (intros d Hd; injection Hd as <-; vm_compute; discriminate).
  split; [exact Hrevenue|].
  exact (proj1 (@profit_percent_floor st t Hrevenue)
           (Sample.payload Q "MINING") eq_refl).
Defined.

(** ** The aggregate of a payload in exact arithmetic *)

Lemma sumQ_app (l l' : list Q) : sumQ (l ++ l') == sumQ l + sumQ l'.
Proof.
  induction l as [|x l IH]; cbn [app sumQ fold_right].
  - now rewrite Qplus_0_l.
  - fold (sumQ (l ++ l')). fold (sumQ l). rewrite IH. ring.
Qed.

Lemma max_cases (a b : Q) :
  a <= QNum.max a b /\ b <= QNum.max a b
  /\ (QNum.max a b = a \/ QNum.max a b = b).
Proof.
  unfold QNum.max, QNum.ltb.
  destruct (Qle_bool b a) eqn:Hle; cbn [negb].
  - apply Qle_bool_iff in Hle. repeat split; auto. apply Qle_refl.
  - assert (Hlt : a < b).
    { apply Qnot_le_lt. intros Hx. apply Qle_bool_iff in Hx. congruence. }
    repeat split; auto; [now apply Qlt_le_weak|apply Qle_refl].
Qed.

Lemma sumQ_cons (x : Q) (l : list Q) : sumQ (x :: l) = x + sumQ l.
Proof. reflexivity. Qed.

Lemma device_step_sums (a : Rig.Aggregate Q) (d : Rig.Device Q) :
  Rig.agg_powerUsage (Rig.device_step a d)
  == Rig.agg_powerUsage a + (if enabled d then Rig.powerUsage d else 0)
  /\ Rig.agg_load (Rig.device_step a d)
     == Rig.agg_load a + (if enabled d then Rig.load d else 0).
Proof.
  unfold Rig.device_step, enabled.
  destruct (_ || _)%bool; cbn [negb]; [split; ring|].
  destruct (negb _); cbn [Rig.agg_powerUsage Rig.agg_load js_add Q_JsNumber];
    split; reflexivity.
Qed.

(** Power and load after the legacy devices. *)
Lemma devices_sums (ds : list (Rig.Device Q)) :
  forall a : Rig.Aggregate Q,
    Rig.agg_powerUsage (fold_left (@Rig.device_step Q _) ds a)
    == Rig.agg_powerUsage a
       + sumQ (map (@Rig.powerUsage Q) (filter (@enabled Q) ds))
    /\ Rig.agg_load (fold_left (@Rig.device_step Q _) ds a)
       == Rig.agg_load a + sumQ (map (@Rig.load Q) (filter (@enabled Q) ds)).
Proof.
  induction ds as [|d ds IH]; intros a.
  - cbn. split; ring.
  - cbn [fold_left filter]. destruct (IH (Rig.device_step a d)) as [Hp Hl].
    destruct (device_step_sums a d) as [Hp' Hl'].
    rewrite Hp, Hl, Hp', Hl'.
    destruct (enabled d); cbn [map]; rewrite ?sumQ_cons; split; ring.
Qed.

(** The key/value folds of a v4 device. *)
Lemma odv_sums (kps : list (Rig.KeyPair Q)) :
  forall p : Q,
    Rig.odv_power kps p
    == p + sumQ (map (@Rig.value Q)
                   (filter (fun kp => String.eqb (Rig.key kp) "Power usage") kps))
    /\ Rig.odv_load kps p
       == p + sumQ (map (@Rig.value Q)
                      (filter (fun kp => String.eqb (Rig.key kp) "Load") kps)).
Proof.
  induction kps as [|kp kps IH]; intros p.
  - cbn. split; ring.
  - unfold Rig.odv_power, Rig.odv_load in *. cbn [fold_left filter].
    split.
    + destruct (String.eqb (Rig.key kp) "Power usage").
      * rewrite (proj1 (IH _)). cbn [map js_add Q_JsNumber].
        rewrite sumQ_cons. ring.
      * apply (proj1 (IH p)).
    + destruct (String.eqb (Rig.key kp) "Load").
      * rewrite (proj2 (IH _)). cbn [map js_add Q_JsNumber].
        rewrite sumQ_cons. ring.
      * apply (proj2 (IH p)).
Qed.

Lemma v4_device_step_sums (a : Rig.Aggregate Q) (d : Rig.V4Device Q) :
  Rig.agg_powerUsage (Rig.v4_device_step a d)
  == Rig.agg_powerUsage a + sumQ (odv_values "Power usage" d)
  /\ Rig.agg_load (Rig.v4_device_step a d)
     == Rig.agg_load a + sumQ (odv_values "Load" d).
Proof.
  unfold Rig.v4_device_step, odv_values. rewrite keypairs_fields.
  cbn [Rig.agg_powerUsage Rig.agg_load].
  destruct (Rig.mdv_algorithmsSpeed d) as [algos|].
  - destruct (algos_fields algos a) as (Hp & _ & Hl & _). rewrite Hp, Hl.
    split; [apply (proj1 (odv_sums _ _))|apply (proj2 (odv_sums _ _))].
  - split; [apply (proj1 (odv_sums _ _))|apply (proj2 (odv_sums _ _))].
Qed.

Lemma v4_devices_sums (ds : list (Rig.V4Device Q)) :
  forall a : Rig.Aggregate Q,
    Rig.agg_powerUsage (fold_left (@Rig.v4_device_step Q _) ds a)
    == Rig.agg_powerUsage a + sumQ (flat_map (odv_values "Power usage") ds)
    /\ Rig.agg_load (fold_left (@Rig.v4_device_step Q _) ds a)
       == Rig.agg_load a + sumQ (flat_map (odv_values "Load") ds).
Proof.
  induction ds as [|d ds IH]; intros a.
  - cbn. split; ring.
  - cbn [fold_left flat_map]. destruct (IH (Rig.v4_device_step a d)) as [Hp Hl].
    destruct (v4_device_step_sums a d) as [Hp' Hl'].
    rewrite Hp, Hl, Hp', Hl', !sumQ_app. split; ring.
Qed.

(** X14. Power and load of a payload are sums.  The power (and the
    load) that a tick stores and reports is the sum of the power usage
    (the load) of the legacy devices that are neither DISABLED nor
    OFFLINE, plus, when the payload has v4 rigs, everything its v4
    devices report under the key 'Power usage' ('Load'). *)
Theorem aggregate_power_and_load :
  forall d : Rig.Details Q,
    Rig.agg_powerUsage (Rig.aggregate d)
    == sumQ (readings (@Rig.powerUsage Q) "Power usage" d)
    /\ Rig.agg_load (Rig.aggregate d)
       == sumQ (readings (@Rig.load Q) "Load" d).
Proof.
  intros d. unfold Rig.aggregate, readings, legacy_devices, v4_rig_devices.
  rewrite !sumQ_app.
  set (zero := {| Rig.agg_powerUsage := js_of_Z 0; Rig.agg_hashrate := js_of_Z 0;
                  Rig.agg_mining := 0; Rig.agg_temperature := js_of_Z 0;
                  Rig.agg_load := js_of_Z 0 |}).
  set (a := match Rig.devices d with
            | Some ds => fold_left (@Rig.device_step Q _) ds zero
            | None => zero
            end).
  assert (Hlegacy :
            Rig.agg_powerUsage a
            == sumQ (map (@Rig.powerUsage Q)
                       (filter (@enabled Q)
                          match Rig.devices d with Some ds => ds | None => [] end))
            /\ Rig.agg_load a
               == sumQ (map (@Rig.load Q)
                          (filter (@enabled Q)
                             match Rig.devices d with Some ds => ds | None => [] end))).
  { subst a. destruct (Rig.devices d) as [ds|].
    - destruct (devices_sums ds zero) as [Hp Hl]. rewrite Hp, Hl.
      cbn [zero Rig.agg_powerUsage Rig.agg_load js_of_Z Q_JsNumber].
      split; ring.
    - cbn. split; reflexivity. }
  destruct Hlegacy as [Hp Hl].
  destruct (Rig.hasV4Rigs d); [destruct (Rig.v4_devices d) as [ds|]|].
  - destruct (v4_devices_sums ds a) as [Hp' Hl']. rewrite Hp', Hl', Hp, Hl.
    split; reflexivity.
  - rewrite Hp, Hl. cbn [flat_map sumQ fold_right]. split; ring.
  - rewrite Hp, Hl. cbn [flat_map sumQ fold_right]. split; ring.
Qed.

Lemma hottest_nil (p : Q) : hottest p [] p.
Proof. repeat split; auto. apply Qle_refl. Qed.

Lemma hottest_max (p x : Q) : hottest p [x] (QNum.max p x).
Proof.
  destruct (max_cases p x) as (Hp & Hx & Hcase).
  repeat split; auto. destruct Hcase as [-> | ->]; cbn; auto.
Qed.

Lemma hottest_app (p q r : Q) (l l' : list Q) :
  hottest p l q -> hottest q l' r -> hottest p (l ++ l') r.
Proof.
  intros (Hpq & Hl & Hq) (Hqr & Hl' & Hr). repeat split.
  - now apply Qle_trans with q.
  - apply Forall_app. split; [|exact Hl'].
    eapply Forall_impl; [|exact Hl]. intros x Hx. now apply Qle_trans with q.
  - destruct Hr as [-> | Hr]; [|right; apply in_or_app; auto].
    destruct Hq as [-> | Hq]; [auto|right; apply in_or_app; auto].
Qed.

Lemma hottest_fold (S A : Type) (temp : S -> Q) (step : S -> A -> S)
    (temps : A -> list Q) :
  (forall s x, hottest (temp s) (temps x) (temp (step s x))) ->
  forall (l : list A) (s : S),
    hottest (temp s) (flat_map temps l) (temp (fold_left step l s)).
Proof.
  intros Hstep l. induction l as [|x l IH]; intros s; cbn [flat_map fold_left].
  - apply hottest_nil.
  - eapply hottest_app; [apply Hstep|apply IH].
Qed.

Lemma flat_map_filter (A B : Type) (f : A -> bool) (g : A -> B) (l : list A) :
  flat_map (fun x => if f x then [g x] else []) l = map g (filter f l).
Proof.
  induction l as [|x l IH]; [reflexivity|].
  cbn [flat_map filter]. destruct (f x); cbn [app map]; now rewrite IH.
Qed.

Lemma v4_device_step_hottest (a : Rig.Aggregate Q) (d : Rig.V4Device Q) :
  hottest (Rig.agg_temperature a) (odv_values "Temperature" d)
    (Rig.agg_temperature (Rig.v4_device_step a d)).
Proof.
  unfold Rig.v4_device_step, odv_values.
  rewrite <- flat_map_filter.
  set (a' := match Rig.mdv_algorithmsSpeed d with
             | Some algos => fold_left (@Rig.algo_step Q _) algos a
             | None => a
             end).
  assert (Ha : Rig.agg_temperature a' = Rig.agg_temperature a).
  { subst a'. destruct (Rig.mdv_algorithmsSpeed d) as [algos|]; [|reflexivity].
    apply (algos_fields algos a). }
  rewrite <- Ha.
  apply (hottest_fold (@Rig.agg_temperature Q) (@Rig.keypair_step Q _)).
  intros s kp. unfold Rig.keypair_step. cbn [Rig.agg_temperature].
  destruct (String.eqb (Rig.key kp) "Temperature");
    [apply hottest_max|apply hottest_nil].
Qed.

(** X15. The temperature of a payload is that of its hottest device.
    The temperature a tick reports is never negative, no legacy device
    that is neither DISABLED nor OFFLINE and no 'Temperature' entry of a
    v4 device (when the payload has v4 rigs) is above it, and it is 0 or
    one of these readings. *)
Theorem aggregate_temperature_is_hottest :
  forall d : Rig.Details Q,
    hottest 0 (readings (@Rig.temperature Q) "Temperature" d)
      (Rig.agg_temperature (Rig.aggregate d)).
Proof.
  intros d. unfold Rig.aggregate, readings, legacy_devices, v4_rig_devices.
  set (zero := {| Rig.agg_powerUsage := js_of_Z 0; Rig.agg_hashrate := js_of_Z 0;
                  Rig.agg_mining := 0; Rig.agg_temperature := js_of_Z 0;
                  Rig.agg_load := js_of_Z 0 |}).
  set (a := match Rig.devices d with
            | Some ds => fold_left (@Rig.device_step Q _) ds zero
            | None => zero
            end).
  assert (Hlegacy :
            hottest 0
              (map (@Rig.temperature Q)
                 (filter (@enabled Q)
                    match Rig.devices d with Some ds => ds | None => [] end))
              (Rig.agg_temperature a)).
  { subst a. destruct (Rig.devices d) as [ds|]; [|apply hottest_nil].
    rewrite <- flat_map_filter.
    refine (hottest_fold (@Rig.agg_temperature Q) (@Rig.device_step Q _)
              (fun x => if enabled x then [Rig.temperature x] else []) _ ds zero).
    intros s x. unfold Rig.device_step, enabled.
    destruct (_ || _)%bool; cbn [negb]; [apply hottest_nil|].
    destruct (negb _); cbn [Rig.agg_temperature]; apply hottest_max. }
  eapply hottest_app; [exact Hlegacy|].
  destruct (Rig.hasV4Rigs d); [destruct (Rig.v4_devices d) as [ds|]|];
    try apply hottest_nil.
  apply (hottest_fold (@Rig.agg_temperature Q) (@Rig.v4_device_step Q _)).
  apply v4_device_step_hottest.
Qed.

(** ** The library wrapper *)

Section LibCalls.

Variable JsObject : Type.
Variable qs_stringify : JsObject -> string.
Variable qs_parse : string -> JsObject.
Variable JSON_stringify : JsObject -> string.
Variable hmac_sha256 : string -> string -> list Byte.byte.
Variable version : string.
Variable spread : JsObject -> option (Api.Payload JsObject) -> JsObject.
Variable object_literal : list (string * string) -> JsObject.
Variable Response : Type.
Variable request : Api.RequestOptions JsObject -> option Response.
Variable miningRigs_length : Response -> option nat.

Local Abbreviation getAuthHeader :=
  (Api.getAuthHeader qs_stringify JSON_stringify hmac_sha256).
Local Abbreviation libApiCall :=
  (Lib.apiCall qs_stringify qs_parse JSON_stringify hmac_sha256 version spread).
Local Abbreviation getRigs :=
  (Lib.getRigs qs_stringify qs_parse JSON_stringify hmac_sha256 version spread
     request).
Local Abbreviation getRigDetails :=
  (Lib.getRigDetails qs_stringify qs_parse JSON_stringify hmac_sha256 version
     spread request).
Local Abbreviation getAlgorithms :=
  (Lib.getAlgorithms qs_stringify qs_parse JSON_stringify hmac_sha256 version
     spread request).
Local Abbreviation setRigStatus :=
  (Lib.setRigStatus qs_stringify qs_parse JSON_stringify hmac_sha256 version
     spread object_literal request).
Local Abbreviation init :=
  (Lib.init qs_stringify qs_parse JSON_stringify hmac_sha256 version spread
     request miningRigs_length).

(** The request of a call whose path holds no ['?'] and that passes no
    query and no time override. *)
Lemma plain_call (api : Api.Api) (now : Z) (nonce method_ path_ : string)
    (body : option (Api.Payload JsObject)) (diff : Z) :
  Api.localTimeDiff api = Some diff ->
  contains "?"%char path_ = false ->
  exists o,
    libApiCall api now nonce method_ path_
      {| Api.opt_query := None; Api.opt_body := body; Api.opt_time := None |}
    = Api.Requested o
    /\ Api.uri o = Api.host api ++ path_
    /\ Api.req_method o = method_
    /\ Api.qs o = None
    /\ Api.req_body o = body
    /\ Api.header "X-Time" (Api.Requested o) = Some (toString (now + diff))
    /\ Api.header "X-Auth" (Api.Requested o)
       = Some (getAuthHeader (Api.key api) (Api.secret api)
                 (toString (now + diff)) nonce (Some (Api.org api))
                 {| Api.method := method_; Api.path := path_;
                    Api.query := None; Api.body := body |}).
Proof.
  intros Hdiff Hfree. unfold Lib.apiCall, Api.apiCall. rewrite Hdiff. cbv zeta.
  rewrite (@split_no_char _ _ Hfree). cbn [nth nth_error Api.opt_query
    Api.opt_body Api.opt_time Api.timestamp_of].
  eexists. split; [reflexivity|]. repeat split.
Qed.

(** X16. What the wrapper asks of the platform.  On a synced client,
    [setRigStatus] issues one POST to [/main/api/v2/mining/rigs/status2]
    with no query and the body [{rigId, action}], where the action is
    START for [true] and STOP for [false]; [getRigDetails], for a rig id
    without ['?'], issues one GET to [/main/api/v2/mining/rig2/<rigId>]
    with neither query nor body.  Both are stamped with the local time
    plus the clock offset and signed over exactly that method, path and
    body, and return what the request returns.  On a client that was
    never synced every wrapper call returns nothing, and no request is
    made. *)
Theorem wrapper_requests :
  forall (api : Api.Api) (now : Z) (nonce rigId : string),
    (forall diff (on : bool),
        Api.localTimeDiff api = Some diff ->
        let body :=
          Some (Api.PObject
                  (object_literal
                     [("rigId", rigId);
                      ("action", if on then "START" else "STOP")])) in
        exists o,
          setRigStatus api now nonce rigId on = request o
          /\ Api.uri o = Api.host api ++ "/main/api/v2/mining/rigs/status2"
          /\ Api.req_method o = "POST"
          /\ Api.qs o = None
          /\ Api.req_body o = body
          /\ Api.header "X-Time" (Api.Requested o) = Some (toString (now + diff))
          /\ Api.header "X-Auth" (Api.Requested o)
             = Some (getAuthHeader (Api.key api) (Api.secret api)
                       (toString (now + diff)) nonce (Some (Api.org api))
                       {| Api.method := "POST";
                          Api.path := "/main/api/v2/mining/rigs/status2";
                          Api.query := None; Api.body := body |}))
    /\ (forall diff,
           Api.localTimeDiff api = Some diff ->
           contains "?"%char rigId = false ->
           exists o,
             getRigDetails api now nonce rigId = request o
             /\ Api.uri o = Api.host api ++ "/main/api/v2/mining/rig2/" ++ rigId
             /\ Api.req_method o = "GET"
             /\ Api.qs o = None
             /\ Api.req_body o = None
             /\ Api.header "X-Time" (Api.Requested o)
                = Some (toString (now + diff))
             /\ Api.header "X-Auth" (Api.Requested o)
                = Some (getAuthHeader (Api.key api) (Api.secret api)
                          (toString (now + diff)) nonce (Some (Api.org api))
                          {| Api.method := "GET";
                             Api.path := "/main/api/v2/mining/rig2/" ++ rigId;
                             Api.query := None; Api.body := None |}))
    /\ (Api.localTimeDiff api = None ->
        getRigs api now nonce = None
        /\ getRigDetails api now nonce rigId = None
        /\ getAlgorithms api now nonce = None
        /\ forall on, setRigStatus api now nonce rigId on = None).
Proof.
  intros api now nonce rigId. split; [|split].
  - intros diff on Hdiff body.
    destruct (plain_call api now nonce "POST" "/main/api/v2/mining/rigs/status2"
                body Hdiff eq_refl) as (o & Hcall & Hrest).
    exists o. split; [|exact Hrest].
    unfold Lib.setRigStatus, Lib.post. fold body.
    unfold Lib.apiCall in Hcall |- *. now rewrite Hcall.
  - intros diff Hdiff Hfree.
    assert (Hpath : contains "?"%char ("/main/api/v2/mining/rig2/" ++ rigId) = false)
      by (rewrite contains_app, Hfree; reflexivity).
    destruct (plain_call api now nonce "GET" ("/main/api/v2/mining/rig2/" ++ rigId)
                None Hdiff Hpath) as (o & Hcall & Hrest).
    exists o. split; [|exact Hrest].
    unfold Lib.getRigDetails, Lib.get.
    unfold Lib.apiCall in Hcall |- *. now rewrite Hcall.
  - intros Hnone.
    unfold Lib.getRigs, Lib.getRigDetails, Lib.getAlgorithms, Lib.setRigStatus,
      Lib.get, Lib.post, Lib.apiCall, Api.apiCall.
    rewrite Hnone. repeat split.
Qed.

(** X17. [init] reports success only for a usable client.  [init]
    returns [true] exactly when the time sync succeeded, the rig list
    was then fetched through the synced client and the answer carries
    [miningRigs]; the client it leaves then holds the clock offset
    [serverTime - localTime].  When the time sync fails, its error is
    swallowed and [init] returns [false], since the unsynced client
    rejects the rig list call. *)
Theorem init_success :
  forall (locale apiKey apiSecret orgId : string) (serverTime : option Z)
         (now_sync now_call : Z) (nonce : string),
    let result :=
      init locale apiKey apiSecret orgId serverTime now_sync now_call nonce in
    (fst result = true <->
     exists time rigs n,
       serverTime = Some time
       /\ Api.localTimeDiff (snd result) = Some (time - now_sync)%Z
       /\ getRigs (snd result) now_call nonce = Some rigs
       /\ miningRigs_length rigs = Some n)
    /\ (serverTime = None -> fst result = false)
    /\ Api.host (snd result) = "https://api2.nicehash.com"
    /\ Api.key (snd result) = apiKey /\ Api.secret (snd result) = apiSecret
    /\ Api.org (snd result) = orgId.
Proof.
  intros locale apiKey apiSecret orgId serverTime now_sync now_call nonce result.
  subst result. unfold Lib.init.
  destruct serverTime as [time|].
  - set (api := Api.getTime _ time now_sync).
    destruct (Lib.getRigs _ _ _ _ _ _ _ api now_call nonce) as [rigs|] eqn:Hrigs.
    + destruct (miningRigs_length rigs) as [n|] eqn:Hn; cbn [fst snd].
      * split; [|repeat split; discriminate].
        split; [intros _|reflexivity].
        exists time, rigs, n. rewrite Hrigs. repeat split. exact Hn.
      * split; [|repeat split; discriminate].
        split; [discriminate|].
        intros (time' & rigs' & n' & _ & _ & Hrigs' & Hn').
        rewrite Hrigs in Hrigs'. injection Hrigs' as <-. congruence.
    + cbn [fst snd]. split; [|repeat split; discriminate].
      split; [discriminate|].
      intros (time' & rigs' & n' & _ & _ & Hrigs' & _).
      rewrite Hrigs in Hrigs'. discriminate.
  - set (api := Api.new_Api _ _ _ _ _).
    assert (Hnone : Lib.getRigs qs_stringify qs_parse JSON_stringify hmac_sha256
                      version spread request api now_call nonce = None)
      by reflexivity.
    rewrite Hnone. cbn [fst snd]. split; [|repeat split].
    split; [discriminate|]. intros (time' & _ & _ & Hx & _). discriminate.
Qed.

End LibCalls.

Lemma wrapper_requests_witness :
  Api.localTimeDiff Plain.client = Some 500%Z
  /\ contains "?"%char "abc" = false
  /\ Lib.getRigDetails Plain.qs_stringify Plain.qs_parse Plain.JSON_stringify
       Plain.hmac_sha256 Plain.version Plain.spread Plain.request
       Plain.client 1700000060000 "nonce" "abc"
     = Some "GET https://api2.nicehash.com/main/api/v2/mining/rig2/abc".
Proof.
  assert (Hdiff : Api.localTimeDiff Plain.client = Some 500%Z) by reflexivity.
  assert (Hfree : contains "?"%char "abc" = false) by reflexivity.
  split; [exact Hdiff|]. split; [exact Hfree|].
  destruct (proj1 (proj2 (@wrapper_requests Plain.JsObject Plain.qs_stringify
                            Plain.qs_parse Plain.JSON_stringify Plain.hmac_sha256
                            Plain.version Plain.spread Plain.object_literal
                            Plain.Response Plain.request
                            Plain.client 1700000060000%Z "nonce" "abc"))
              500%Z Hdiff Hfree) as (o & Hcall & Huri & Hmethod & _).
  rewrite Hcall. unfold Plain.request. rewrite Huri, Hmethod. reflexivity.
Defined.

Lemma init_success_witness :
  fst (Lib.init Plain.qs_stringify Plain.qs_parse Plain.JSON_stringify
         Plain.hmac_sha256 Plain.version Plain.spread Plain.request
         Plain.miningRigs_length "en" "key" "secret" "org" None
         1700000000000 1700000000100 "nonce")
  = false.
Proof.
  exact (proj1 (proj2 (@init_success Plain.JsObject Plain.qs_stringify
                         Plain.qs_parse Plain.JSON_stringify Plain.hmac_sha256
                         Plain.version Plain.spread Plain.Response Plain.request
                         Plain.miningRigs_length "en" "key" "secret" "org" None
                         1700000000000%Z 1700000000100%Z "nonce"))
           eq_refl).
Defined.

(** ** Without an exchange rate *)

Section NoRate.

Variable num : Type.
Context `{JsNumber num}.

(** X18. Without an exchange rate there is no verdict.  While the
    ticker has not been fetched, or has no entry for the tariff
    currency, [getBitcoinRate] returns nothing; the tick then computes a
    profit percentage of 0, and unless the minimum profitability is
    positive it never takes the stop decision. *)
Theorem no_rate_no_verdict :
  forall (st : Rig.State num) (t : Rig.Tick num)
         (ticker : option (string -> option num)) (currency : string),
    Rig.bitcoinRate t = Lib.getBitcoinRate ticker currency ->
    ticker = None \/ (exists entries, ticker = Some entries
                                      /\ entries currency = None) ->
    (forall d, Rig.instant_profitPct t d = js_of_Z 0)
    /\ (js_lt (js_of_Z 0) (js_or (Rig.setting_min_profitability t) (js_of_Z 0))
        = false ->
        ~ Rig.stop_decision st t).
Proof.
  intros st t ticker currency Hrate Hticker.
  assert (Hnone : Rig.bitcoinRate t = None).
  { rewrite Hrate. destruct Hticker as [->|(entries & -> & Hentry)];
      [reflexivity|exact Hentry]. }
  assert (Hpct : forall d, Rig.instant_profitPct t d = js_of_Z 0).
  { intros d. unfold Rig.instant_profitPct, Rig.evaluate. rewrite Hnone.
    destruct (js_truthy (Rig.power_tariff t)); reflexivity. }
  split; [exact Hpct|].
  intros Hmin Hstop.
  destruct (proj1 (tariff_limit_step st t) Hstop) as (_ & d & _ & _ & Hbelow).
  rewrite Hpct in Hbelow. congruence.
Qed.

End NoRate.

Lemma no_rate_no_verdict_witness :
  let t : Rig.Tick Q :=
    {| Rig.now := 1700000480001;
       Rig.details := Some (Sample.payload Q "MINING");
       Rig.power_tariff := js_decimal 10 100;
       Rig.smart_mode := true;
       Rig.setting_min_profitability := js_of_Z 0;
       Rig.bitcoinRate := None |} in
  Rig.bitcoinRate t = Lib.getBitcoinRate None "USD"
  /\ ~ Rig.stop_decision (Sample.benchmarking Q) t.
Proof.
  intros t.
  assert (Hrate : Rig.bitcoinRate t = Lib.getBitcoinRate None "USD") by reflexivity.
  split; [exact Hrate|].
  exact (proj2 (@no_rate_no_verdict Q _ (Sample.benchmarking Q) t None "USD"
                  Hrate (or_introl eq_refl)) eq_refl).
Defined.

(** ** The algorithm table *)

Lemma find_app (A : Type) (p : A -> bool) (l l' : list A) :
  find p (l ++ l')
  = match find p l with
    | Some x => Some x
    | None => find p l'
    end.
Proof.
  induction l as [|x l IH]; [reflexivity|].
  cbn [app find]. now destruct (p x).
Qed.

Lemma assign_all (algos : list Algorithms.Algorithm) :
  forall (table : Algorithms.Table) (k : Z),
    fold_left (fun table algo => Algorithms.assign algo table) algos table k
    = match find (fun algo => (Algorithms.order algo =? k)%Z) (rev algos) with
      | Some algo => Some algo
      | None => table k
      end.
Proof.
  induction algos as [|algo algos IH]; intros table k; [reflexivity|].
  cbn [fold_left rev]. rewrite IH, find_app. cbn [find].
  destruct (find _ (rev algos)); [reflexivity|].
  unfold Algorithms.assign. rewrite Z.eqb_sym. now destruct (_ =? _)%Z.
Qed.

(** X19. The algorithm table is rebuilt from the answer.  When the
    algorithms are fetched, the table of the device afterwards maps an
    order to the last entry of the answer with that order, and to
    nothing if there is none: entries of the previous table do not
    survive.  When the fetch fails or the answer has no
    [miningAlgorithms], the table is left as it was. *)
Theorem getAlgorithms_rebuilds_table :
  forall (table : Algorithms.Table),
    (forall algos k,
        Algorithms.getAlgorithms table (Some algos) k
        = find (fun algo => (Algorithms.order algo =? k)%Z) (rev algos))
    /\ (forall algos k algo,
           Algorithms.getAlgorithms table (Some algos) k = Some algo ->
           In algo algos /\ Algorithms.order algo = k)
    /\ Algorithms.getAlgorithms table None = table.
Proof.
  intros table.
  assert (Hfind : forall algos k,
             Algorithms.getAlgorithms table (Some algos) k
             = find (fun algo => (Algorithms.order algo =? k)%Z) (rev algos)).
  { intros algos k. unfold Algorithms.getAlgorithms. rewrite assign_all.
    now destruct (find _ _). }
  split; [exact Hfind|]. split; [|reflexivity].
  intros algos k algo Hk. rewrite Hfind in Hk.
  apply find_some in Hk as [Hin Horder].
  split; [now apply in_rev|now apply Z.eqb_eq].
Qed.

Lemma getAlgorithms_rebuilds_table_witness :
  let old := Algorithms.assign {| Algorithms.order := 8; Algorithms.title := "X11" |}
               Algorithms.empty in
  let answer := [ {| Algorithms.order := 20; Algorithms.title := "DAGGERHASHIMOTO" |};
                  {| Algorithms.order := 20; Algorithms.title := "ETCHASH" |} ] in
  Algorithms.getAlgorithms old (Some answer) 20%Z
  = Some {| Algorithms.order := 20; Algorithms.title := "ETCHASH" |}
  /\ In {| Algorithms.order := 20; Algorithms.title := "ETCHASH" |} answer
  /\ Algorithms.getAlgorithms old (Some answer) 8%Z = None.
Proof.
  intros old answer.
  assert (Hk : Algorithms.getAlgorithms old (Some answer) 20%Z
               = Some {| Algorithms.order := 20; Algorithms.title := "ETCHASH" |})
    by reflexivity.
  split; [exact Hk|]. split.
  - exact (proj1 (proj1 (proj2 (getAlgorithms_rebuilds_table old)) answer 20%Z _ Hk)).
  - reflexivity.
Defined.

(** ** The dashboard and the rigs *)

Section RigMeasures.

Variable num : Type.
Context `{JsNumber num}.

(** The profitability block of a mining tick with a tariff, an
    exchange rate and a positive cost. *)
Lemma evaluate_costed (t : Rig.Tick num) (a : Rig.Aggregate num)
    (revenue : num) (s : Rig.Store num) (rate : num) :
  js_truthy (Rig.power_tariff t) = true ->
  Rig.bitcoinRate t = Some rate ->
  (0 < Rig.agg_mining a)%Z ->
  js_lt (js_of_Z 0) (Rig.costPerDayMBTC (Rig.evaluate t a revenue s)) = true ->
  let cost := Rig.costPerDayMBTC (Rig.evaluate t a revenue s) in
  let pct :=
    js_round (js_mul (js_div (js_sub (js_mul revenue (js_of_Z 1000)) cost) cost)
                (js_of_Z 100)) in
  Rig.profitPct (Rig.evaluate t a revenue s) = pct
  /\ Rig.evaluated_store (Rig.evaluate t a revenue s) "measure_profit_percent"
     = Some pct
  /\ Rig.evaluated_store (Rig.evaluate t a revenue s) "measure_cost" = Some cost
  /\ Rig.evaluated_store (Rig.evaluate t a revenue s) "measure_profit"
     = s "measure_profit".
Proof.
  intros Htariff Hrate Hmining. unfold Rig.evaluate.
  rewrite Htariff, Hrate. apply Z.ltb_lt in Hmining. rewrite Hmining.
  cbn [andb].
  set (c := js_div
              (js_mul (js_div (js_mul (Rig.power_tariff t) (Rig.agg_powerUsage a))
                         (js_of_Z 1000)) (js_of_Z 24))
              (js_div rate (js_of_Z 1000))).
  destruct (js_lt (js_of_Z 0) c) eqn:Hc;
    cbn [Rig.costPerDayMBTC Rig.profitPct Rig.evaluated_store].
  - intros _. repeat split.
  - intros Hx. rewrite Hx in Hc. discriminate.
Qed.

Lemma accumulate_measures (elapsed : Z) (a : Rig.Aggregate num) (revenue : num)
    (e : Rig.Evaluation num) (s : Rig.Store num) (k : string) :
  In k ["measure_profit"; "measure_cost"; "measure_profit_percent"] ->
  Rig.accumulate elapsed a revenue e s k = s k.
Proof.
  intros Hk. unfold Rig.accumulate. cbn [In] in Hk.
  (repeat destruct Hk as [<-|Hk]); try contradiction;
    destruct (js_truthy (Rig.mBTCRate e)); reflexivity.
Qed.

(** The measures a mining tick leaves in the store are those of its
    profitability block. *)
Lemma mining_tick_measures (st : Rig.State num) (t : Rig.Tick num)
    (d : Rig.Details num) (k : string) :
  Rig.details t = Some d -> Rig.unmanaged d = false ->
  Rig.has_devices d = true -> Rig.agg_mining (Rig.aggregate d) <> 0%Z ->
  In k ["measure_profit"; "measure_cost"; "measure_profit_percent"] ->
  let a := Rig.aggregate d in
  let revenue :=
    if js_truthy (Rig.agg_hashrate a) then Rig.profitability d else js_of_Z 0 in
  let s :=
    Rig.setStoreValue "mining" (js_of_Z 1)
      (Rig.setStoreValue "measure_profit" (js_mul revenue (js_of_Z 1000))
         (Rig.tick_store st d)) in
  Rig.store (fst (Rig.syncRigDetails st t)) k
  = Rig.evaluated_store (Rig.evaluate t a revenue s) k.
Proof.
  intros Hd Hu Hh Hm Hk a revenue s. subst a revenue s.
  rewrite (@syncRigDetails_mining num _ st t d Hd Hu Hh Hm).
  unfold Rig.mining_tick.
  destruct (Rig.lastSync st >? 0)%Z; [|reflexivity].
  destruct (js_truthy (Rig.agg_hashrate (Rig.aggregate d)));
    cbn [fst Rig.store].
  - rewrite assess_store_other, accumulate_measures; [reflexivity|exact Hk|].
    cbn [In] in Hk. (repeat destruct Hk as [<-|Hk]); try contradiction; reflexivity.
  - now rewrite accumulate_measures.
Qed.

End RigMeasures.

Lemma fold_left_sum (A : Type) (g : A -> Q) (l : list A) :
  forall a : Q, fold_left (fun v x => v + g x) l a == a + sumQ (map g l).
Proof.
  induction l as [|x l IH]; intros a; cbn [fold_left map].
  - cbn. ring.
  - rewrite IH, sumQ_cons. ring.
Qed.

Lemma round_comp (x y : Q) : x == y -> QNum.round x = QNum.round y.
Proof.
  intros Hxy. unfold QNum.round. f_equal. apply Qfloor_comp. now rewrite Hxy.
Qed.

(** X20. A fleet of one rig shows that rig's percentage.  After a
    tick that finds a device of the rig mining, with a tariff, an
    exchange rate and a positive daily cost, the percentage the
    dashboard computes from the store of that single rig is the
    percentage the rig itself has stored and fed to its rolling
    average. *)
Theorem dashboard_agrees_with_single_rig :
  forall (absent : Q) (st : Rig.State Q) (t : Rig.Tick Q) (d : Rig.Details Q)
         (rate : Q),
    Rig.details t = Some d -> Rig.unmanaged d = false ->
    Rig.has_devices d = true ->
    (0 < Rig.agg_mining (Rig.aggregate d))%Z ->
    js_truthy (Rig.power_tariff t) = true ->
    Rig.bitcoinRate t = Some rate ->
    let a := Rig.aggregate d in
    let revenue :=
      if js_truthy (Rig.agg_hashrate a) then Rig.profitability d else js_of_Z 0 in
    0 < Rig.costPerDayMBTC (Rig.evaluate t a revenue (fun _ => None)) ->
    let rig := Rig.store (fst (Rig.syncRigDetails st t)) in
    rig "measure_profit_percent" = Some (Rig.instant_profitPct t d)
    /\ Dashboard.fleet_profitPct absent [rig] = Rig.instant_profitPct t d.
Proof.
  intros absent st t d rate Hd Hu Hh Hmining Htariff Hrate a revenue Hcost rig.
  assert (Hm : Rig.agg_mining (Rig.aggregate d) <> 0%Z) by lia.
  set (s := Rig.setStoreValue "mining" (js_of_Z 1)
              (Rig.setStoreValue "measure_profit" (js_mul revenue (js_of_Z 1000))
                 (Rig.tick_store st d))).
  assert (Hstore : forall k,
             In k ["measure_profit"; "measure_cost"; "measure_profit_percent"] ->
             rig k = Rig.evaluated_store (Rig.evaluate t a revenue s) k).
  { intros k Hk. subst rig.
    exact (@mining_tick_measures Q _ st t d k Hd Hu Hh Hm Hk). }
  assert (Hlt : forall s0,
             js_lt (js_of_Z 0) (Rig.costPerDayMBTC (Rig.evaluate t a revenue s0))
             = true).
  { intros s0.
    rewrite (@evaluate_costPerDayMBTC Q _ t a revenue revenue s0 (fun _ => None)).
    cbn [js_lt js_of_Z Q_JsNumber]. unfold QNum.ltb. apply negb_true_iff.
    destruct (Qle_bool _ _) eqn:Hle; [|reflexivity].
    apply Qle_bool_iff in Hle. change (inject_Z 0) with 0 in Hle.
    exfalso. exact (Qlt_not_le _ _ Hcost Hle). }
  destruct (@evaluate_costed Q _ t a revenue s rate Htariff Hrate Hmining (Hlt s))
    as (_ & Hpct & Hmc & Hmp).
  destruct (@evaluate_costed Q _ t a revenue (fun _ => None) rate Htariff Hrate
              Hmining (Hlt _)) as (Hinstant & _).
  cbv zeta in Hpct, Hmc, Hmp, Hinstant.
  rewrite (@evaluate_costPerDayMBTC Q _ t a revenue revenue s (fun _ => None))
    in Hpct, Hmc.
  set (cost := Rig.costPerDayMBTC (Rig.evaluate t a revenue (fun _ => None))) in *.
  assert (Hpercent : Rig.instant_profitPct t d
                     = js_round (js_mul (js_div (js_sub (js_mul revenue (js_of_Z 1000))
                                                   cost) cost) (js_of_Z 100)))
    by exact Hinstant.
  rewrite Hpercent. split.
  - rewrite (Hstore "measure_profit_percent") by (cbn; auto). exact Hpct.
  - unfold Dashboard.fleet_profitPct, Dashboard.total, Dashboard.getStoreValue.
    cbn [fold_left].
    rewrite (Hstore "measure_profit") by (cbn; auto).
    rewrite (Hstore "measure_cost") by (cbn; auto).
    rewrite Hmp, Hmc. subst s. cbn [Rig.setStoreValue String.eqb Ascii.eqb Bool.eqb].
    cbn [js_round js_mul js_div js_sub js_add js_of_Z Q_JsNumber].
    apply round_comp.
    rewrite !js_or_zero. cbn [js_of_Z Q_JsNumber].
    change (inject_Z 0) with 0. rewrite !Qplus_0_l. reflexivity.
Qed.

Lemma dashboard_agrees_with_single_rig_witness :
  let st := Sample.benchmarking Q in
  let t := Sample.tick Q 1700000120000 "MINING" 10 in
  let rig := Rig.store (fst (Rig.syncRigDetails st t)) in
  (0 < Rig.agg_mining (Rig.aggregate (Sample.payload Q "MINING")))%Z
  /\ Dashboard.fleet_profitPct 0 [rig]
     = Rig.instant_profitPct t (Sample.payload Q "MINING").
Proof.
  intros st t rig.
  assert (Hmining : (0 < Rig.agg_mining (Rig.aggregate (Sample.payload Q "MINING")))%Z)
    by reflexivity.
  split; [exact Hmining|].
  refine (proj2 (@dashboard_agrees_with_single_rig 0 st t (Sample.payload Q "MINING")
                   (js_of_Z 600) eq_refl eq_refl eq_refl Hmining eq_refl eq_refl _)).
  vm_compute. reflexivity.
Defined.

(** X21. The dashboard shows the fleet totals to the hundredth.  For
    each of its eleven metrics, the capability the dashboard sets lies
    within half a hundredth of the sum of that metric over the stores of
    all rigs; without the rig driver it sets nothing. *)
Theorem dashboard_totals_to_the_hundredth :
  forall (absent : Q) (c : Dashboard.Capabilities Q),
    (forall (rigDevices : list (Rig.Store Q)) (metric : string),
        In metric Dashboard.metric_names ->
        let exact :=
          sumQ (map (fun rig => Dashboard.getStoreValue absent rig metric)
                  rigDevices) in
        exists shown,
          Dashboard.gatherDetails absent (Some rigDevices) c metric = Some shown
          /\ exact - (1 # 200) < shown <= exact + (1 # 200))
    /\ Dashboard.gatherDetails absent None c = c.
Proof.
  intros absent c. split; [|reflexivity].
  intros rigDevices metric Hmetric exact.
  set (sum := Dashboard.total absent rigDevices metric).
  assert (Hsum : sum == exact).
  { subst sum exact. unfold Dashboard.total.
    cbn [js_add js_of_Z Q_JsNumber].
    rewrite (fold_left_sum (fun rig => Dashboard.getStoreValue absent rig metric)).
    change (inject_Z 0) with 0. ring. }
  exists (js_div (js_round (js_mul sum (js_of_Z 100))) (js_of_Z 100)).
  split.
  - subst sum. unfold Dashboard.gatherDetails.
    cbn [Dashboard.metric_names In] in Hmetric.
    (repeat destruct Hmetric as [<-|Hmetric]); try contradiction; reflexivity.
  - cbn [js_div js_round js_mul js_of_Z Q_JsNumber]. unfold QNum.round.
    rewrite <- Hsum.
    set (y := sum * inject_Z 100 + (1 # 2)).
    pose proof (Qfloor_le y) as Hle. pose proof (Qlt_floor y) as Hlt.
    rewrite inject_Z_plus in Hlt.
    change (inject_Z 1) with 1 in Hlt.
    change (inject_Z 100) with 100 in *.
    subst y. set (r := inject_Z (Qfloor _)) in *.
    split.
    + apply Qlt_shift_div_l; [reflexivity|]. lra.
    + apply Qle_shift_div_r; [reflexivity|]. lra.
Qed.

Lemma dashboard_totals_to_the_hundredth_witness :
  let rig : Rig.Store Q :=
    fun k => if String.eqb k "hashrate" then Some (1234567 # 10000) else None in
  In "hashrate" Dashboard.metric_names
  /\ exists shown,
      Dashboard.gatherDetails 0 (Some [rig; rig]) (fun _ => None) "hashrate"
      = Some shown
      /\ sumQ [1234567 # 10000; 1234567 # 10000] - (1 # 200) < shown.
Proof.
  intros rig.
  assert (Hmetric : In "hashrate" Dashboard.metric_names) by (cbn; tauto).
  split; [exact Hmetric|].
  destruct (proj1 (dashboard_totals_to_the_hundredth 0 (fun _ => None))
              [rig; rig] "hashrate" Hmetric) as (shown & Hshown & Hlow & _).
  exists shown. split; [exact Hshown|exact Hlow].
Defined.

(** ** After a stop *)

(** X22. A stopped rig is not restarted at the same tariff.  When a
    tick has taken the stop decision at a positive tariff, a following
    tick that finds the rig idle less than 7 hours later, with a tariff
    that is not below the one of the stop, sends no command: the rig is
    started again only by a lower tariff or after 7 hours. *)
Theorem no_restart_at_same_tariff :
  forall (st : Rig.State Q) (stop idle : Rig.Tick Q) (d : Rig.Details Q),
    Rig.stop_decision st stop ->
    (0 < Rig.now stop)%Z ->
    0 < Rig.power_tariff stop ->
    Rig.details idle = Some d -> Rig.unmanaged d = false ->
    Rig.has_devices d = true -> Rig.agg_mining (Rig.aggregate d) = 0%Z ->
    Rig.power_tariff stop <= Rig.power_tariff idle ->
    (Rig.now idle - Rig.now stop <= 7 * 3600000)%Z ->
    commands (snd (Rig.syncRigDetails (fst (Rig.syncRigDetails st stop)) idle)) = [].
Proof.
  intros st stop idle d Hstop Hnow Htariff Hd Hu Hh Hm Hsame Hsoon.
  destruct (proj1 (@tariff_limit_step Q _ st stop) Hstop)
    as (Hlimit & d' & (Hd' & Hu' & Hh' & Hm' & Hr') & _).
  assert (Hmined : Rig.lastMined (fst (Rig.syncRigDetails st stop)) = Rig.now stop).
  { rewrite (@syncRigDetails_mining Q _ st stop d' Hd' Hu' Hh' Hm').
    unfold Rig.mining_tick.
    destruct (Rig.lastSync st >? 0)%Z; [|reflexivity].
    destruct (js_truthy (Rig.agg_hashrate (Rig.aggregate d'))); reflexivity. }
  set (st' := fst (Rig.syncRigDetails st stop)) in *.
  rewrite (@syncRigDetails_idle Q _ st' idle d Hd Hu Hh Hm).
  unfold Rig.idle_tick. cbn [snd].
  replace (Rig.start_condition st' idle (Rig.tariff_limit_of (Rig.store st')))
    with false; [reflexivity|].
  symmetry. unfold Rig.start_condition, Rig.tariff_limit_of, Rig.getStoreValue_or.
  rewrite Hlimit, Hmined. unfold js_or, Rig.smartMagicNumber.
  cbn [js_truthy js_seq js_lt js_of_Z Q_JsNumber]. unfold QNum.truthy, QNum.ltb.
  assert (Hnonzero : Qeq_bool (Rig.power_tariff stop) 0 = false).
  { destruct (Qeq_bool _ 0) eqn:Hz; [|reflexivity].
    apply Qeq_bool_eq in Hz. rewrite Hz in Htariff. discriminate. }
  rewrite Hnonzero. cbn [negb].
  assert (Hunset : Qeq_bool (Rig.power_tariff stop) (inject_Z (-1)) = false).
  { destruct (Qeq_bool _ (inject_Z (-1))) eqn:Hz; [|reflexivity].
    apply Qeq_bool_eq in Hz. rewrite Hz in Htariff. discriminate. }
  rewrite Hunset.
  apply Qle_bool_iff in Hsame. rewrite Hsame. cbn [negb orb].
  replace (Rig.now stop =? 0)%Z with false by (symmetry; apply Z.eqb_neq; lia).
  replace (Rig.now idle - Rig.now stop >? 1000 * 60 * 60 * 7)%Z with false
    by (symmetry; rewrite Z.gtb_ltb; apply Z.ltb_ge; lia).
  now destruct (Rig.smart_mode idle).
Qed.

Lemma no_restart_at_same_tariff_witness :
  let st := Sample.benchmarking Q in
  let stop := Sample.tick Q 1700000480001 "MINING" 10 in
  let idle := Sample.tick Q 1700000540000 "INACTIVE" 10 in
  Rig.stop_decision st stop
  /\ 0 < Rig.power_tariff stop
  /\ Rig.power_tariff stop <= Rig.power_tariff idle
  /\ commands (snd (Rig.syncRigDetails (fst (Rig.syncRigDetails st stop)) idle)) = [].
Proof.
  intros st stop idle.
  assert (Hstop : Rig.stop_decision st stop) by (vm_compute; auto).
  assert (Htariff : 0 < Rig.power_tariff stop) by reflexivity.
  assert (Hsame : Rig.power_tariff stop <= Rig.power_tariff idle)
    by (vm_compute; discriminate).
  repeat (split; [assumption|]).
  apply (@no_restart_at_same_tariff st stop idle (Sample.payload Q "INACTIVE")
           Hstop); try reflexivity; try assumption.
  vm_compute. discriminate.
Defined.

(** ** Evaluating the meters *)

Lemma meters_integrate_witness :
  let st := Sample.benchmarking Q in
  let t := Sample.tick Q 1700000120000 "MINING" 10 in
  let d := Sample.payload Q "MINING" in
  Rig.details t = Some d /\ Rig.unmanaged d = false
  /\ Rig.has_devices d = true /\ Rig.agg_mining (Rig.aggregate d) <> 0%Z
  /\ (0 < Rig.lastSync st)%Z
  /\ Rig.store (fst (Rig.syncRigDetails st t)) "meter_power"
     = Some (js_add (meter (Rig.store st) "meter_power")
               (js_mul (js_div (Rig.agg_powerUsage (Rig.aggregate d)) (js_of_Z 1000))
                  (js_div (js_of_Z (Rig.now t - Rig.lastSync st))
                     (js_of_Z 3600000)))).
Proof.
  intros st t d.
  assert (Hd : Rig.details t = Some d) by reflexivity.
  assert (Hu : Rig.unmanaged d = false) by reflexivity.
  assert (Hh : Rig.has_devices d = true) by reflexivity.
  assert (Hm : Rig.agg_mining (Rig.aggregate d) <> 0%Z) by (vm_compute; congruence).
  assert (Hs : (0 < Rig.lastSync st)%Z) by (vm_compute; reflexivity).
  repeat (split; [assumption|]).
  exact (proj1 (@meters_integrate Q _ st t d Hd Hu Hh Hm Hs)).
Defined.
